(** * gramjs-sqlite-session: session persistence and entity cache

    A shallow embedding of the TypeScript sources

    - [ExtendedMemorySession]  (src/session/ExtendedMemorySession.ts)
    - [DatabaseManager]        (utils/database)
    - [SessionManager]         (src/manager/session-manager.ts)
    - [FileExportManager]      (utils/file-export)
    - [SqliteSession]          (the two copies of the session class)

    Stateful code is written in a state-and-exception monad over an explicit
    world (the SQLite files, the plain files, the clock).  A JavaScript
    exception leaves the state as it was at the [throw]: nothing is rolled
    back.  [async] methods are run to completion: the program is
    single-threaded and every caller awaits them.

    Numbers are the integer-valued ones.  The entities a [SqliteSession]
    holds are JSON data, kept by value; where the identity of an entity
    object matters ([getEntityId]) the entity cache is instantiated with
    heap references instead.  The runtime's [JSON.parse] and
    [JSON.stringify] are parameters of the session class; a reference pair
    serves to run examples.  Failures of the disk and of the SQLite engine
    other than a missing table are not modelled. *)

From Stdlib Require Import ZArith NArith String Ascii Strings.Byte List Lia.
From stdpp Require Import base tactics option list gmap strings pretty sorting.

Local Open Scope Z_scope.

(* ================================================================== *)
(** * The JavaScript runtime *)
(* ================================================================== *)

Module JS.

(** A JavaScript [number] used as a [Map] key: the integer-valued numbers
    and [NaN] (which [parseInt] produces).  [Map] compares keys with
    SameValueZero, under which [NaN] equals itself, so Leibniz equality on
    this type is the key comparison. *)
Inductive number : Type :=
| Int (z : Z)
| NaN.

Global Instance number_eq_dec : EqDecision number.
Proof. solve_decision. Defined.

(** The keys the model is exact on: [NaN], and the integers that a double
    holds exactly, which [String] prints in plain decimal digits. *)
Definition safe_key (n : number) : Prop :=
  match n with
  | Int z => -9007199254740991 ≤ z ≤ 9007199254740991
  | NaN => True
  end.

(** The values [JSON.parse] produces.  Numbers are the integer-valued ones:
    the code inspects a number only through [typeof], truthiness and
    equality.  An object is its list of own properties in property
    order. *)
#[warnings="-register-all"] Inductive json : Type :=
| JNull
| JBool (b : bool)
| JNum (n : Z)
| JStr (s : string)
| JArr (items : list json)
| JObj (props : list (string * json)).

(** [any]: a value or [undefined]. *)
Definition any : Type := option json.
Definition undefined : any := None.

(** What the program can throw.  [Error msg] is [new Error(msg)]; the other
    three are raised by the runtime and by better-sqlite3, and their
    messages are engine-specific. *)
Inductive exn : Type :=
| Error (msg : string)
| TypeError
| SyntaxError
| SqliteError.

(** The result of running a piece of code: it returns, it throws, or it
    leaves the declared TypeScript types ([Untyped]): the unchecked cast
    [data as ExportedSession] lets a value of another type into a typed
    field, and the typed model says nothing about what follows. *)
Inductive outcome (A : Type) : Type :=
| Return (a : A)
| Throw (e : exn)
| Untyped.
Global Arguments Return {A} a.
Global Arguments Throw {A} e.
Global Arguments Untyped {A}.

(** ** The state-and-exception monad *)

Definition M (S A : Type) : Type := S → outcome A * S.

Definition ret {S A} (a : A) : M S A := λ s, (Return a, s).
Definition throw {S A} (e : exn) : M S A := λ s, (Throw e, s).
Definition untyped {S A} : M S A := λ s, (Untyped, s).
Definition bind {S A B} (m : M S A) (k : A → M S B) : M S B :=
  λ s, match m s with
       | (Return a, s') => k a s'
       | (Throw e, s') => (Throw e, s')
       | (Untyped, s') => (Untyped, s')
       end.
Definition get {S} : M S S := λ s, (Return s, s).
Definition gets {S A} (f : S → A) : M S A := λ s, (Return (f s), s).
Definition modify {S} (f : S → S) : M S unit := λ s, (Return tt, f s).

(** [try { m } catch (e) { h e }] *)
Definition try_catch {S A} (m : M S A) (h : exn → M S A) : M S A :=
  λ s, match m s with
       | (Throw e, s') => h e s'
       | r => r
       end.

(** [try { m } finally { f }] where [f] itself does not throw or return. *)
Definition try_finally {S A} (m : M S A) (f : M S unit) : M S A :=
  λ s, match m s with
       | (r, s') => (r, snd (f s'))
       end.

(** [for (const x of l) { body x }] *)
Fixpoint for_of {S A} (l : list A) (body : A → M S unit) : M S unit :=
  match l with
  | [] => ret tt
  | x :: l' => bind (body x) (λ _, for_of l' body)
  end.

(** Run a computation on a component of the state. *)
Definition zoom {S T A} (proj : S → T) (upd : T → S → S) (m : M T A) : M S A :=
  λ s, match m (proj s) with
       | (r, t') => (r, upd t' s)
       end.

(** ** Truthiness: [x || d] *)

Definition truthy_Z (z : Z) : bool := negb (z =? 0).
Definition truthy_string (s : string) : bool :=
  match s with EmptyString => false | String _ _ => true end.

(** [x || null] on an optional number: [undefined] and [0] give [null]. *)
Definition or_null_Z (x : option Z) : option Z :=
  match x with
  | Some z => if truthy_Z z then Some z else None
  | None => None
  end.
(** [x || null] on an optional string: [undefined] and [''] give [null]. *)
Definition or_null_string (x : option string) : option string :=
  match x with
  | Some s => if truthy_string s then Some s else None
  | None => None
  end.
(** [x || d] with a default [d]. *)
Definition or_Z (x : option Z) (d : Z) : Z := default d (or_null_Z x).
Definition or_string (x : option string) (d : string) : string :=
  default d (or_null_string x).

(** ** [String(n)] and [parseInt(s)] *)

(** [String(n)] for a [safe_key]: the decimal digits, with a leading minus
    sign for a negative number.  (From [1e21] on the runtime prints an
    exponent; the definition is not meant for such numbers.) *)
Definition String_of_number (n : number) : string :=
  match n with
  | Int z => pretty z
  | NaN => "NaN"
  end.

(** White space that [parseInt] skips (the ASCII part of it). *)
Definition is_white_space (c : ascii) : bool :=
  match c with
  | " "%char | "009"%char | "010"%char | "011"%char | "012"%char
  | "013"%char => true
  | _ => false
  end.

Fixpoint trim_start (s : string) : string :=
  match s with
  | String c s' => if is_white_space c then trim_start s' else s
  | EmptyString => s
  end.

(** The value of a character as a digit in the given radix. *)
Definition digit_value (radix : Z) (c : ascii) : option Z :=
  let n := Z.of_N (N_of_ascii c) in
  let v :=
    if (48 <=? n) && (n <=? 57) then Some (n - 48)
    else if (97 <=? n) && (n <=? 122) then Some (n - 87)
    else if (65 <=? n) && (n <=? 90) then Some (n - 55)
    else None in
  match v with
  | Some d => if d <? radix then Some d else None
  | None => None
  end.

(** The longest prefix of digits, read most significant first; [acc] is
    the value read so far, [None] before the first digit. *)
Fixpoint parse_digits (radix : Z) (acc : option Z) (s : string) : option Z :=
  match s with
  | String c s' =>
      match digit_value radix c with
      | Some d => parse_digits radix (Some (default 0 acc * radix + d)) s'
      | None => acc
      end
  | EmptyString => acc
  end.

(** [parseInt(s)] with no radix argument. *)
Definition parseInt (s : string) : number :=
  let s := trim_start s in
  let '(sign, s) :=
    match s with
    | String "-"%char r => (-1, r)
    | String "+"%char r => (1, r)
    | _ => (1, s)
    end in
  let '(radix, s) :=
    match s with
    | String "0"%char (String "x"%char r) => (16, r)
    | String "0"%char (String "X"%char r) => (16, r)
    | _ => (10, s)
    end in
  match parse_digits radix None s with
  | Some n => Int (sign * n)
  | None => NaN
  end.

(** ** Objects *)

(** An array index: the canonical decimal string of an integer in
    [0, 2^32 - 2].  Such property names come first, in ascending order. *)
Definition array_index (k : string) : option Z :=
  match parse_digits 10 None k with
  | Some n =>
      if bool_decide (pretty n = k ∧ n < 4294967295) then Some n else None
  | None => None
  end.

(** [o[k]] *)
Fixpoint get_prop (props : list (string * json)) (k : string) : any :=
  match props with
  | [] => undefined
  | (k', v) :: rest => if bool_decide (k' = k) then Some v else get_prop rest k
  end.

Fixpoint replace_prop (props : list (string * json)) (k : string) (v : json)
  : list (string * json) :=
  match props with
  | [] => []
  | (k', v') :: rest =>
      if bool_decide (k' = k) then (k, v) :: rest
      else (k', v') :: replace_prop rest k v
  end.

(** Where a new property goes: an array index before the first property
    that is not an array index or is a larger one, any other name last. *)
Fixpoint insert_prop (props : list (string * json)) (k : string) (v : json)
  : list (string * json) :=
  match props with
  | [] => [(k, v)]
  | (k', v') :: rest =>
      match array_index k, array_index k' with
      | Some i, Some i' =>
          if i <? i' then (k, v) :: props
          else (k', v') :: insert_prop rest k v
      | Some _, None => (k, v) :: props
      | None, _ => (k', v') :: insert_prop rest k v
      end
  end.

(** [o[k] = v] *)
Definition set_prop (props : list (string * json)) (k : string) (v : json)
  : list (string * json) :=
  match get_prop props k with
  | Some _ => replace_prop props k v
  | None => insert_prop props k v
  end.

(** [o.k] on a value that is neither [null] nor [undefined]; the names
    read here are not properties of an array, a string, a number or a
    boolean. *)
Definition prop (o : any) (k : string) : any :=
  match o with
  | Some (JObj props) => get_prop props k
  | _ => undefined
  end.

(** [o.k] where [o] may be anything: reading a property of [null] or
    [undefined] throws. *)
Definition member (o : any) (k : string) : outcome any :=
  match o with
  | None | Some JNull => Throw TypeError
  | Some _ => Return (prop o k)
  end.

(** [typeof v === 'number'] *)
Definition typeof_number (v : any) : bool :=
  match v with
  | Some (JNum _) => true
  | _ => false
  end.

(** [!!v] *)
Definition truthy (v : any) : bool :=
  match v with
  | None | Some JNull => false
  | Some (JBool b) => b
  | Some (JNum n) => truthy_Z n
  | Some (JStr s) => truthy_string s
  | Some (JArr _) | Some (JObj _) => true
  end.

Fixpoint chars_of (s : string) : list json :=
  match s with
  | EmptyString => []
  | String c s' => JStr (String c EmptyString) :: chars_of s'
  end.

Definition indexed (l : list json) : list (string * json) :=
  imap (λ i v, (pretty (Z.of_nat i), v)) l.

(** [Object.entries(v)] *)
Definition Object_entries (v : any) : outcome (list (string * json)) :=
  match v with
  | None | Some JNull => Throw TypeError
  | Some (JObj props) => Return props
  | Some (JArr items) => Return (indexed items)
  | Some (JStr s) => Return (indexed (chars_of s))
  | Some (JBool _) | Some (JNum _) => Return []
  end.

(** ** Buffers *)

Definition Buffer : Type := list byte.

Definition hex_digit (n : Z) : ascii :=
  ascii_of_N (Z.to_N (if n <? 10 then 48 + n else 87 + n)).

(** [buf.toString('hex')] *)
Fixpoint Buffer_toString_hex (b : Buffer) : string :=
  match b with
  | [] => EmptyString
  | x :: b' =>
      let n := Z.of_N (Byte.to_N x) in
      String (hex_digit (n / 16)) (String (hex_digit (n mod 16))
        (Buffer_toString_hex b'))
  end.

(** [Buffer.from(s, 'hex')]: whole pairs of hex digits up to the first
    pair that is not one. *)
Fixpoint Buffer_from_hex (s : string) : Buffer :=
  match s with
  | String c1 (String c2 s') =>
      match digit_value 16 c1, digit_value 16 c2 with
      | Some h, Some l =>
          match Byte.of_N (Z.to_N (h * 16 + l)) with
          | Some x => x :: Buffer_from_hex s'
          | None => []
          end
      | _, _ => []
      end
  | _ => []
  end.

End JS.

Declare Scope js_scope.
Delimit Scope js_scope with js.
Notation "'let*' x := m 'in' k" := (JS.bind m (λ x, k))
  (at level 10, x pattern, m at level 100, k at level 200) : js_scope.
Notation "m ;; k" := (JS.bind m (λ _, k))
  (at level 100, k at level 200, right associativity) : js_scope.

(* ================================================================== *)
(** * [Map<number, V>] *)
(* ================================================================== *)

(** A [Map] keeps its entries in insertion order, one entry per key:
    [set] on a key that is present changes the value where it stands, on a new
    key it appends the entry. *)
Module JSMap.
Import JS.

Section map.
Context {V : Type}.

Definition t : Type := list (number * V).

Definition empty : t := [].

Fixpoint get (m : t) (k : number) : option V :=
  match m with
  | [] => None
  | (k', v) :: m' => if bool_decide (k' = k) then Some v else get m' k
  end.

Definition has (m : t) (k : number) : bool := bool_decide (is_Some (get m k)).

Fixpoint set (m : t) (k : number) (v : V) : t :=
  match m with
  | [] => [(k, v)]
  | (k', v') :: m' =>
      if bool_decide (k' = k) then (k', v) :: m'
      else (k', v') :: set m' k v
  end.

Fixpoint delete (m : t) (k : number) : t :=
  match m with
  | [] => []
  | (k', v') :: m' =>
      if bool_decide (k' = k) then m' else (k', v') :: delete m' k
  end.

Definition size (m : t) : Z := Z.of_nat (length m).
Definition entries (m : t) : list (number * V) := m.
Definition values (m : t) : list V := m.*2.
Definition keys (m : t) : list number := m.*1.

(** The invariant of the representation: one entry per key. *)
Definition wf (m : t) : Prop := NoDup (keys m).
End map.
Global Arguments t : clear implicits.

(** [Object.fromEntries(m)]: each key becomes a property name. *)
Definition Object_fromEntries (m : t json) : list (string * json) :=
  fold_left (λ o '(k, v), set_prop o (String_of_number k) v) (entries m) [].
End JSMap.

(* ================================================================== *)
(** * src/session/ExtendedMemorySession.ts *)
(* ================================================================== *)

Module ExtendedMemorySession.
Import JS.

Section session.
(** The entities are of type [any]; [strict_eq] is [===] on them. *)
Context {V : Type} (strict_eq : V → V → bool).

(** The one field of the class, [_customEntities]. *)
Record t : Type := mk { _customEntities : JSMap.t V }.

Definition new : t := {| _customEntities := JSMap.empty |}.

Definition getEntityById (this : t) (id : number) : option V :=
  JSMap.get (_customEntities this) id.

Definition setEntity (this : t) (id : number) (entity : V) : t :=
  {| _customEntities := JSMap.set (_customEntities this) id entity |}.

Definition entitiesMap (this : t) : JSMap.t V := _customEntities this.

Definition clearEntities (this : t) : t :=
  {| _customEntities := JSMap.empty |}.

Definition hasEntity (this : t) (id : number) : bool :=
  JSMap.has (_customEntities this) id.

Definition deleteEntity (this : t) (id : number) : bool * t :=
  (JSMap.has (_customEntities this) id,
   {| _customEntities := JSMap.delete (_customEntities this) id |}).

Definition getAllEntities (this : t) : list V :=
  JSMap.values (_customEntities this).

(** The loop of [getEntityId] over the entries, in insertion order. *)
Fixpoint getEntityId_loop (es : list (number * V)) (entity : V)
  : option number :=
  match es with
  | [] => None
  | (id, ent) :: es' =>
      if strict_eq ent entity then Some id
      else getEntityId_loop es' entity
  end.

Definition getEntityId (this : t) (entity : V) : option number :=
  getEntityId_loop (JSMap.entries (_customEntities this)) entity.
End session.
Global Arguments t : clear implicits.
End ExtendedMemorySession.

(** ** Entities as objects on the heap

    An entity handed to [setEntity] is an object: a reference into the heap,
    and [===] on two objects compares the references, never what they
    hold. *)
Module Heap.
Import JS.

Definition addr : Type := positive.

Inductive value : Type :=
| Prim (v : json)   (* used for a number, a string, a boolean, null *)
| Obj (a : addr).

Definition heap : Type := gmap addr (list (string * json)).

(** [x === y] *)
Definition strict_eq (x y : value) : bool :=
  match x, y with
  | Obj a, Obj b => bool_decide (a = b)
  | Prim (JNum n), Prim (JNum m) => bool_decide (n = m)
  | Prim (JStr s), Prim (JStr s') => bool_decide (s = s')
  | Prim (JBool b), Prim (JBool b') => bool_decide (b = b')
  | Prim JNull, Prim JNull => true
  | _, _ => false
  end.

(** Two objects that hold the same properties with the same values. *)
Definition same_structure (h : heap) (a b : addr) : Prop :=
  is_Some (h !! a) ∧ h !! a = h !! b.
End Heap.

(* ================================================================== *)
(** * The world outside the process *)
(* ================================================================== *)

(** What better-sqlite3 and [fs] act on.  A SQLite file holds the table
    [telegram_sessions] once [ensureTable] has created it, with its rows in
    rowid order, and the counter that AUTOINCREMENT keeps in
    [sqlite_sequence].  [CURRENT_TIMESTAMP] reads the clock, in whole
    seconds; its text form has a fixed width, so comparing two of them as
    text is comparing the times.  A path names a SQLite file, a plain file
    or a directory, never two of them. *)
Module World.
Import JS.

Abbreviation timestamp := N (only parsing).

(** A row of [telegram_sessions] (the interface [SessionData]). *)
Record Row : Type := mkRow {
  id : Z;
  name : string;
  auth_key : option Buffer;
  dc_id : option Z;
  server_address : option string;
  port : option Z;
  entities : option string;
  created_at : timestamp;
  updated_at : timestamp;
}.

Record database : Type := mkDatabase {
  telegram_sessions : option (list Row);
  sqlite_sequence : Z;
}.

Definition new_database : database :=
  {| telegram_sessions := None; sqlite_sequence := 0 |}.

Record world : Type := mkWorld {
  dbs : gmap string database;     (* the SQLite files, by path *)
  files : gmap string string;     (* the plain files, by path *)
  dirs : gset string;             (* the directories *)
  handles : Z;                    (* open database connections *)
  clock : timestamp;
}.

Definition set_dbs (f : gmap string database → gmap string database)
  (w : world) : world :=
  {| dbs := f (dbs w); files := files w; dirs := dirs w;
     handles := handles w; clock := clock w |}.
Definition set_files (f : gmap string string → gmap string string)
  (w : world) : world :=
  {| dbs := dbs w; files := f (files w); dirs := dirs w;
     handles := handles w; clock := clock w |}.
Definition set_dirs (f : gset string → gset string) (w : world) : world :=
  {| dbs := dbs w; files := files w; dirs := f (dirs w);
     handles := handles w; clock := clock w |}.
Definition set_handles (f : Z → Z) (w : world) : world :=
  {| dbs := dbs w; files := files w; dirs := dirs w;
     handles := f (handles w); clock := clock w |}.
(** Time passes. *)
Definition set_clock (t : timestamp) (w : world) : world :=
  {| dbs := dbs w; files := files w; dirs := dirs w;
     handles := handles w; clock := t |}.

(** A connection, as [new Database(path)] returns it: the path it is open
    on. *)
Abbreviation Database := string (only parsing).

(** [new Database(path)]: opens the file and creates it when missing.  The
    driver throws when the directory of the path does not exist; the world
    does not say in which directory a store lies, so this is the open of a
    path whose directory exists.  The further properties of code that opens a
    store say so with the hypothesis [MoreProps.opens]. *)
Definition Database_new (path : string) : M world Database :=
  (modify (λ w,
     set_handles (Z.add 1)
       (match dbs w !! path with
        | Some _ => w
        | None => set_dbs <[path := new_database]> w
        end)) ;;
   ret path)%js.

(** [db.close()] *)
Definition Database_close (db : Database) : M world unit :=
  modify (set_handles (λ n, n - 1)).

(** Run a statement on the file behind a connection. *)
Definition on_database {A} (db : Database)
  (f : timestamp → database → outcome A * database) : M world A :=
  λ w, match dbs w !! db with
       | Some d =>
           let '(r, d') := f (clock w) d in
           (r, set_dbs <[db := d']> w)
       | None => (Throw SqliteError, w)
       end.

(** A statement that names the table does not prepare without it. *)
Definition on_table {A} (db : Database)
  (f : timestamp → Z → list Row → A * (Z * list Row)) : M world A :=
  on_database db (λ now d,
    match telegram_sessions d with
    | Some rows =>
        let '(r, (seq, rows')) := f now (sqlite_sequence d) rows in
        (Return r, {| telegram_sessions := Some rows'; sqlite_sequence := seq |})
    | None => (Throw SqliteError, d)
    end).

(** ** [fs] *)

(** A path exists when it names a plain file, a directory or a SQLite
    file. *)
Definition existsSync (p : string) : M world bool :=
  gets (λ w, bool_decide (is_Some (files w !! p)) || bool_decide (p ∈ dirs w)
             || bool_decide (is_Some (dbs w !! p))).

(** [mkdirSync(dir, { recursive: true })]; the directories above [dir]
    are not tracked. *)
Definition mkdirSync_recursive (dir : string) : M world unit :=
  λ w, if bool_decide (is_Some (files w !! dir)) then (Throw (Error "EEXIST"), w)
       else (Return tt, set_dirs (λ ds, {[dir]} ∪ ds) w).

(** [writeFileSync(p, content)] for a path [p] that names no SQLite file and
    lies in a directory: the call throws when the parent of [p] is not a
    directory, which the world cannot tell without [path.dirname], and it
    replaces a SQLite file it is pointed at.  The further properties of
    [exportToFile] keep to paths of that kind by hypothesis. *)
Definition writeFileSync (p content : string) : M world unit :=
  λ w, if bool_decide (p ∈ dirs w) then (Throw (Error "EISDIR"), w)
       else (Return tt, set_files <[p := content]> w).

(** The text of a SQLite file, read as a plain file: none before the first
    table is created, and from then on a text that begins with the header of
    the format.  What follows the header is not modelled. *)
Definition sqlite_text (d : database) : string :=
  match telegram_sessions d with
  | Some _ => "SQLite format 3"
  | None => EmptyString
  end.

Definition readFileSync (p : string) : M world string :=
  λ w, match files w !! p with
       | Some content => (Return content, w)
       | None =>
           match dbs w !! p with
           | Some d => (Return (sqlite_text d), w)
           | None =>
               (Throw (Error (if bool_decide (p ∈ dirs w) then "EISDIR"
                              else "ENOENT")), w)
           end
       end.
End World.

(* ================================================================== *)
(** * utils/database: [DatabaseManager] *)
(* ================================================================== *)

Module DatabaseManager.
Import JS World.

Definition createDatabase (databasePath : string) : M world Database :=
  Database_new databasePath.

(** [CREATE TABLE IF NOT EXISTS telegram_sessions (...)] *)
Definition ensureTable (db : Database) : M world unit :=
  on_database db (λ _ d,
    (Return tt,
     match telegram_sessions d with
     | Some _ => d
     | None => {| telegram_sessions := Some []; sqlite_sequence := sqlite_sequence d |}
     end)).

(** [SELECT * FROM telegram_sessions WHERE name = ?], first row or null. *)
Definition loadSessionData (db : Database) (sessionName : string)
  : M world (option Row) :=
  on_table db (λ _ seq rows,
    (List.find (λ r, bool_decide (name r = sessionName)) rows, (seq, rows))).

(** The third argument of [saveSessionData]. *)
Record data : Type := mkData {
  authKey : option Buffer;
  dcId : option Z;
  serverAddress : option string;
  port : option Z;
  entities : option string;
}.

(** The rowid AUTOINCREMENT gives the next row: one more than the largest
    rowid the table has ever held.  A rowid is a signed 64-bit integer, and
    the INSERT fails once the largest one is used up; the statements here are
    those of a table that has a rowid left ([MoreProps.rowid_left]). *)
Definition next_rowid (seq : Z) (rows : list Row) : Z :=
  1 + foldr Z.max seq (id <$> rows).

(** [INSERT OR REPLACE INTO telegram_sessions
       (name, auth_key, dc_id, server_address, port, entities, updated_at)
     VALUES (?, ?, ?, ?, ?, ?, CURRENT_TIMESTAMP)]

    REPLACE deletes the row that holds the same [name] (the UNIQUE column)
    and inserts the new row.  The columns the statement does not list take
    their defaults: [id] the next rowid, [created_at] CURRENT_TIMESTAMP. *)
Definition saveSessionData (db : Database) (sessionName : string) (d : data)
  : M world unit :=
  on_table db (λ now seq rows,
    let rowid := next_rowid seq rows in
    (tt,
     (rowid,
      List.filter (λ r, negb (bool_decide (name r = sessionName))) rows ++
      [ {| id := rowid; name := sessionName;
           auth_key := authKey d; dc_id := dcId d;
           server_address := serverAddress d; World.port := port d;
           World.entities := entities d;
           created_at := now; updated_at := now |} ]))).

(** [DELETE FROM telegram_sessions WHERE name = ?] *)
Definition deleteSessionData (db : Database) (sessionName : string)
  : M world unit :=
  on_table db (λ _ seq rows,
    (tt, (seq, List.filter (λ r, negb (bool_decide (name r = sessionName))) rows))).

(** An element of the array [listSessions] returns. *)
Record listed : Type := mkListed {
  l_name : string;
  l_created_at : timestamp;
  l_updated_at : timestamp;
}.

Definition listed_of (r : Row) : listed :=
  {| l_name := name r; l_created_at := created_at r;
     l_updated_at := updated_at r |}.

(** [ORDER BY created_at DESC]: [r1] may come before [r2]. *)
Definition created_at_desc (r1 r2 : Row) : Prop :=
  (created_at r2 ≤ created_at r1)%N.
Global Instance created_at_desc_dec r1 r2 : Decision (created_at_desc r1 r2).
Proof. unfold created_at_desc. apply _. Defined.

(** [SELECT name, created_at, updated_at FROM telegram_sessions
     ORDER BY created_at DESC].  SQLite leaves the order of rows with
    equal keys open; the sort here keeps some order for them. *)
Definition select_ordered (db : Database) : M world (list listed) :=
  on_table db (λ _ seq rows,
    (listed_of <$> merge_sort created_at_desc rows, (seq, rows))).

(** The static methods that [listSessions] reaches through [this]. *)
Record statics : Type := mkStatics {
  s_createDatabase : option (string → M world Database);
  s_ensureTable : option (Database → M world unit);
}.

(** [listSessions], with the [this] it is called on. *)
Definition listSessions_on (this : statics) (databasePath : string)
  : M world (list listed) :=
  match s_createDatabase this with
  | None => throw TypeError
  | Some create =>
      (let* db := create databasePath in
       try_finally
         (match s_ensureTable this with
          | None => throw TypeError
          | Some ensure => (ensure db ;; select_ordered db)
          end)
         (Database_close db))
  end%js.

(** The class itself, as a [this]. *)
Definition class : statics :=
  {| s_createDatabase := Some createDatabase;
     s_ensureTable := Some ensureTable |}.

(** [DatabaseManager.listSessions(databasePath)] *)
Definition listSessions (databasePath : string) : M world (list listed) :=
  listSessions_on class databasePath.
End DatabaseManager.

(* ================================================================== *)
(** * src/manager/session-manager.ts: [SessionManager] *)
(* ================================================================== *)

Module SessionManager.
Import JS World.

Definition deleteSession (databasePath sessionName : string) : M world unit :=
  (let* db := Database_new databasePath in
   try_finally
     (DatabaseManager.ensureTable db ;;
      DatabaseManager.deleteSessionData db sessionName)
     (Database_close db))%js.

Definition sessionExists (databasePath sessionName : string) : M world bool :=
  (let* sessions := DatabaseManager.listSessions databasePath in
   ret (existsb (λ session, bool_decide (DatabaseManager.l_name session = sessionName))
          sessions))%js.

(** The result of [getSessionInfo]: [{ exists: false }], or
    [{ exists: true, created_at, updated_at }]. *)
Record info : Type := mkInfo {
  i_exists : bool;
  i_created_at : option timestamp;
  i_updated_at : option timestamp;
}.

Definition getSessionInfo (databasePath sessionName : string) : M world info :=
  (let* sessions := DatabaseManager.listSessions databasePath in
   ret (match List.find (λ s, bool_decide (DatabaseManager.l_name s = sessionName))
                sessions with
        | Some session =>
            {| i_exists := true;
               i_created_at := Some (DatabaseManager.l_created_at session);
               i_updated_at := Some (DatabaseManager.l_updated_at session) |}
        | None =>
            {| i_exists := false; i_created_at := None; i_updated_at := None |}
        end))%js.
End SessionManager.

(* ================================================================== *)
(** * utils/file-export: [FileExportManager] *)
(* ================================================================== *)

Module FileExportManager.
Import JS World.

Section runtime.
(** [path.dirname], [JSON.stringify(v, null, 2)] and [JSON.parse], the
    last one with [None] for the SyntaxError it throws. *)
Variable dirname : string → string.
Variable JSON_stringify_pretty : json → string.
Variable JSON_parse : string → option json.

Definition exportToFile (filePath : string) (sessionData : json)
  : M world string :=
  (let dir := dirname filePath in
   let* there := existsSync dir in
   (if negb there then mkdirSync_recursive dir else ret tt) ;;
   writeFileSync filePath (JSON_stringify_pretty sessionData) ;;
   ret filePath)%js.

Definition importFromFile (filePath : string) : M world json :=
  (let* there := existsSync filePath in
   if negb there then
     throw (Error ("Session file not found: " +:+ filePath))
   else
     let* text := readFileSync filePath in
     match JSON_parse text with
     | None => throw SyntaxError
     | Some data =>
         let* dc_id := (λ w, (member (Some data) "dc_id", w)) in
         if negb (typeof_number dc_id) then
           throw (Error "Invalid session file: missing dc_id")
         else ret data
     end)%js.
End runtime.

(** [typeof v === 'string'] and [typeof v === 'object'] *)
Definition typeof_string (v : any) : bool :=
  match v with Some (JStr _) => true | _ => false end.
Definition typeof_object (v : any) : bool :=
  match v with
  | Some JNull | Some (JArr _) | Some (JObj _) => true
  | _ => false
  end.

Definition is_null (v : any) : bool :=
  match v with Some JNull => true | _ => false end.

(** The first property read throws on [null] and [undefined]; once it has
    returned, the later ones return too. *)
Definition validateSessionData (data : any) : outcome bool :=
  match member data "dc_id" with
  | Return dc_id =>
      Return (typeof_number dc_id &&
              typeof_string (prop data "server_address") &&
              typeof_number (prop data "port") &&
              (is_null (prop data "auth_key") ||
               typeof_string (prop data "auth_key")) &&
              typeof_object (prop data "entities"))
  | Throw e => Throw e
  | Untyped => Untyped
  end.
End FileExportManager.

(* ================================================================== *)
(** * telegram/crypto/AuthKey (the credential object of the client library) *)
(* ================================================================== *)

(** The session class uses three things of it: the constructor, [setKey]
    with a Buffer, and [getKey].  The hashes [setKey] derives from the key
    are not observed here. *)
Module AuthKey.
Import JS.

Record t : Type := mk { _key : option Buffer }.

Definition new : t := {| _key := None |}.

(** [setKey(value)] with a Buffer, which is an object and so truthy. *)
Definition setKey (this : t) (value : Buffer) : t := {| _key := Some value |}.

Definition getKey (this : t) : option Buffer := _key this.
End AuthKey.

(* ================================================================== *)
(** * The state of a [SqliteSession] *)
(* ================================================================== *)

(** Both copies of the class declare the same fields, on top of the one they
    inherit from [ExtendedMemorySession]. *)
Module SessionState.
Import JS World.

(** The field [sessionData]: every member optional, [None] for
    [undefined]. *)
Record sessionData_t : Type := mkSessionData {
  authKey : option AuthKey.t;
  dcId : option Z;
  serverAddress : option string;
  port : option Z;
}.

Record t : Type := mk {
  super : ExtendedMemorySession.t json;
  db : option Database;
  isLoaded : bool;
  databasePath : string;
  sessionName : string;
  sessionData : sessionData_t;
}.

Definition set_super (f : ExtendedMemorySession.t json → ExtendedMemorySession.t json)
  (c : t) : t :=
  {| super := f (super c); db := db c; isLoaded := isLoaded c;
     databasePath := databasePath c; sessionName := sessionName c;
     sessionData := sessionData c |}.
Definition set_db (x : option Database) (c : t) : t :=
  {| super := super c; db := x; isLoaded := isLoaded c;
     databasePath := databasePath c; sessionName := sessionName c;
     sessionData := sessionData c |}.
Definition set_isLoaded (x : bool) (c : t) : t :=
  {| super := super c; db := db c; isLoaded := x;
     databasePath := databasePath c; sessionName := sessionName c;
     sessionData := sessionData c |}.
Definition set_sessionData (f : sessionData_t → sessionData_t) (c : t) : t :=
  {| super := super c; db := db c; isLoaded := isLoaded c;
     databasePath := databasePath c; sessionName := sessionName c;
     sessionData := f (sessionData c) |}.

Definition set_authKey (x : option AuthKey.t) (d : sessionData_t) : sessionData_t :=
  {| authKey := x; dcId := dcId d; serverAddress := serverAddress d;
     port := port d |}.
Definition set_dcId (x : option Z) (d : sessionData_t) : sessionData_t :=
  {| authKey := authKey d; dcId := x; serverAddress := serverAddress d;
     port := port d |}.
Definition set_serverAddress (x : option string) (d : sessionData_t)
  : sessionData_t :=
  {| authKey := authKey d; dcId := dcId d; serverAddress := x; port := port d |}.
Definition set_port (x : option Z) (d : sessionData_t) : sessionData_t :=
  {| authKey := authKey d; dcId := dcId d; serverAddress := serverAddress d;
     port := x |}.

(** The inherited getter [entitiesMap]. *)
Definition entitiesMap (c : t) : JSMap.t json :=
  ExtendedMemorySession.entitiesMap (super c).

(** A method runs on the instance and the world. *)
Definition st : Type := t * world.

Definition this : M st t := gets fst.
Definition update (f : t → t) : M st unit := modify (λ s, (f s.1, s.2)).
Definition io {A} (m : M world A) : M st A := zoom snd (λ w s, (s.1, w)) m.
Definition lift {A} (o : outcome A) : M st A := λ s, (o, s).

(** The result of the instance method [getSessionInfo] ([SessionInfo]). *)
Record SessionInfo : Type := mkSessionInfo {
  si_name : string;
  si_dcId : Z;
  si_hasAuth : bool;
  si_entitiesCount : Z;
}.

(** Reading a field of the imported document into a field declared
    [string] or [number]: a missing or null field leaves it unset (the code
    looks at these fields only through [||]), a value of another type is
    outside the declared types. *)
Definition read_string (v : any) : outcome (option string) :=
  match v with
  | None | Some JNull => Return None
  | Some (JStr s) => Return (Some s)
  | Some _ => Untyped
  end.
Definition read_number (v : any) : outcome (option Z) :=
  match v with
  | None | Some JNull => Return None
  | Some (JNum n) => Return (Some n)
  | Some _ => Untyped
  end.

(** The class [SqliteSession] as a [this]: neither it nor the classes it
    extends have a static [createDatabase] or [ensureTable]. *)
Definition class : DatabaseManager.statics :=
  {| DatabaseManager.s_createDatabase := None;
     DatabaseManager.s_ensureTable := None |}.
End SessionState.

(* ================================================================== *)
(** * [SqliteSession], the documented copy of the class *)
(* ================================================================== *)

(** Methods come in the order of their first use, not in the order of the
    class body: [load] calls the overriding [setEntity], which calls
    [_saveToDB], which calls [save], which calls [init]. *)
Module SqliteSession.
Import JS World SessionState.

Section runtime.
(** The runtime functions the class calls: [JSON.parse] ([None] for the
    SyntaxError it throws), [JSON.stringify(v)],
    [JSON.stringify(v, null, 2)], [path.dirname] and
    [Date.prototype.toISOString]. *)
Variable JSON_parse : string → option json.
Variable JSON_stringify : json → string.
Variable JSON_stringify_pretty : json → string.
Variable dirname : string → string.
Variable toISOString : timestamp → string.

(** [new SqliteSession(databasePath, sessionName = 'default')] *)
Definition constructor (databasePath : string) (sessionName : option string) : t :=
  {| super := ExtendedMemorySession.new;
     db := None;
     isLoaded := false;
     databasePath := databasePath;
     sessionName := default "default" sessionName;
     sessionData := {| authKey := None; dcId := None;
                       serverAddress := None; port := None |} |}.

Definition init : M st Database :=
  (let* c := this in
   match db c with
   | None =>
       let* d := io (DatabaseManager.createDatabase (databasePath c)) in
       update (set_db (Some d)) ;;
       io (DatabaseManager.ensureTable d) ;;
       ret d
   | Some d => ret d
   end)%js.

Definition save : M st string :=
  (let* db := init in
   let* c := this in
   let authKey := authKey (sessionData c) ≫= AuthKey.getKey in
   let entities :=
     if 0 <? JSMap.size (entitiesMap c)
     then Some (JSON_stringify (JObj (JSMap.Object_fromEntries (entitiesMap c))))
     else None in
   io (DatabaseManager.saveSessionData db (sessionName c)
         {| DatabaseManager.authKey := authKey;
            DatabaseManager.dcId := or_null_Z (dcId (sessionData c));
            DatabaseManager.serverAddress :=
              or_null_string (serverAddress (sessionData c));
            DatabaseManager.port := or_null_Z (port (sessionData c));
            DatabaseManager.entities := entities |}) ;;
   ret (sessionName c))%js.

Definition _saveToDB : M st unit :=
  (let* c := this in
   if negb (isLoaded c) then ret tt
   else (save ;; ret tt))%js.

Definition setDC (dcId : Z) (serverAddress : string) (port : Z) : M st unit :=
  (update (set_sessionData (set_dcId (Some dcId))) ;;
   update (set_sessionData (set_serverAddress (Some serverAddress))) ;;
   update (set_sessionData (set_port (Some port))) ;;
   _saveToDB)%js.

(** [get authKey()] *)
Definition get_authKey (c : t) : option AuthKey.t := authKey (sessionData c).

(** [set authKey(value)] *)
Definition set_authKey (value : option AuthKey.t) : M st unit :=
  (update (set_sessionData (SessionState.set_authKey value)) ;;
   _saveToDB)%js.

Definition setEntity (id : number) (entity : json) : M st unit :=
  (update (set_super (λ s, ExtendedMemorySession.setEntity s id entity)) ;;
   _saveToDB)%js.

Definition load : M st unit :=
  (let* c := this in
   if isLoaded c then ret tt
   else
     let* db := init in
     let* row := io (DatabaseManager.loadSessionData db (sessionName c)) in
     match row with
     | Some row =>
         match auth_key row with
         | Some key =>
             if (0 <? Z.of_nat (length key)) then
               update (set_sessionData
                 (SessionState.set_authKey (Some (AuthKey.setKey AuthKey.new key))))
             else ret tt
         | None => ret tt
         end ;;
         match dc_id row with
         | Some dc =>
             if truthy_Z dc then
               update (set_sessionData (set_dcId (Some dc))) ;;
               update (set_sessionData
                 (set_serverAddress (Some (or_string (server_address row) EmptyString)))) ;;
               update (set_sessionData
                 (set_port (Some (or_Z (World.port row) 443))))
             else ret tt
         | None => ret tt
         end ;;
         match World.entities row with
         | Some text =>
             if truthy_string text then
               try_catch
                 (match JSON_parse text with
                  | None => throw SyntaxError
                  | Some entities =>
                      let* es := lift (Object_entries (Some entities)) in
                      for_of es (λ '(key, value), setEntity (parseInt key) value)
                  end)
                 (λ e, ret tt)
             else ret tt
         | None => ret tt
         end
     | None => ret tt
     end ;;
     update (set_isLoaded true))%js.

Definition exportToFile (filePath : string) : M st string :=
  (let* c := this in
   let authKeyHex :=
     match authKey (sessionData c) with
     | Some key =>
         match AuthKey.getKey key with
         | Some keyBuffer => JStr (Buffer_toString_hex keyBuffer)
         | None => JNull
         end
     | None => JNull
     end in
   let* now := io (gets clock) in
   let sessionData :=
     JObj [ ("dc_id", JNum (or_Z (dcId (sessionData c)) 0));
            ("server_address", JStr (or_string (serverAddress (sessionData c)) EmptyString));
            ("port", JNum (or_Z (port (sessionData c)) 443));
            ("auth_key", authKeyHex);
            ("entities", JObj (JSMap.Object_fromEntries (entitiesMap c)));
            ("exported_at", JStr (toISOString now)) ] in
   io (FileExportManager.exportToFile dirname JSON_stringify_pretty
         filePath sessionData))%js.

Definition importFromFile (filePath : string) : M st unit :=
  (let* data := io (FileExportManager.importFromFile JSON_parse filePath) in
   match prop (Some data) "auth_key" with
   | Some (JStr hex) =>
       if truthy_string hex then
         update (set_sessionData
           (SessionState.set_authKey
              (Some (AuthKey.setKey AuthKey.new (Buffer_from_hex hex)))))
       else ret tt
   | v => if truthy v then untyped else ret tt
   end ;;
   let* dc_id := lift (read_number (prop (Some data) "dc_id")) in
   update (set_sessionData (set_dcId dc_id)) ;;
   let* server_address := lift (read_string (prop (Some data) "server_address")) in
   update (set_sessionData (set_serverAddress server_address)) ;;
   let* port := lift (read_number (prop (Some data) "port")) in
   update (set_sessionData (set_port port)) ;;
   update (set_super ExtendedMemorySession.clearEntities) ;;
   let* es := lift (Object_entries (prop (Some data) "entities")) in
   for_of es (λ '(key, value), setEntity (parseInt key) value) ;;
   save ;;
   ret tt)%js.

Definition delete : M st unit :=
  (let* c := this in
   io (SessionManager.deleteSession (databasePath c) (sessionName c)) ;;
   update (set_isLoaded false))%js.

Definition close : M st unit :=
  (let* c := this in
   match db c with
   | Some d =>
       io (Database_close d) ;;
       update (set_db None)
   | None => ret tt
   end)%js.

Definition getSessionInfo (c : t) : SessionInfo :=
  {| si_name := sessionName c;
     si_dcId := or_Z (dcId (sessionData c)) 0;
     si_hasAuth := bool_decide (is_Some (authKey (sessionData c)));
     si_entitiesCount := JSMap.size (entitiesMap c) |}.

(** The static members.  [listSessions] holds the function of
    [DatabaseManager]; called as [SqliteSession.listSessions(path)] it
    runs with [this] bound to [SqliteSession]. *)
Definition static_listSessions (databasePath : string)
  : M world (list DatabaseManager.listed) :=
  DatabaseManager.listSessions_on SessionState.class databasePath.
Definition static_deleteSession : string → string → M world unit :=
  SessionManager.deleteSession.
Definition static_sessionExists : string → string → M world bool :=
  SessionManager.sessionExists.
Definition static_getSessionInfo : string → string → M world SessionManager.info :=
  SessionManager.getSessionInfo.
End runtime.
End SqliteSession.

(* ================================================================== *)
(** * [SqliteSession], the second copy of the class *)
(* ================================================================== *)

(** The same class once more, as the second source file has it, translated
    method by method from that file. *)
Module SqliteSession2.
Import JS World SessionState.

Section runtime.
(** The runtime functions the class calls: [JSON.parse] ([None] for the
    SyntaxError it throws), [JSON.stringify(v)],
    [JSON.stringify(v, null, 2)], [path.dirname] and
    [Date.prototype.toISOString]. *)
Variable JSON_parse : string → option json.
Variable JSON_stringify : json → string.
Variable JSON_stringify_pretty : json → string.
Variable dirname : string → string.
Variable toISOString : timestamp → string.

Definition constructor (databasePath : string) (sessionName : option string) : t :=
  {| super := ExtendedMemorySession.new;
     db := None;
     isLoaded := false;
     databasePath := databasePath;
     sessionName := default "default" sessionName;
     sessionData := {| authKey := None; dcId := None;
                       serverAddress := None; port := None |} |}.

Definition init : M st Database :=
  (let* c := this in
   match db c with
   | None =>
       let* d := io (DatabaseManager.createDatabase (databasePath c)) in
       update (set_db (Some d)) ;;
       io (DatabaseManager.ensureTable d) ;;
       ret d
   | Some d => ret d
   end)%js.

Definition save : M st string :=
  (let* db := init in
   let* c := this in
   let authKey := authKey (sessionData c) ≫= AuthKey.getKey in
   let entities :=
     if 0 <? JSMap.size (entitiesMap c)
     then Some (JSON_stringify (JObj (JSMap.Object_fromEntries (entitiesMap c))))
     else None in
   io (DatabaseManager.saveSessionData db (sessionName c)
         {| DatabaseManager.authKey := authKey;
            DatabaseManager.dcId := or_null_Z (dcId (sessionData c));
            DatabaseManager.serverAddress :=
              or_null_string (serverAddress (sessionData c));
            DatabaseManager.port := or_null_Z (port (sessionData c));
            DatabaseManager.entities := entities |}) ;;
   ret (sessionName c))%js.

Definition _saveToDB : M st unit :=
  (let* c := this in
   if negb (isLoaded c) then ret tt
   else (save ;; ret tt))%js.

Definition setDC (dcId : Z) (serverAddress : string) (port : Z) : M st unit :=
  (update (set_sessionData (set_dcId (Some dcId))) ;;
   update (set_sessionData (set_serverAddress (Some serverAddress))) ;;
   update (set_sessionData (set_port (Some port))) ;;
   _saveToDB)%js.

Definition get_authKey (c : t) : option AuthKey.t := authKey (sessionData c).

Definition set_authKey (value : option AuthKey.t) : M st unit :=
  (update (set_sessionData (SessionState.set_authKey value)) ;;
   _saveToDB)%js.

Definition setEntity (id : number) (entity : json) : M st unit :=
  (update (set_super (λ s, ExtendedMemorySession.setEntity s id entity)) ;;
   _saveToDB)%js.

Definition load : M st unit :=
  (let* c := this in
   if isLoaded c then ret tt
   else
     let* db := init in
     let* row := io (DatabaseManager.loadSessionData db (sessionName c)) in
     match row with
     | Some row =>
         match auth_key row with
         | Some key =>
             if (0 <? Z.of_nat (length key)) then
               update (set_sessionData
                 (SessionState.set_authKey (Some (AuthKey.setKey AuthKey.new key))))
             else ret tt
         | None => ret tt
         end ;;
         match dc_id row with
         | Some dc =>
             if truthy_Z dc then
               update (set_sessionData (set_dcId (Some dc))) ;;
               update (set_sessionData
                 (set_serverAddress (Some (or_string (server_address row) EmptyString)))) ;;
               update (set_sessionData
                 (set_port (Some (or_Z (World.port row) 443))))
             else ret tt
         | None => ret tt
         end ;;
         match World.entities row with
         | Some text =>
             if truthy_string text then
               try_catch
                 (match JSON_parse text with
                  | None => throw SyntaxError
                  | Some entities =>
                      let* es := lift (Object_entries (Some entities)) in
                      for_of es (λ '(key, value), setEntity (parseInt key) value)
                  end)
                 (λ e, ret tt)
             else ret tt
         | None => ret tt
         end
     | None => ret tt
     end ;;
     update (set_isLoaded true))%js.

Definition exportToFile (filePath : string) : M st string :=
  (let* c := this in
   let authKeyHex :=
     match authKey (sessionData c) with
     | Some key =>
         match AuthKey.getKey key with
         | Some keyBuffer => JStr (Buffer_toString_hex keyBuffer)
         | None => JNull
         end
     | None => JNull
     end in
   let* now := io (gets clock) in
   let sessionData :=
     JObj [ ("dc_id", JNum (or_Z (dcId (sessionData c)) 0));
            ("server_address", JStr (or_string (serverAddress (sessionData c)) EmptyString));
            ("port", JNum (or_Z (port (sessionData c)) 443));
            ("auth_key", authKeyHex);
            ("entities", JObj (JSMap.Object_fromEntries (entitiesMap c)));
            ("exported_at", JStr (toISOString now)) ] in
   io (FileExportManager.exportToFile dirname JSON_stringify_pretty
         filePath sessionData))%js.

Definition importFromFile (filePath : string) : M st unit :=
  (let* data := io (FileExportManager.importFromFile JSON_parse filePath) in
   match prop (Some data) "auth_key" with
   | Some (JStr hex) =>
       if truthy_string hex then
         update (set_sessionData
           (SessionState.set_authKey
              (Some (AuthKey.setKey AuthKey.new (Buffer_from_hex hex)))))
       else ret tt
   | v => if truthy v then untyped else ret tt
   end ;;
   let* dc_id := lift (read_number (prop (Some data) "dc_id")) in
   update (set_sessionData (set_dcId dc_id)) ;;
   let* server_address := lift (read_string (prop (Some data) "server_address")) in
   update (set_sessionData (set_serverAddress server_address)) ;;
   let* port := lift (read_number (prop (Some data) "port")) in
   update (set_sessionData (set_port port)) ;;
   update (set_super ExtendedMemorySession.clearEntities) ;;
   let* es := lift (Object_entries (prop (Some data) "entities")) in
   for_of es (λ '(key, value), setEntity (parseInt key) value) ;;
   save ;;
   ret tt)%js.

Definition delete : M st unit :=
  (let* c := this in
   io (SessionManager.deleteSession (databasePath c) (sessionName c)) ;;
   update (set_isLoaded false))%js.

Definition close : M st unit :=
  (let* c := this in
   match db c with
   | Some d =>
       io (Database_close d) ;;
       update (set_db None)
   | None => ret tt
   end)%js.

Definition getSessionInfo (c : t) : SessionInfo :=
  {| si_name := sessionName c;
     si_dcId := or_Z (dcId (sessionData c)) 0;
     si_hasAuth := bool_decide (is_Some (authKey (sessionData c)));
     si_entitiesCount := JSMap.size (entitiesMap c) |}.

(** Static methods *)
Definition static_listSessions (databasePath : string)
  : M world (list DatabaseManager.listed) :=
  DatabaseManager.listSessions_on SessionState.class databasePath.
Definition static_deleteSession : string → string → M world unit :=
  SessionManager.deleteSession.
Definition static_sessionExists : string → string → M world bool :=
  SessionManager.sessionExists.
Definition static_getSessionInfo : string → string → M world SessionManager.info :=
  SessionManager.getSessionInfo.
End runtime.
End SqliteSession2.

(* ================================================================== *)
(** * A reference [JSON.parse] and [JSON.stringify] *)
(* ================================================================== *)

(** The session class is parametric in the runtime's JSON functions.  This
    is an executable pair for the fragment of JSON that [json] covers: no
    fractions or exponents, escapes [\uXXXX] below 256 only.  A text outside
    the fragment is answered like a malformed one. *)
Module JSONRef.
Import JS.

Definition is_json_space (c : ascii) : bool :=
  match c with
  | " "%char | "009"%char | "010"%char | "013"%char => true
  | _ => false
  end.

Fixpoint skip_space (s : string) : string :=
  match s with
  | String c s' => if is_json_space c then skip_space s' else s
  | EmptyString => s
  end.

(** [s] starts with [p]: what follows. *)
Fixpoint strip_prefix (p s : string) : option string :=
  match p, s with
  | EmptyString, _ => Some s
  | String a p', String b s' => if bool_decide (a = b) then strip_prefix p' s' else None
  | String _ _, EmptyString => None
  end.

(** The body of a string literal, after the opening quote. *)
Fixpoint parse_string (s : string) : option (string * string) :=
  match s with
  | EmptyString => None
  | String "034"%char rest => Some (EmptyString, rest)
  | String "\"%char (String e rest) =>
      let continue (c : ascii) (rest : string) :=
        match parse_string rest with
        | Some (str, rest') => Some (String c str, rest')
        | None => None
        end in
      match e with
      | "034"%char => continue "034"%char rest
      | "\"%char => continue "\"%char rest
      | "/"%char => continue "/"%char rest
      | "b"%char => continue "008"%char rest
      | "f"%char => continue "012"%char rest
      | "n"%char => continue "010"%char rest
      | "r"%char => continue "013"%char rest
      | "t"%char => continue "009"%char rest
      | "u"%char =>
          match rest with
          | String "0"%char (String "0"%char (String h (String l rest'))) =>
              match digit_value 16 h, digit_value 16 l with
              | Some x, Some y => continue (ascii_of_N (Z.to_N (x * 16 + y))) rest'
              | _, _ => None
              end
          | _ => None
          end
      | _ => None
      end
  | String c rest =>
      if (N_of_ascii c <? 32)%N then None
      else match parse_string rest with
           | Some (str, rest') => Some (String c str, rest')
           | None => None
           end
  end.

(** The digits of a number, after the sign. *)
Fixpoint take_digits (acc : Z) (s : string) : Z * string :=
  match s with
  | String c s' =>
      match digit_value 10 c with
      | Some d => take_digits (acc * 10 + d) s'
      | None => (acc, s)
      end
  | EmptyString => (acc, s)
  end.

Definition parse_number (s : string) : option (Z * string) :=
  let '(sign, s) :=
    match s with
    | String "-"%char r => (-1, r)
    | _ => (1, s)
    end in
  match s with
  | String c s' =>
      match digit_value 10 c with
      | Some d =>
          let '(n, rest) := if d =? 0 then (0, s') else take_digits d s' in
          match rest with
          | String "."%char _ | String "e"%char _ | String "E"%char _ => None
          | _ => Some (sign * n, rest)
          end
      | None => None
      end
  | EmptyString => None
  end.

Fixpoint parse_value (fuel : nat) (s : string) : option (json * string) :=
  match fuel with
  | O => None
  | S fuel =>
      match skip_space s with
      | String "n"%char rest => (λ r, (JNull, r)) <$> strip_prefix "ull" rest
      | String "t"%char rest => (λ r, (JBool true, r)) <$> strip_prefix "rue" rest
      | String "f"%char rest => (λ r, (JBool false, r)) <$> strip_prefix "alse" rest
      | String "034"%char rest =>
          (λ '(str, r), (JStr str, r)) <$> parse_string rest
      | String "["%char rest =>
          match skip_space rest with
          | String "]"%char r => Some (JArr [], r)
          | _ => parse_elements fuel rest []
          end
      | String "{"%char rest =>
          match skip_space rest with
          | String "}"%char r => Some (JObj [], r)
          | _ => parse_members fuel rest []
          end
      | s' => (λ '(n, r), (JNum n, r)) <$> parse_number s'
      end
  end
with parse_elements (fuel : nat) (s : string) (acc : list json)
  : option (json * string) :=
  match fuel with
  | O => None
  | S fuel =>
      match parse_value fuel s with
      | Some (v, rest) =>
          match skip_space rest with
          | String ","%char r => parse_elements fuel r (v :: acc)
          | String "]"%char r => Some (JArr (rev (v :: acc)), r)
          | _ => None
          end
      | None => None
      end
  end
with parse_members (fuel : nat) (s : string) (acc : list (string * json))
  : option (json * string) :=
  match fuel with
  | O => None
  | S fuel =>
      match skip_space s with
      | String "034"%char rest =>
          match parse_string rest with
          | Some (key, rest) =>
              match skip_space rest with
              | String ":"%char rest =>
                  match parse_value fuel rest with
                  | Some (v, rest) =>
                      match skip_space rest with
                      | String ","%char r => parse_members fuel r (set_prop acc key v)
                      | String "}"%char r => Some (JObj (set_prop acc key v), r)
                      | _ => None
                      end
                  | None => None
                  end
              | _ => None
              end
          | None => None
          end
      | _ => None
      end
  end.

(** [JSON.parse(text)]; [None] is the SyntaxError. *)
Definition JSON_parse (text : string) : option json :=
  match parse_value (2 * S (String.length text)) text with
  | Some (v, rest) =>
      match skip_space rest with
      | EmptyString => Some v
      | String _ _ => None
      end
  | None => None
  end.

(** A string literal, without its quotes. *)
Fixpoint quote (s : string) : string :=
  match s with
  | EmptyString => EmptyString
  | String c s' =>
      let n := Z.of_N (N_of_ascii c) in
      (if bool_decide (c = "034"%char) then String "\" (String "034" EmptyString)
       else if bool_decide (c = "\"%char) then "\\"
       else if n =? 8 then "\b"
       else if n =? 12 then "\f"
       else if n =? 10 then "\n"
       else if n =? 13 then "\r"
       else if n =? 9 then "\t"
       else if n <? 32 then
         String "\" (String "u" (String "0" (String "0"
           (String (hex_digit (n / 16)) (String (hex_digit (n mod 16)) EmptyString)))))
       else String c EmptyString) +:+ quote s'
  end.

Definition literal (s : string) : string :=
  String "034" (quote s +:+ String "034" EmptyString).

Definition join (sep : string) (l : list string) : string :=
  match l with
  | [] => EmptyString
  | x :: l' => fold_left (λ acc y, acc +:+ sep +:+ y) l' x
  end.

(** [JSON.stringify(v)] *)
Fixpoint JSON_stringify (v : json) : string :=
  match v with
  | JNull => "null"
  | JBool true => "true"
  | JBool false => "false"
  | JNum n => pretty n
  | JStr s => literal s
  | JArr items => "[" +:+ join "," (JSON_stringify <$> items) +:+ "]"
  | JObj props =>
      "{" +:+
      join "," ((λ '(k, x), literal k +:+ ":" +:+ JSON_stringify x) <$> props)
      +:+ "}"
  end.

(** [JSON.stringify(v, null, 2)]: an array or object that is not empty has
    one element or member per line, two more spaces in than the line that
    opens it, and a space after the colon of a member. *)
Fixpoint JSON_stringify_pretty_at (indent : string) (v : json) : string :=
  let inner := indent +:+ "  " in
  let line := String "010" EmptyString in
  match v with
  | JArr items =>
      match items with
      | [] => "[]"
      | _ =>
          "[" +:+ line +:+ inner +:+
          join ("," +:+ line +:+ inner) (JSON_stringify_pretty_at inner <$> items)
          +:+ line +:+ indent +:+ "]"
      end
  | JObj props =>
      match props with
      | [] => "{}"
      | _ =>
          "{" +:+ line +:+ inner +:+
          join ("," +:+ line +:+ inner)
            ((λ '(k, x), literal k +:+ ": " +:+ JSON_stringify_pretty_at inner x)
               <$> props)
          +:+ line +:+ indent +:+ "}"
      end
  | _ => JSON_stringify v
  end.

Definition JSON_stringify_pretty (v : json) : string :=
  JSON_stringify_pretty_at EmptyString v.
End JSONRef.

(* ================================================================== *)
(** * A reference [path.dirname] and [toISOString] *)
(* ================================================================== *)

(** Executable stand-ins for the two other runtime functions that the
    session class is parametric in, to run examples. *)
Module RuntimeRef.
Import JS.

Fixpoint drop_slashes (l : list ascii) : list ascii :=
  match l with
  | "/"%char :: l' => drop_slashes l'
  | _ => l
  end.

Fixpoint drop_name (l : list ascii) : list ascii :=
  match l with
  | [] => []
  | "/"%char :: _ => l
  | _ :: l' => drop_name l'
  end.

(** [path.dirname] of POSIX: from the end of the path, but not at its first
    character, the slashes that end it are skipped, then the last name; what
    stands before the slash found there is the result. *)
Definition dirname (p : string) : string :=
  match p with
  | EmptyString => "."
  | String c rest =>
      let hasRoot := bool_decide (c = "/"%char) in
      match drop_name (drop_slashes (rev (list_ascii_of_string rest))) with
      | [] => if hasRoot then "/" else "."
      | _ :: before =>
          match before with
          | [] => if hasRoot then "//" else String c EmptyString
          | _ => String c (string_of_list_ascii (rev before))
          end
      end
  end.

(** A number in decimal digits, filled with zeros on the left up to
    [width] digits. *)
Definition padded (width : nat) (n : Z) : string :=
  let digits := pretty n in
  string_of_list_ascii (replicate (width - String.length digits) "0"%char)
  +:+ digits.

(** [new Date(t * 1000).toISOString()] for a time in whole seconds since
    the epoch, in the years 1970 to 9999. *)
Definition toISOString (t : N) : string :=
  let s := Z.of_N t in
  let days := s / 86400 in
  let secs := s mod 86400 in
  let z := days + 719468 in
  let era := z / 146097 in
  let doe := z - era * 146097 in
  let yoe := (doe - doe / 1460 + doe / 36524 - doe / 146096) / 365 in
  let doy := doe - (365 * yoe + yoe / 4 - yoe / 100) in
  let mp := (5 * doy + 2) / 153 in
  let d := doy - (153 * mp + 2) / 5 + 1 in
  let m := if mp <? 10 then mp + 3 else mp - 9 in
  let y := yoe + era * 400 + (if m <=? 2 then 1 else 0) in
  padded 4 y +:+ "-" +:+ padded 2 m +:+ "-" +:+ padded 2 d +:+ "T" +:+
  padded 2 (secs / 3600) +:+ ":" +:+ padded 2 (secs mod 3600 / 60) +:+ ":" +:+
  padded 2 (secs mod 60) +:+ ".000Z".
End RuntimeRef.

(* ================================================================== *)
(** * Vocabulary of the properties *)
(* ================================================================== *)

Module Props.
Import JS World SessionState.

(** The rows of [telegram_sessions] in the file at [path], none when the
    file or the table is missing, and its AUTOINCREMENT counter. *)
Definition rows_at (w : world) (path : string) : list Row :=
  default [] (dbs w !! path ≫= telegram_sessions).
Definition seq_at (w : world) (path : string) : Z :=
  default 0 (sqlite_sequence <$> dbs w !! path).

(** The row stored under a session name. *)
Definition row_at (w : world) (path sessionName : string) : option Row :=
  List.find (λ r, bool_decide (name r = sessionName)) (rows_at w path).

(** The file at [path] exists and holds the table. *)
Definition has_table (w : world) (path : string) : Prop :=
  is_Some (dbs w !! path ≫= telegram_sessions).

(** The invariant of an instance: its connection, once open, is one to its
    own file, which holds the table since [init] ran. *)
Definition connected (c : t) (w : world) : Prop :=
  match db c with
  | None => True
  | Some d => d = databasePath c ∧ has_table w d
  end.

(** The row that [saveSessionData] leaves under the name. *)
Definition saved_row (rowid : Z) (sessionName : string) (d : DatabaseManager.data)
  (now : timestamp) : Row :=
  {| id := rowid; name := sessionName;
     auth_key := DatabaseManager.authKey d; dc_id := DatabaseManager.dcId d;
     server_address := DatabaseManager.serverAddress d;
     World.port := DatabaseManager.port d;
     World.entities := DatabaseManager.entities d;
     created_at := now; updated_at := now |}.

(** What [save] hands to [saveSessionData]. *)
Definition persisted (JSON_stringify : json → string) (c : t) : DatabaseManager.data :=
  {| DatabaseManager.authKey := authKey (sessionData c) ≫= AuthKey.getKey;
     DatabaseManager.dcId := or_null_Z (dcId (sessionData c));
     DatabaseManager.serverAddress := or_null_string (serverAddress (sessionData c));
     DatabaseManager.port := or_null_Z (port (sessionData c));
     DatabaseManager.entities :=
       if 0 <? JSMap.size (entitiesMap c)
       then Some (JSON_stringify (JObj (JSMap.Object_fromEntries (entitiesMap c))))
       else None |}.

(** What [load] takes from a row, on an instance that is not loaded: the
    key, the data center, the entities. *)
Definition absorb_auth_key (row : Row) (d : sessionData_t) : sessionData_t :=
  match auth_key row with
  | Some key =>
      if 0 <? Z.of_nat (length key)
      then set_authKey (Some (AuthKey.setKey AuthKey.new key)) d
      else d
  | None => d
  end.

Definition absorb_dc (row : Row) (d : sessionData_t) : sessionData_t :=
  match dc_id row with
  | Some dc =>
      if truthy_Z dc
      then set_port (Some (or_Z (World.port row) 443))
             (set_serverAddress (Some (or_string (server_address row) EmptyString))
                (set_dcId (Some dc) d))
      else d
  | None => d
  end.

Definition set_entities (es : list (string * json))
  (s : ExtendedMemorySession.t json) : ExtendedMemorySession.t json :=
  fold_left (λ s '(key, value), ExtendedMemorySession.setEntity s (parseInt key) value)
    es s.

Definition absorb_entities (JSON_parse : string → option json) (row : Row)
  (s : ExtendedMemorySession.t json) : ExtendedMemorySession.t json :=
  match World.entities row with
  | Some text =>
      if truthy_string text then
        match JSON_parse text with
        | Some entities =>
            match Object_entries (Some entities) with
            | Return es => set_entities es s
            | _ => s
            end
        | None => s
        end
      else s
  | None => s
  end.

Definition absorb (JSON_parse : string → option json) (row : option Row) (c : t) : t :=
  match row with
  | Some row =>
      set_super (absorb_entities JSON_parse row)
        (set_sessionData (λ d, absorb_dc row (absorb_auth_key row d)) c)
  | None => c
  end.

(** The instance and the world after running a method. *)
Definition result {A} (r : outcome A * st) : outcome A := r.1.
Definition instance {A} (r : outcome A * st) : t := r.2.1.
Definition world_of {A} (r : outcome A * st) : world := r.2.2.

(** The key bytes an instance holds. *)
Definition key_bytes (c : t) : option Buffer :=
  authKey (sessionData c) ≫= AuthKey.getKey.

(** [save()] on an instance, then, at a later time, [load()] on a new
    instance for the same file and session name: the new instance after
    it. *)
Definition save_then_fresh_load (JSON_parse : string → option json)
  (JSON_stringify : json → string) (c : t) (w : world) (later : timestamp) : t :=
  let w1 := world_of (SqliteSession.save JSON_stringify (c, w)) in
  instance (SqliteSession.load JSON_parse JSON_stringify
              (SqliteSession.constructor (databasePath c) (Some (sessionName c)),
               set_clock later w1)).

(** The runtime's JSON functions do their work on the object that [save]
    writes for the entity map [m]: the text parses back to the object, and
    the empty text is no JSON. *)
Definition json_round_trip (JSON_parse : string → option json)
  (JSON_stringify : json → string) (m : JSMap.t json) : Prop :=
  JSON_parse EmptyString = None ∧
  JSON_parse (JSON_stringify (JObj (JSMap.Object_fromEntries m)))
    = Some (JObj (JSMap.Object_fromEntries m)).

(** C2 as the specification states it: any record with entities and an
    auth key comes back from save and a fresh load. *)
Definition C2_as_stated : Prop :=
  ∀ (JSON_parse : string → option json) (JSON_stringify : json → string)
    (c : t) (w : world) (later : timestamp),
    json_round_trip JSON_parse JSON_stringify (entitiesMap c) →
    connected c w →
    JSMap.wf (entitiesMap c) →
    Forall safe_key (JSMap.keys (entitiesMap c)) →
    entitiesMap c ≠ [] →
    is_Some (authKey (sessionData c)) →
    let c' := save_then_fresh_load JSON_parse JSON_stringify c w later in
    dcId (sessionData c') = dcId (sessionData c) ∧
    serverAddress (sessionData c') = serverAddress (sessionData c) ∧
    port (sessionData c') = port (sessionData c) ∧
    (∀ id, JSMap.get (entitiesMap c') id = JSMap.get (entitiesMap c) id) ∧
    key_bytes c' = key_bytes c.

(** C3 as the specification states it, for the first [load] of a new
    instance: a non-null [dc_id] is taken, a null one leaves the defaults. *)
Definition C3_as_stated : Prop :=
  ∀ (JSON_parse : string → option json) (JSON_stringify : json → string)
    (path sessionName : string) (w : world) (row : Row),
    row_at w path sessionName = Some row →
    let c' := instance (SqliteSession.load JSON_parse JSON_stringify
                          (SqliteSession.constructor path (Some sessionName), w)) in
    (dc_id row ≠ None →
       dcId (sessionData c') = dc_id row ∧
       (World.port row = None → port (sessionData c') = Some 443) ∧
       (server_address row = None →
          serverAddress (sessionData c') = Some EmptyString)) ∧
    (dc_id row = None →
       dcId (sessionData c') = None ∧
       serverAddress (sessionData c') = None ∧
       port (sessionData c') = None).

(** C7 as the specification states it: the falsy values are stored as NULL
    and none of them comes back from a fresh load. *)
Definition C7_as_stated : Prop :=
  ∀ (JSON_parse : string → option json) (JSON_stringify : json → string)
    (c : t) (w : world) (later : timestamp),
    connected c w →
    let w1 := world_of (SqliteSession.save JSON_stringify (c, w)) in
    let c' := save_then_fresh_load JSON_parse JSON_stringify c w later in
    ∃ row,
      row_at w1 (databasePath c) (sessionName c) = Some row ∧
      (entitiesMap c = [] → World.entities row = None) ∧
      (dcId (sessionData c) = Some 0 →
         dc_id row = None ∧ dcId (sessionData c') ≠ Some 0) ∧
      (port (sessionData c) = Some 0 →
         World.port row = None ∧ port (sessionData c') ≠ Some 0) ∧
      (serverAddress (sessionData c) = Some EmptyString →
         server_address row = None ∧
         serverAddress (sessionData c') ≠ Some EmptyString).

(** A decimal digit, as a character. *)
Definition is_decimal (c : ascii) : Prop := ∃ d, (d < 10)%N ∧ c = pretty_N_char d.

End Props.

(* ================================================================== *)
(** * Sample stores and sessions *)
(* ================================================================== *)

Module Samples.
Import JS World SessionState.

(** An empty disk at second 100. *)
Definition empty_world : world :=
  {| dbs := ∅; files := ∅; dirs := ∅; handles := 0; clock := 100%N |}.

(** The file [sessions.db] with one row in its table. *)
Definition world_with (row : Row) : world :=
  {| dbs := {[ "sessions.db" :=
                 {| telegram_sessions := Some [row]; sqlite_sequence := 1 |} ]};
     files := ∅; dirs := ∅; handles := 0; clock := 100%N |}.

(** A row of the session [main], written at second 50. *)
Definition row_of (key : option Buffer) (dc : option Z) (address : option string)
  (p : option Z) (ents : option string) : Row :=
  {| id := 1; name := "main"; auth_key := key; dc_id := dc;
     server_address := address; World.port := p; World.entities := ents;
     created_at := 50%N; updated_at := 50%N |}.

(** A new instance for the session [main] of [sessions.db]. *)
Definition new_session : t :=
  SqliteSession.constructor "sessions.db" (Some "main").

(** The same instance after [setDC], the [authKey] setter and [setEntity]
    calls made before any [load]. *)
Definition session_with (dc : Z) (address : string) (p : Z)
  (key : option Buffer) (ents : JSMap.t json) : t :=
  {| super := {| ExtendedMemorySession._customEntities := ents |};
     db := None; isLoaded := false;
     databasePath := "sessions.db"; sessionName := "main";
     sessionData :=
       {| authKey := (λ k, AuthKey.setKey AuthKey.new k) <$> key;
          dcId := Some dc; serverAddress := Some address; port := Some p |} |}.

Definition one_entity : JSMap.t json := [(Int 7, JObj [("name", JStr "x")])].

Definition two_bytes : Buffer := [Byte.x01; Byte.x02].

(** A disk with the file [backup.session] holding the given text. *)
Definition world_with_file (text : string) : world :=
  {| dbs := ∅; files := {[ "backup.session" := text ]}; dirs := ∅;
     handles := 0; clock := 100%N |}.

(** The session [main] with a data center, a key of two bytes and one
    entity, as the document of an exported file. *)
Definition sample_document : json :=
  JObj [ ("dc_id", JNum 2); ("server_address", JStr "149.154.167.40");
         ("port", JNum 443); ("auth_key", JStr "0102");
         ("entities", JObj [("7", JObj [("name", JStr "x")])]) ].

(** A document with a [dc_id] and nothing else. *)
Definition bare_document : json := JObj [ ("dc_id", JNum 2) ].
End Samples.

(* ================================================================== *)
(** * Vocabulary of the further properties *)
(* ================================================================== *)

Module MoreProps.
Import JS World SessionState Props.

(** The invariant of the table: [name] is UNIQUE. *)
Definition unique_names (w : world) (path : string) : Prop :=
  NoDup (name <$> rows_at w path).

(** The world after running code that acts on the world alone. *)
Definition after {A} (r : outcome A * world) : world := r.2.

(** Two worlds that differ at most in the file at [path]: the other SQLite
    files, the plain files, the directories and the clock are the same. *)
Definition same_but (path : string) (w w' : world) : Prop :=
  (∀ p, p ≠ path → dbs w' !! p = dbs w !! p) ∧
  files w' = files w ∧ dirs w' = dirs w ∧ clock w' = clock w.


(** [p] names a directory, and neither a plain file nor a SQLite file. *)
Definition is_directory (w : world) (p : string) : Prop :=
  p ∈ dirs w ∧ files w !! p = None ∧ dbs w !! p = None.

(** The largest rowid of SQLite, [2^63 - 1]. *)
Definition max_rowid : Z := 9223372036854775807.

(** The table at [path] has a rowid left for the next INSERT. *)
Definition rowid_left (w : world) (path : string) : Prop :=
  DatabaseManager.next_rowid (seq_at w path) (rows_at w path) ≤ max_rowid.

(** The [auth_key] of a document is of its declared type: a string, null,
    or not there. *)
Definition auth_key_typed (data : json) : Prop :=
  match prop (Some data) "auth_key" with
  | None | Some JNull | Some (JStr _) => True
  | Some _ => False
  end.

(** The key an import leaves on the instance: the key of the document when
    its [auth_key] is a string that is not empty, else the key the instance
    had. *)
Definition imported_key (data : json) (old : option AuthKey.t) : option AuthKey.t :=
  match prop (Some data) "auth_key" with
  | Some (JStr hex) =>
      if truthy_string hex
      then Some (AuthKey.setKey AuthKey.new (Buffer_from_hex hex))
      else old
  | _ => old
  end.

(** The instance once [importFromFile] has taken the key and the data
    center from the document and has cleared the entities. *)
Definition import_fields (data : json) (dc : Z) (address : option string)
  (p : option Z) (c : t) : t :=
  set_super ExtendedMemorySession.clearEntities
    (set_sessionData
       (λ d, set_port p
               (set_serverAddress address
                  (set_dcId (Some dc)
                     (set_authKey (imported_key data (authKey d)) d))))
       c).

(** The document the method [exportToFile] hands to [FileExportManager] for
    an instance, at a time. *)
Definition exported_document (toISOString : timestamp → string) (c : t)
  (now : timestamp) : json :=
  JObj [ ("dc_id", JNum (or_Z (dcId (sessionData c)) 0));
         ("server_address",
          JStr (or_string (serverAddress (sessionData c)) EmptyString));
         ("port", JNum (or_Z (port (sessionData c)) 443));
         ("auth_key",
          match key_bytes c with
          | Some keyBuffer => JStr (Buffer_toString_hex keyBuffer)
          | None => JNull
          end);
         ("entities", JObj (JSMap.Object_fromEntries (entitiesMap c)));
         ("exported_at", JStr (toISOString now)) ].
End MoreProps.

(* ================================================================== *)
(** * Properties of the runtime functions *)
(* ================================================================== *)

Section runtime_props.
Import JS Props.

(** ** [parseInt(String(n)) = n] *)

Lemma digit_value_pretty_N_char (d : N) :
  (d < 10)%N → digit_value 10 (pretty_N_char d) = Some (Z.of_N d).
Proof.
  intros Hd.
  assert (d = 0 ∨ d = 1 ∨ d = 2 ∨ d = 3 ∨ d = 4 ∨ d = 5 ∨ d = 6 ∨ d = 7
          ∨ d = 8 ∨ d = 9)%N as Hcases by lia.
  repeat (destruct Hcases as [->|Hcases]; [reflexivity|]). by subst.
Qed.

Lemma parse_digits_pretty_N_go (x : N) (s : string) :
  (0 < x)%N →
  parse_digits 10 None (pretty_N_go x s) = parse_digits 10 (Some (Z.of_N x)) s.
Proof.
  revert s. induction (N.lt_wf_0 x) as [x _ IH]; intros s Hx.
  rewrite pretty_N_go_step by done.
  assert (Hmod : (x `mod` 10 < 10)%N) by (apply N.mod_lt; lia).
  assert (Hdiv : (x = 10 * (x `div` 10) + x `mod` 10)%N) by (apply N.div_mod; lia).
  destruct (decide (x `div` 10 = 0)%N) as [H0|H0].
  - rewrite H0, pretty_N_go_0. simpl.
    rewrite digit_value_pretty_N_char by done. simpl.
    do 2 f_equal. lia.
  - assert (Hlt : (x `div` 10 < x)%N) by (apply N.div_lt; lia).
    assert (Hpos : (0 < x `div` 10)%N) by (by apply N.neq_0_lt_0).
    rewrite (IH _ Hlt _ Hpos). simpl.
    rewrite digit_value_pretty_N_char by done. simpl.
    do 2 f_equal. lia.
Qed.

(** The digits of a positive number start with a digit, and what follows is
    the rest given or starts with a digit too. *)
Lemma pretty_N_go_shape (x : N) (s : string) :
  (0 < x)%N →
  ∃ c rest,
    pretty_N_go x s = String c rest ∧ is_decimal c ∧
    (rest = s ∨ ∃ c' rest', rest = String c' rest' ∧ is_decimal c').
Proof.
  revert s. induction (N.lt_wf_0 x) as [x _ IH]; intros s Hx.
  rewrite pretty_N_go_step by done.
  assert (Hmod : (x `mod` 10 < 10)%N) by (apply N.mod_lt; lia).
  destruct (decide (x `div` 10 = 0)%N) as [H0|H0].
  - rewrite H0, pretty_N_go_0. eexists _, _. split; [done|].
    split; [by eexists | by left].
  - assert (Hlt : (x `div` 10 < x)%N) by (apply N.div_lt; lia).
    assert (Hpos : (0 < x `div` 10)%N) by (by apply N.neq_0_lt_0).
    destruct (IH _ Hlt (String (pretty_N_char (x `mod` 10)) s) Hpos)
      as (c & rest & Heq & Hc & Hrest).
    exists c, rest. split; [done|]. split; [done|]. right.
    destruct Hrest as [->|Hrest]; [|done].
    eexists _, _. split; [done|]. by eexists.
Qed.

Lemma is_decimal_cases (c : ascii) :
  is_decimal c →
  c = "0"%char ∨ c = "1"%char ∨ c = "2"%char ∨ c = "3"%char ∨ c = "4"%char ∨
  c = "5"%char ∨ c = "6"%char ∨ c = "7"%char ∨ c = "8"%char ∨ c = "9"%char.
Proof.
  intros (d & Hd & ->).
  assert (d = 0 ∨ d = 1 ∨ d = 2 ∨ d = 3 ∨ d = 4 ∨ d = 5 ∨ d = 6 ∨ d = 7
          ∨ d = 8 ∨ d = 9)%N as Hcases by lia.
  repeat (destruct Hcases as [->|Hcases]; [tauto|]). subst. tauto.
Qed.

(** On a string of decimal digits [parseInt] reads radix 10 and no sign. *)
Lemma parseInt_decimal (c : ascii) (rest : string) :
  is_decimal c →
  (rest = EmptyString ∨ ∃ c' rest', rest = String c' rest' ∧ is_decimal c') →
  parseInt (String c rest) =
    match parse_digits 10 None (String c rest) with
    | Some n => Int (1 * n)
    | None => NaN
    end ∧
  parseInt (String "-" (String c rest)) =
    match parse_digits 10 None (String c rest) with
    | Some n => Int (-1 * n)
    | None => NaN
    end.
Proof.
  intros Hc%is_decimal_cases Hrest.
  destruct Hrest as [->|(c' & rest' & -> & Hc'%is_decimal_cases)].
  - repeat (destruct Hc as [->|Hc]; [split; reflexivity|]). subst. split; reflexivity.
  - repeat (destruct Hc as [->|Hc];
      [repeat (destruct Hc' as [->|Hc']; [split; reflexivity|]);
       subst; split; reflexivity|]).
    subst.
    repeat (destruct Hc' as [->|Hc']; [split; reflexivity|]).
    subst; split; reflexivity.
Qed.

Lemma parseInt_pretty_pos (p : positive) :
  parseInt (pretty (Npos p)) = Int (Zpos p) ∧
  parseInt (String "-" (pretty (Npos p))) = Int (Zneg p).
Proof.
  unfold pretty, pretty_N. rewrite decide_False by done.
  destruct (pretty_N_go_shape (Npos p) EmptyString) as (c & rest & Heq & Hc & Hrest);
    [done|].
  pose proof (parse_digits_pretty_N_go (Npos p) EmptyString eq_refl) as Hdigits.
  rewrite Heq in *.
  destruct (parseInt_decimal c rest Hc Hrest) as [-> ->].
  by rewrite Hdigits.
Qed.

Lemma parseInt_String_of_number (n : number) : parseInt (String_of_number n) = n.
Proof.
  destruct n as [[|p|p]|]; simpl; try reflexivity.
  - apply parseInt_pretty_pos.
  - apply parseInt_pretty_pos.
Qed.

Global Instance String_of_number_inj : Inj (=) (=) String_of_number.
Proof.
  intros n1 n2 Heq.
  by rewrite <-(parseInt_String_of_number n1), Heq, parseInt_String_of_number.
Qed.

(** ** Objects and maps *)

Lemma insert_prop_Permutation (o : list (string * json)) (k : string) (v : json) :
  insert_prop o k v ≡ₚ (k, v) :: o.
Proof.
  induction o as [|[k' v'] o IH]; simpl; [done|].
  destruct (array_index k) as [i|], (array_index k') as [i'|];
    try destruct (i <? i'); try done;
    by rewrite IH, Permutation_swap.
Qed.

Lemma get_prop_None (o : list (string * json)) (k : string) :
  k ∉ o.*1 → get_prop o k = None.
Proof.
  induction o as [|[k' v'] o IH]; simpl; [done|].
  rewrite not_elem_of_cons. intros [Hne Hnin].
  rewrite bool_decide_eq_false_2 by done. by apply IH.
Qed.

Lemma set_prop_Permutation (o : list (string * json)) (k : string) (v : json) :
  k ∉ o.*1 → set_prop o k v ≡ₚ (k, v) :: o.
Proof.
  intros Hk. unfold set_prop. rewrite get_prop_None by done.
  apply insert_prop_Permutation.
Qed.

(** The properties of [Object.fromEntries(m)] are the entries of [m], keys
    turned into strings, in some order. *)
Lemma fold_set_prop_Permutation (m : JSMap.t json) (o : list (string * json)) :
  NoDup (JSMap.keys m) →
  (∀ k, k ∈ JSMap.keys m → String_of_number k ∉ o.*1) →
  fold_left (λ o '(k, v), set_prop o (String_of_number k) v) m o
    ≡ₚ o ++ ((λ '(k, v), (String_of_number k, v)) <$> m).
Proof.
  revert o. induction m as [|[k v] m IH]; intros o Hnd Hfresh; simpl.
  - by rewrite app_nil_r.
  - unfold JSMap.keys in *. simpl in *. apply NoDup_cons in Hnd as [Hk Hnd].
    assert (Hko : String_of_number k ∉ o.*1) by (apply Hfresh; left).
    rewrite IH; [|done|].
    + rewrite set_prop_Permutation by done. simpl. by rewrite Permutation_middle.
    + intros k' Hk'. rewrite set_prop_Permutation by done. simpl.
      rewrite not_elem_of_cons. split.
      * intros Heq%(inj String_of_number). by subst.
      * apply Hfresh. by right.
Qed.

Lemma Object_fromEntries_Permutation (m : JSMap.t json) :
  JSMap.wf m →
  JSMap.Object_fromEntries m ≡ₚ (λ '(k, v), (String_of_number k, v)) <$> m.
Proof.
  intros Hwf. unfold JSMap.Object_fromEntries, JSMap.entries.
  rewrite fold_set_prop_Permutation; [done|done|].
  intros k _. simpl. apply not_elem_of_nil.
Qed.

Lemma JSMap_set_fresh {V} (m : JSMap.t V) (k : number) (v : V) :
  k ∉ JSMap.keys m → JSMap.set m k v = m ++ [(k, v)].
Proof.
  induction m as [|[k' v'] m IH]; simpl; [done|].
  unfold JSMap.keys; simpl. rewrite not_elem_of_cons. intros [Hne Hnin].
  rewrite bool_decide_eq_false_2 by done. f_equal. by apply IH.
Qed.

(** Entries whose keys parse to different numbers, none of them in the
    session yet, are appended in their order. *)
Lemma set_entities_fresh (es : list (string * json)) (s : ExtendedMemorySession.t json) :
  NoDup (parseInt <$> es.*1) →
  (∀ key, key ∈ es.*1 →
     parseInt key ∉ JSMap.keys (ExtendedMemorySession.entitiesMap s)) →
  ExtendedMemorySession.entitiesMap (Props.set_entities es s)
    = ExtendedMemorySession.entitiesMap s
      ++ ((λ '(key, v), (parseInt key, v)) <$> es).
Proof.
  revert s. induction es as [|[key v] es IH]; intros s Hnd Hfresh; simpl.
  - by rewrite app_nil_r.
  - simpl in Hnd. apply NoDup_cons in Hnd as [Hk Hnd].
    unfold Props.set_entities in *. simpl. rewrite IH; [|done|].
    + unfold ExtendedMemorySession.entitiesMap. simpl.
      rewrite JSMap_set_fresh by (apply Hfresh; left).
      by rewrite <-app_assoc.
    + intros key' Hkey'. unfold ExtendedMemorySession.entitiesMap. simpl.
      rewrite JSMap_set_fresh by (apply Hfresh; left).
      unfold JSMap.keys. rewrite fmap_app, not_elem_of_app. simpl. split.
      * apply Hfresh. by right.
      * rewrite list_elem_of_singleton. intros Heq. apply Hk.
        rewrite <-Heq. by apply list_elem_of_fmap_2.
Qed.

(** Writing the entity map out as an object and reading the object's
    entries back into a new session gives the same entries. *)
Lemma entities_round_trip (m : JSMap.t json) :
  JSMap.wf m →
  ExtendedMemorySession.entitiesMap
    (Props.set_entities (JSMap.Object_fromEntries m) ExtendedMemorySession.new)
  ≡ₚ m.
Proof.
  intros Hwf.
  pose proof (Object_fromEntries_Permutation m Hwf) as Hperm.
  assert (Hkeys : parseInt <$> (JSMap.Object_fromEntries m).*1 ≡ₚ JSMap.keys m).
  { rewrite Hperm. unfold JSMap.keys. rewrite <-!list_fmap_compose.
    erewrite list_fmap_ext; [done|].
    intros _ [k v] _. simpl. apply parseInt_String_of_number. }
  rewrite set_entities_fresh.
  - simpl. rewrite Hperm, <-list_fmap_compose.
    erewrite list_fmap_ext; [by rewrite list_fmap_id|].
    intros _ [k v] _. simpl. by rewrite parseInt_String_of_number.
  - by rewrite Hkeys.
  - intros key _. simpl. apply not_elem_of_nil.
Qed.

(** One entry per key: the invariant holds of the empty map and survives
    [set] and [delete]. *)
Lemma JSMap_wf_empty {V} : JSMap.wf (@JSMap.empty V).
Proof. apply NoDup_nil_2. Qed.

Lemma JSMap_keys_set {V} (m : JSMap.t V) (k : number) (v : V) :
  JSMap.keys (JSMap.set m k v)
    = if bool_decide (k ∈ JSMap.keys m) then JSMap.keys m else JSMap.keys m ++ [k].
Proof.
  unfold JSMap.keys. induction m as [|[k' v'] m IH]; simpl; [done|].
  destruct (decide (k' = k)) as [->|Hne].
  - rewrite !bool_decide_eq_true_2; [done | left | done].
  - rewrite (bool_decide_eq_false_2 (k' = k)) by done.
    change (((k', v') :: JSMap.set m k v).*1) with (k' :: (JSMap.set m k v).*1).
    rewrite IH.
    destruct (decide (k ∈ m.*1)) as [Hin|Hnin].
    + rewrite !bool_decide_eq_true_2; [done | by right | done].
    + rewrite !bool_decide_eq_false_2; [done | | done].
      intros [?|?]%elem_of_cons; by subst.
Qed.

Lemma JSMap_wf_set {V} (m : JSMap.t V) (k : number) (v : V) :
  JSMap.wf m → JSMap.wf (JSMap.set m k v).
Proof.
  unfold JSMap.wf. intros Hwf. rewrite JSMap_keys_set.
  case_bool_decide; [done|].
  apply NoDup_app. split_and!; [done| |apply NoDup_singleton].
  intros k' Hin ->%list_elem_of_singleton. done.
Qed.

Lemma JSMap_wf_delete {V} (m : JSMap.t V) (k : number) :
  JSMap.wf m → JSMap.wf (JSMap.delete m k).
Proof.
  unfold JSMap.wf, JSMap.keys. induction m as [|[k' v'] m IH]; simpl; [done|].
  intros [Hk Hnd]%NoDup_cons. case_bool_decide; [done|]. simpl.
  apply NoDup_cons. split; [|by apply IH].
  intros Hin. apply Hk. clear -Hin.
  induction m as [|[k2 v2] m IH]; simpl in *; [done|].
  case_bool_decide; simpl in *.
  - by right.
  - apply elem_of_cons in Hin as [->|Hin]; [left | right; by apply IH].
Qed.

Lemma JSMap_get_Some {V} (m : JSMap.t V) (k : number) (v : V) :
  JSMap.wf m → JSMap.get m k = Some v ↔ (k, v) ∈ m.
Proof.
  unfold JSMap.wf, JSMap.keys.
  induction m as [|[k' v'] m IH]; simpl; intros Hnd.
  - split; [done | by intros ?%not_elem_of_nil].
  - apply NoDup_cons in Hnd as [Hk Hnd]. rewrite elem_of_cons.
    case_bool_decide as Heq.
    + subst k'. split; [intros [= ->]; by left|].
      intros [[= ->]|Hin]; [done|].
      destruct Hk. by apply (list_elem_of_fmap_2 fst) in Hin.
    + rewrite IH by done. split; [by right|].
      intros [[= -> ->]|Hin]; done.
Qed.

(** Two maps with the same entries answer every key alike. *)
Lemma JSMap_get_Permutation {V} (m1 m2 : JSMap.t V) (k : number) :
  JSMap.wf m1 → m1 ≡ₚ m2 → JSMap.get m1 k = JSMap.get m2 k.
Proof.
  intros Hwf1 Hperm.
  assert (Hwf2 : JSMap.wf m2).
  { unfold JSMap.wf, JSMap.keys in *. by rewrite <-Hperm. }
  apply option_eq. intros v.
  by rewrite !JSMap_get_Some, Hperm.
Qed.
End runtime_props.

(* ================================================================== *)
(** * Properties of the entity cache *)
(* ================================================================== *)

Section entity_cache.
Import JS.
Context {V : Type} (strict_eq : V → V → bool).

Lemma getEntityId_loop_set_found (m : JSMap.t V) (k : number) (v x : V) :
  strict_eq v x = true →
  (∀ id ent, (id, ent) ∈ m → id ≠ k → strict_eq ent x = false) →
  ExtendedMemorySession.getEntityId_loop strict_eq (JSMap.set m k v) x = Some k.
Proof.
  intros Hv. induction m as [|[k' v'] m IH]; intros Hm; simpl.
  - by rewrite Hv.
  - case_bool_decide as Hk; simpl.
    + subst k'. by rewrite Hv.
    + rewrite (Hm k' v' (list_elem_of_here _ _) Hk).
      apply IH. intros id ent Hin. apply Hm. by apply list_elem_of_further.
Qed.

Lemma getEntityId_loop_absent (m : JSMap.t V) (x : V) :
  (∀ id ent, (id, ent) ∈ m → strict_eq ent x = false) →
  ExtendedMemorySession.getEntityId_loop strict_eq m x = None.
Proof.
  induction m as [|[k v] m IH]; intros Hm; simpl; [done|].
  rewrite (Hm k v (list_elem_of_here _ _)).
  apply IH. intros id ent Hin. apply (Hm id ent). by apply list_elem_of_further.
Qed.

Lemma elem_of_JSMap_set (m : JSMap.t V) (k : number) (v : V) id ent :
  (id, ent) ∈ JSMap.set m k v → (id, ent) ∈ m ∨ (id, ent) = (k, v).
Proof.
  induction m as [|[k' v'] m IH]; simpl.
  - intros ->%list_elem_of_singleton. by right.
  - case_bool_decide as Hk.
    + intros [->|Hin]%elem_of_cons.
      * right. by subst.
      * left. by apply list_elem_of_further.
    + intros [->|Hin]%elem_of_cons.
      * left. apply list_elem_of_here.
      * destruct (IH Hin) as [?|?]; [left; by apply list_elem_of_further | by right].
Qed.

Lemma getEntityId_loop_set_absent (m : JSMap.t V) (k : number) (v x : V) :
  strict_eq v x = false →
  (∀ id ent, (id, ent) ∈ m → strict_eq ent x = false) →
  ExtendedMemorySession.getEntityId_loop strict_eq (JSMap.set m k v) x = None.
Proof.
  intros Hv Hm. apply getEntityId_loop_absent.
  intros id ent [Hin|[= -> ->]]%elem_of_JSMap_set; [by eapply Hm | done].
Qed.
End entity_cache.

Lemma strict_eq_Obj (x : Heap.value) (a : Heap.addr) :
  Heap.strict_eq x (Heap.Obj a) = true ↔ x = Heap.Obj a.
Proof.
  destruct x as [v|b]; simpl.
  - split; [by destruct v | done].
  - case_bool_decide; naive_solver.
Qed.

Lemma strict_eq_Obj_false (x : Heap.value) (a : Heap.addr) :
  x ≠ Heap.Obj a → Heap.strict_eq x (Heap.Obj a) = false.
Proof.
  intros Hne. destruct (Heap.strict_eq x (Heap.Obj a)) eqn:E; [|done].
  by apply strict_eq_Obj in E.
Qed.

(** C9.  After [setEntity(7, obj)], [getEntityId(obj)] is [7] and
    [getEntityId] of an object with the same structure but another identity
    is [undefined]: the lookup compares references.  The session is any one
    that does not already hold [obj] under another key, or the other object
    under any key; a new session is one such. *)
Theorem C9_getEntityId_by_identity
  (this : ExtendedMemorySession.t Heap.value) (h : Heap.heap) (obj other : Heap.addr) :
  Heap.same_structure h obj other →
  obj ≠ other →
  (∀ id ent, (id, ent) ∈ ExtendedMemorySession.entitiesMap this →
             id ≠ JS.Int 7 → ent ≠ Heap.Obj obj) →
  (∀ id ent, (id, ent) ∈ ExtendedMemorySession.entitiesMap this →
             ent ≠ Heap.Obj other) →
  let this' := ExtendedMemorySession.setEntity this (JS.Int 7) (Heap.Obj obj) in
  ExtendedMemorySession.getEntityId Heap.strict_eq this' (Heap.Obj obj)
    = Some (JS.Int 7) ∧
  ExtendedMemorySession.getEntityId Heap.strict_eq this' (Heap.Obj other) = None.
Proof.
  intros _ Hne Hobj Hother this'. split.
  - apply getEntityId_loop_set_found.
    + by apply strict_eq_Obj.
    + intros id ent Hin Hid. apply strict_eq_Obj_false. by eapply Hobj.
  - apply getEntityId_loop_set_absent.
    + apply strict_eq_Obj_false. congruence.
    + intros id ent Hin. apply strict_eq_Obj_false. by eapply Hother.
Qed.

(** C9 on a new session and two objects [{name: "x"}]. *)
Lemma C9_getEntityId_by_identity_witness :
  let h : Heap.heap :=
    {[ 1%positive := [("name", JS.JStr "x")]; 2%positive := [("name", JS.JStr "x")] ]} in
  let this' := ExtendedMemorySession.setEntity ExtendedMemorySession.new
                 (JS.Int 7) (Heap.Obj 1%positive) in
  Heap.same_structure h 1%positive 2%positive ∧
  ExtendedMemorySession.getEntityId Heap.strict_eq this' (Heap.Obj 1%positive)
    = Some (JS.Int 7) ∧
  ExtendedMemorySession.getEntityId Heap.strict_eq this' (Heap.Obj 2%positive) = None.
Proof.
  intros h this'.
  assert (Hs : Heap.same_structure h 1%positive 2%positive).
  { split; [by eexists | reflexivity]. }
  split; [exact Hs|].
  apply (C9_getEntityId_by_identity ExtendedMemorySession.new h 1%positive 2%positive Hs).
  - discriminate.
  - intros id ent Hin. inversion Hin.
  - intros id ent Hin. inversion Hin.
Defined.

(* ================================================================== *)
(** * Properties of the store *)
(* ================================================================== *)

Section store.
Import JS World DatabaseManager Props.

Lemma on_database_run {A} (db : Database) f (w : world) (d : database) :
  dbs w !! db = Some d →
  @on_database A db f w =
    ((f (clock w) d).1, set_dbs <[db := (f (clock w) d).2]> w).
Proof. intros Hd. unfold on_database. rewrite Hd. by destruct (f (clock w) d). Qed.

Lemma on_table_run {A} (db : Database) f (w : world) (rows : list Row) (seq : Z) :
  dbs w !! db = Some {| telegram_sessions := Some rows; sqlite_sequence := seq |} →
  @on_table A db f w =
    (Return (f (clock w) seq rows).1,
     set_dbs <[db := {| telegram_sessions := Some (f (clock w) seq rows).2.2;
                        sqlite_sequence := (f (clock w) seq rows).2.1 |}]> w).
Proof.
  intros Hd. unfold on_table. rewrite (on_database_run _ _ _ _ Hd). simpl.
  by destruct (f (clock w) seq rows) as [r [seq' rows']].
Qed.

Lemma has_table_lookup (w : world) (db : Database) :
  has_table w db →
  ∃ rows seq,
    dbs w !! db = Some {| telegram_sessions := Some rows; sqlite_sequence := seq |}.
Proof.
  unfold has_table. destruct (dbs w !! db) as [[tbl seq]|];
    intros [rows Hrows]; simplify_eq/=.
  by exists rows, seq.
Qed.

Lemma find_filter_out (sessionName : string) (rows : list Row) :
  List.find (λ r, bool_decide (name r = sessionName))
    (List.filter (λ r, negb (bool_decide (name r = sessionName))) rows) = None.
Proof.
  induction rows as [|r rows IH]; simpl; [done|].
  case_bool_decide as Hn; simpl; [done|].
  by rewrite bool_decide_eq_false_2.
Qed.

Lemma find_app_None {A} (p : A → bool) (l1 l2 : list A) :
  List.find p l1 = None → List.find p (l1 ++ l2) = List.find p l2.
Proof.
  induction l1 as [|x l1 IH]; simpl; [done|].
  destruct (p x); [done | apply IH].
Qed.

Lemma saveSessionData_run (db : Database) (sessionName : string) (d : data)
  (w : world) (rows : list Row) (seq : Z) :
  dbs w !! db = Some {| telegram_sessions := Some rows; sqlite_sequence := seq |} →
  saveSessionData db sessionName d w =
    (Return tt,
     set_dbs <[db := {| telegram_sessions :=
                          Some (List.filter (λ r, negb (bool_decide (name r = sessionName))) rows
                                ++ [saved_row (next_rowid seq rows) sessionName d (clock w)]);
                        sqlite_sequence := next_rowid seq rows |}]> w).
Proof. intros Hd. unfold saveSessionData. by rewrite (on_table_run _ _ _ _ _ Hd). Qed.

Lemma loadSessionData_run (db : Database) (sessionName : string)
  (w : world) (rows : list Row) (seq : Z) :
  dbs w !! db = Some {| telegram_sessions := Some rows; sqlite_sequence := seq |} →
  loadSessionData db sessionName w =
    (Return (List.find (λ r, bool_decide (name r = sessionName)) rows), w).
Proof.
  intros Hd. unfold loadSessionData. rewrite (on_table_run _ _ _ _ _ Hd). simpl.
  f_equal. destruct w as [ds fs dr hs cl]; unfold set_dbs; simpl in *.
  f_equal. by apply insert_id.
Qed.

Lemma loadSessionData_after_save (db : Database) (sessionName : string) (d : data)
  (w : world) (rows : list Row) (seq : Z) :
  dbs w !! db = Some {| telegram_sessions := Some rows; sqlite_sequence := seq |} →
  (loadSessionData db sessionName (saveSessionData db sessionName d w).2).1 =
    Return (Some (saved_row (next_rowid seq rows) sessionName d (clock w))).
Proof.
  intros Hd. rewrite (saveSessionData_run _ _ _ _ _ _ Hd). simpl.
  erewrite loadSessionData_run; [|simpl; apply lookup_insert_eq]. simpl.
  rewrite find_app_None by apply find_filter_out. simpl.
  by rewrite bool_decide_eq_true_2.
Qed.

(** C1, what the code does.  On a store that holds the table, save a name,
    let the clock move to [t2], save the name again: the second save replaces
    every persisted field and sets [updated_at] to [t2], and it sets
    [created_at] to [t2] as well.  The row that stood under the name is
    deleted by [INSERT OR REPLACE] and [created_at] takes its default again,
    so its first value survives only when the clock has not moved. *)
Theorem C1_second_save_resets_created_at
  (w : world) (db : Database) (sessionName : string) (d1 d2 : data)
  (t2 : timestamp) :
  has_table w db →
  let w1 := (saveSessionData db sessionName d1 w).2 in
  let w2 := (saveSessionData db sessionName d2 (set_clock t2 w1)).2 in
  ∃ r1 r2,
    (loadSessionData db sessionName w1).1 = Return (Some r1) ∧
    (loadSessionData db sessionName w2).1 = Return (Some r2) ∧
    created_at r1 = clock w ∧
    created_at r2 = t2 ∧
    updated_at r2 = t2 ∧
    auth_key r2 = authKey d2 ∧ dc_id r2 = dcId d2 ∧
    server_address r2 = serverAddress d2 ∧ World.port r2 = port d2 ∧
    World.entities r2 = entities d2 ∧
    (t2 ≠ clock w → created_at r2 ≠ created_at r1).
Proof.
  intros Ht w1 w2. destruct (has_table_lookup _ _ Ht) as (rows & seq & Hd).
  eexists _, _. split; [by apply loadSessionData_after_save|].
  subst w2 w1. rewrite (saveSessionData_run _ _ _ _ _ _ Hd). simpl.
  split.
  { erewrite loadSessionData_after_save; [done|]. simpl. apply lookup_insert_eq. }
  simpl. repeat split; try done.
Qed.

(** C1 at a concrete store: a row saved at second 100 and saved again at
    second 200 has [created_at = 200]. *)
Lemma C1_second_save_resets_created_at_witness :
  let w : world :=
    {| dbs := {[ "sessions.db" :=
                   {| telegram_sessions := Some []; sqlite_sequence := 0 |} ]};
       files := ∅; dirs := ∅; handles := 0; clock := 100%N |} in
  let d := {| authKey := None; dcId := Some 2; serverAddress := None;
              port := None; entities := None |} in
  let w1 := (saveSessionData "sessions.db" "main" d w).2 in
  let w2 := (saveSessionData "sessions.db" "main" d (set_clock 200%N w1)).2 in
  ∃ r1 r2,
    (loadSessionData "sessions.db" "main" w1).1 = Return (Some r1) ∧
    (loadSessionData "sessions.db" "main" w2).1 = Return (Some r2) ∧
    created_at r1 = 100%N ∧ created_at r2 = 200%N.
Proof.
  intros w d w1 w2.
  destruct (C1_second_save_resets_created_at w "sessions.db" "main" d d 200%N)
    as (r1 & r2 & H1 & H2 & Hc1 & Hc2 & _).
  { by eexists. }
  by exists r1, r2.
Defined.

(** ** [listSessions] *)

Lemma Database_new_run (path : string) (w : world) :
  Database_new path w =
    (Return path,
     set_handles (Z.add 1)
       (match dbs w !! path with
        | Some _ => w
        | None => set_dbs <[path := new_database]> w
        end)).
Proof. done. Qed.

(** Opening a file and making sure of the table leaves the rows as they
    were. *)
Lemma ensureTable_after_new (path : string) (w : world) :
  ∃ w1,
    (let* db := createDatabase path in ensureTable db ;; ret db)%js w
      = (Return path, w1) ∧
    dbs w1 !! path = Some {| telegram_sessions := Some (rows_at w path);
                             sqlite_sequence := seq_at w path |} ∧
    (∀ p, p ≠ path → dbs w1 !! p = dbs w !! p) ∧
    files w1 = files w ∧ dirs w1 = dirs w ∧ clock w1 = clock w ∧
    handles w1 = 1 + handles w.
Proof.
  unfold bind, createDatabase, ensureTable, rows_at, seq_at.
  rewrite Database_new_run.
  destruct (dbs w !! path) as [[tbl seq]|] eqn:Hd.
  - erewrite on_database_run; [|exact Hd]. simpl.
    eexists. split; [done|]. simpl. rewrite lookup_insert_eq.
    repeat split; try done.
    + by destruct tbl.
    + intros p Hp. by rewrite lookup_insert_ne.
  - erewrite on_database_run; [|simpl; apply lookup_insert_eq]. simpl.
    eexists. split; [done|]. simpl. rewrite lookup_insert_eq.
    repeat split; try done.
    intros p Hp. by rewrite !lookup_insert_ne.
Qed.

Global Instance created_at_desc_total : Total created_at_desc.
Proof. intros r1 r2. unfold created_at_desc. lia. Qed.
Global Instance created_at_desc_trans : Transitive created_at_desc.
Proof. intros r1 r2 r3. unfold created_at_desc. lia. Qed.

(** Whatever the file holds, [listSessions] returns its rows sorted by
    [created_at], newest first. *)
Lemma listSessions_run (path : string) (w : world) :
  (listSessions path w).1 =
    Return (listed_of <$> merge_sort created_at_desc (rows_at w path)).
Proof.
  destruct (ensureTable_after_new path w) as (w1 & Hrun & Hd & _).
  unfold listSessions, listSessions_on, class; simpl.
  unfold bind in *. unfold createDatabase in *.
  rewrite Database_new_run in *. unfold try_finally.
  unfold bind.
  destruct (ensureTable path _) as [[[]| |] w2] eqn:He;
    unfold ret in *; simplify_eq/=.
  unfold select_ordered. by erewrite on_table_run.
Qed.

(** C8.  [listSessions] returns the sessions of a store file newest first:
    when the rows have pairwise different creation times, the result is
    their one arrangement by strictly descending [created_at]; for three
    sessions created at [t1 < t2 < t3] that is [t3], [t2], [t1]. *)
Theorem C8_listSessions_newest_first
  (w : world) (path : string) (newest_first : list Row) :
  newest_first ≡ₚ rows_at w path →
  StronglySorted (λ r1 r2, (created_at r2 < created_at r1)%N) newest_first →
  (listSessions path w).1 = Return (listed_of <$> newest_first).
Proof.
  intros Hperm Hsorted. rewrite listSessions_run. do 2 f_equal.
  apply (StronglySorted_unique_strong created_at_desc).
  - intros r1 r2 Hin1 Hin2 H12 H21. unfold created_at_desc in *.
    assert (Heq : created_at r1 = created_at r2) by lia.
    clear H12 H21.
    rewrite merge_sort_Permutation, <-Hperm in Hin1.
    clear Hperm. induction Hsorted as [|r l Hl IH Hall]; [by inv Hin1|].
    rewrite Forall_forall in Hall.
    inv Hin1; inv Hin2; try done.
    + match goal with H : r2 ∈ l |- _ => apply Hall in H; lia end.
    + match goal with H : r1 ∈ l |- _ => apply Hall in H; lia end.
    + by apply IH.
  - apply StronglySorted_merge_sort; apply _.
  - clear Hperm. induction Hsorted as [|r l Hl IH Hall]; constructor; [done|].
    eapply Forall_impl; [exact Hall|]. intros r'. unfold created_at_desc. lia.
  - by rewrite merge_sort_Permutation.
Qed.

(** C8 on three sessions created at seconds 10, 20 and 30, in a table that
    holds them in the order 20, 30, 10. *)
Lemma C8_listSessions_newest_first_witness :
  let row (i : Z) (n : string) (t : N) : Row :=
    {| id := i; name := n; auth_key := None; dc_id := None;
       server_address := None; World.port := None; World.entities := None;
       created_at := t; updated_at := t |} in
  let w : world :=
    {| dbs := {[ "sessions.db" :=
                   {| telegram_sessions :=
                        Some [row 2 "b" 20%N; row 3 "c" 30%N; row 1 "a" 10%N];
                      sqlite_sequence := 3 |} ]};
       files := ∅; dirs := ∅; handles := 0; clock := 40%N |} in
  (listSessions "sessions.db" w).1 =
    Return [ {| l_name := "c"; l_created_at := 30%N; l_updated_at := 30%N |};
             {| l_name := "b"; l_created_at := 20%N; l_updated_at := 20%N |};
             {| l_name := "a"; l_created_at := 10%N; l_updated_at := 10%N |} ].
Proof.
  intros row w.
  apply (C8_listSessions_newest_first w "sessions.db"
           [row 3 "c" 30%N; row 2 "b" 20%N; row 1 "a" 10%N]).
  - apply perm_swap.
  - repeat constructor; simpl; lia.
Defined.
End store.

(* ================================================================== *)
(** * Properties of the session class *)
(* ================================================================== *)

Section session_props.
Import JS World SessionState Props.
Variable JSON_parse : string → option json.
Variable JSON_stringify : json → string.
Variable JSON_stringify_pretty : json → string.
Variable dirname : string → string.
Variable toISOString : timestamp → string.

(** Unfolding the monad. *)
Ltac run :=
  unfold this, update, io, lift, zoom, bind, ret, throw, untyped, gets, modify,
    JS.get in *; simpl in *.

Lemma set_db_same (c : t) (d : string) : db c = Some d → set_db (Some d) c = c.
Proof. destruct c. simpl. by intros ->. Qed.

Lemma set_dbs_same (w : world) (path : string) (d : database) :
  dbs w !! path = Some d → set_dbs <[path := d]> w = w.
Proof.
  intros Hd. destruct w. unfold set_dbs. simpl in *. f_equal. by apply insert_id.
Qed.

(** [init]: the connection is open on the instance's file afterwards, and
    the file holds the table with the rows it had. *)
Lemma init_run (c : t) (w : world) :
  connected c w →
  ∃ w1,
    SqliteSession.init (c, w)
      = (Return (databasePath c), (set_db (Some (databasePath c)) c, w1)) ∧
    dbs w1 !! databasePath c
      = Some {| telegram_sessions := Some (rows_at w (databasePath c));
                sqlite_sequence := seq_at w (databasePath c) |} ∧
    (∀ p, p ≠ databasePath c → dbs w1 !! p = dbs w !! p) ∧
    files w1 = files w ∧ dirs w1 = dirs w ∧ clock w1 = clock w.
Proof.
  unfold connected, SqliteSession.init. intros Hc.
  destruct (db c) as [d|] eqn:Hdb.
  - destruct Hc as [-> Ht]. destruct (has_table_lookup _ _ Ht) as (rows & seq & Hd).
    exists w. run. rewrite Hdb. rewrite (set_db_same _ _ Hdb).
    unfold rows_at, seq_at. rewrite Hd. done.
  - destruct (ensureTable_after_new (databasePath c) w)
      as (w1 & Hrun & Hd & Hframe & Hf & Hdr & Hcl & _).
    exists w1. run. rewrite Hdb. simpl.
    destruct (DatabaseManager.ensureTable _ _) as [[[]| |] w2]; simplify_eq/=.
    done.
Qed.

(** [save]: the row under the session name is replaced by the one built
    from the instance; the other rows and the other files stay. *)
Lemma save_run (c : t) (w : world) :
  connected c w →
  let path := databasePath c in
  let rowid := DatabaseManager.next_rowid (seq_at w path) (rows_at w path) in
  ∃ w1,
    SqliteSession.save JSON_stringify (c, w)
      = (Return (sessionName c), (set_db (Some path) c, w1)) ∧
    dbs w1 !! path
      = Some {| telegram_sessions :=
                  Some (List.filter (λ r, negb (bool_decide (name r = sessionName c)))
                          (rows_at w path)
                        ++ [saved_row rowid (sessionName c)
                              (persisted JSON_stringify c) (clock w)]);
                sqlite_sequence := rowid |} ∧
    (∀ p, p ≠ path → dbs w1 !! p = dbs w !! p) ∧
    files w1 = files w ∧ dirs w1 = dirs w ∧ clock w1 = clock w.
Proof.
  intros Hc path rowid.
  destruct (init_run c w Hc) as (w0 & Hinit & Hd & Hframe & Hf & Hdr & Hcl).
  unfold SqliteSession.save. run. rewrite Hinit. simpl.
  rewrite (saveSessionData_run _ _ _ _ _ _ Hd). simpl.
  eexists. split; [reflexivity|]. simpl. rewrite lookup_insert_eq, Hcl.
  repeat split; try done.
  intros p Hp. rewrite lookup_insert_ne by done. by apply Hframe.
Qed.

Lemma row_at_lookup (w : world) (path sessionName : string) rows seq :
  dbs w !! path = Some {| telegram_sessions := Some rows; sqlite_sequence := seq |} →
  row_at w path sessionName
    = List.find (λ r, bool_decide (name r = sessionName)) rows.
Proof. intros Hd. unfold row_at, rows_at. by rewrite Hd. Qed.

(** After [save] the store answers the name with the saved row. *)
Lemma row_at_save (c : t) (w : world) :
  connected c w →
  ∃ rowid,
    row_at (world_of (SqliteSession.save JSON_stringify (c, w)))
      (databasePath c) (sessionName c)
    = Some (saved_row rowid (sessionName c) (persisted JSON_stringify c) (clock w)).
Proof.
  intros Hc. destruct (save_run c w Hc) as (w1 & Hrun & Hd & _).
  eexists. unfold world_of. rewrite Hrun. simpl.
  erewrite row_at_lookup by exact Hd.
  rewrite find_app_None by apply find_filter_out. simpl.
  by rewrite bool_decide_eq_true_2.
Qed.

(** [_saveToDB] does nothing before [load] and saves after it. *)
Lemma _saveToDB_run (c : t) (w : world) :
  SqliteSession._saveToDB JSON_stringify (c, w) =
    if isLoaded c then (SqliteSession.save JSON_stringify ;; ret tt)%js (c, w)
    else (Return tt, (c, w)).
Proof. unfold SqliteSession._saveToDB. run. by destruct (isLoaded c). Qed.

(** What a mutator does, by the state of the instance. *)
Lemma mutators_run
  (c : t) (w : world) (dcId : Z) (serverAddress : string) (port : Z)
  (key : option AuthKey.t) (id : number) (entity : json) :
  let c_dc :=
    set_sessionData
      (λ d, set_port (Some port)
              (set_serverAddress (Some serverAddress) (set_dcId (Some dcId) d))) c in
  let c_key := set_sessionData (set_authKey key) c in
  let c_ent := set_super (λ s, ExtendedMemorySession.setEntity s id entity) c in
  let save_now := (SqliteSession.save JSON_stringify ;; ret tt)%js in
  if isLoaded c then
    SqliteSession.setDC JSON_stringify dcId serverAddress port (c, w)
      = save_now (c_dc, w) ∧
    SqliteSession.set_authKey JSON_stringify key (c, w) = save_now (c_key, w) ∧
    SqliteSession.setEntity JSON_stringify id entity (c, w) = save_now (c_ent, w)
  else
    SqliteSession.setDC JSON_stringify dcId serverAddress port (c, w)
      = (Return tt, (c_dc, w)) ∧
    SqliteSession.set_authKey JSON_stringify key (c, w) = (Return tt, (c_key, w)) ∧
    SqliteSession.setEntity JSON_stringify id entity (c, w) = (Return tt, (c_ent, w)).
Proof.
  intros c_dc c_key c_ent save_now.
  unfold SqliteSession.setDC, SqliteSession.set_authKey, SqliteSession.setEntity.
  destruct (isLoaded c) eqn:Hl.
  - repeat split; run; rewrite _saveToDB_run; simpl; by rewrite Hl.
  - repeat split; run; rewrite _saveToDB_run; simpl; by rewrite Hl.
Qed.

(** The invariant [connected] holds of a new instance and survives [save],
    the mutators and [close]. *)
Lemma connected_constructor (path : string) (name : option string) (w : world) :
  connected (SqliteSession.constructor path name) w.
Proof. exact I. Qed.

Lemma connected_save (c : t) (w : world) :
  connected c w →
  connected (instance (SqliteSession.save JSON_stringify (c, w)))
            (world_of (SqliteSession.save JSON_stringify (c, w))).
Proof.
  intros Hc. destruct (save_run c w Hc) as (w1 & Hrun & Hd & _).
  unfold instance, world_of. rewrite Hrun. simpl.
  unfold connected, has_table. simpl. split; [done|]. rewrite Hd. by eexists.
Qed.

Lemma connected_mutators (c : t) (w : world) (dc : Z) (address : string) (p : Z)
  (key : option AuthKey.t) (id : number) (entity : json) :
  connected c w →
  let r1 := SqliteSession.setDC JSON_stringify dc address p (c, w) in
  let r2 := SqliteSession.set_authKey JSON_stringify key (c, w) in
  let r3 := SqliteSession.setEntity JSON_stringify id entity (c, w) in
  connected (instance r1) (world_of r1) ∧
  connected (instance r2) (world_of r2) ∧
  connected (instance r3) (world_of r3).
Proof.
  intros Hc r1 r2 r3. subst r1 r2 r3.
  pose proof (mutators_run c w dc address p key id entity) as Hrun. simpl in Hrun.
  destruct (isLoaded c); destruct Hrun as (-> & -> & ->).
  - unfold bind, ret, instance, world_of.
    split_and!;
      match goal with
      | |- context [SqliteSession.save _ (?c', w)] =>
          let H := fresh in
          assert (H : connected c' w) by exact Hc;
          pose proof (connected_save c' w H) as Hs;
          destruct (save_run c' w H) as (w1 & Hsave & _);
          unfold instance, world_of in Hs; rewrite Hsave in *; exact Hs
      end.
  - by split_and!.
Qed.

Lemma connected_close (c : t) (w : world) :
  connected (instance (SqliteSession.close (c, w)))
            (world_of (SqliteSession.close (c, w))).
Proof.
  unfold SqliteSession.close, connected, instance. run.
  by destruct (db c) eqn:Hdb; simpl; [|rewrite Hdb].
Qed.

(** On a loaded instance the row in the store after a mutator is the row of
    the instance as the mutator has left it. *)
Lemma mutators_persist (c : t) (w : world) (dc : Z) (address : string) (p : Z)
  (key : option AuthKey.t) (id : number) (entity : json) :
  isLoaded c = true →
  connected c w →
  let stored r := row_at (world_of r) (databasePath c) (sessionName c) in
  let r1 := SqliteSession.setDC JSON_stringify dc address p (c, w) in
  let r2 := SqliteSession.set_authKey JSON_stringify key (c, w) in
  let r3 := SqliteSession.setEntity JSON_stringify id entity (c, w) in
  (∃ rowid, stored r1 = Some (saved_row rowid (sessionName c)
                                (persisted JSON_stringify (instance r1)) (clock w))) ∧
  (∃ rowid, stored r2 = Some (saved_row rowid (sessionName c)
                                (persisted JSON_stringify (instance r2)) (clock w))) ∧
  (∃ rowid, stored r3 = Some (saved_row rowid (sessionName c)
                                (persisted JSON_stringify (instance r3)) (clock w))).
Proof.
  intros Hl Hc stored r1 r2 r3. subst stored r1 r2 r3.
  pose proof (mutators_run c w dc address p key id entity) as Hrun. simpl in Hrun.
  rewrite Hl in Hrun. destruct Hrun as (-> & -> & ->).
  unfold bind, ret, instance, world_of.
  split_and!;
    match goal with
    | |- context [SqliteSession.save _ (?c', w)] =>
        let H := fresh in
        assert (H : connected c' w) by exact Hc;
        destruct (row_at_save c' w H) as (rowid & Hrow);
        destruct (save_run c' w H) as (w1 & Hsave & _);
        unfold world_of in Hrow; rewrite Hsave in *; simpl in *;
        exists rowid; exact Hrow
    end.
Qed.


(** ** [load] *)

Lemma setEntity_unloaded (c : t) (w : world) (id : number) (entity : json) :
  isLoaded c = false →
  SqliteSession.setEntity JSON_stringify id entity (c, w)
    = (Return tt, (set_super (λ s, ExtendedMemorySession.setEntity s id entity) c, w)).
Proof.
  intros Hl. unfold SqliteSession.setEntity. run. rewrite _saveToDB_run. simpl.
  by rewrite Hl.
Qed.

Lemma for_of_setEntity_unloaded (es : list (string * json)) (c : t) (w : world) :
  isLoaded c = false →
  for_of es (λ '(key, value),
    SqliteSession.setEntity JSON_stringify (parseInt key) value) (c, w)
    = (Return tt, (set_super (set_entities es) c, w)).
Proof.
  revert c. induction es as [|[key value] es IH]; intros c Hl; simpl.
  - by destruct c as [[m] ? ? ? ? ?].
  - unfold bind. rewrite setEntity_unloaded by done.
    rewrite IH by done. by destruct c as [[m] ? ? ? ? ?].
Qed.

(** [load] on an instance that is not loaded: it opens the connection, takes
    from the row what [absorb] says, and marks the instance loaded.  It
    writes nothing. *)
Lemma load_run (c : t) (w : world) :
  isLoaded c = false →
  connected c w →
  let path := databasePath c in
  ∃ w1,
    SqliteSession.load JSON_parse JSON_stringify (c, w)
      = (Return tt,
         (set_isLoaded true
            (absorb JSON_parse (row_at w path (sessionName c)) (set_db (Some path) c)),
          w1)) ∧
    dbs w1 !! path
      = Some {| telegram_sessions := Some (rows_at w path);
                sqlite_sequence := seq_at w path |} ∧
    (∀ p, p ≠ path → dbs w1 !! p = dbs w !! p) ∧
    files w1 = files w ∧ dirs w1 = dirs w ∧ clock w1 = clock w.
Proof.
  intros Hl Hc path.
  destruct (init_run c w Hc) as (w0 & Hinit & Hd & Hframe & Hf & Hdr & Hcl).
  exists w0. split; [|done].
  unfold SqliteSession.load. run. rewrite Hl, Hinit. simpl.
  rewrite (loadSessionData_run _ _ _ _ _ Hd). simpl.
  unfold row_at, absorb. fold path.
  destruct (List.find _ (rows_at w path)) as [row|]; [|done].
  unfold absorb_auth_key, absorb_dc, absorb_entities, try_catch.
  destruct (auth_key row) as [key|]; [destruct (0 <? Z.of_nat (length key))|];
    (destruct (dc_id row) as [dc|]; [destruct (truthy_Z dc)|]);
    (destruct (World.entities row) as [text|]; [destruct (truthy_string text)|]);
    simpl; try done;
    (destruct (JSON_parse text) as [entities|]; [|done]);
    destruct entities; simpl; rewrite ?for_of_setEntity_unloaded; done.
Qed.

Lemma connected_load (c : t) (w : world) :
  connected c w →
  connected (instance (SqliteSession.load JSON_parse JSON_stringify (c, w)))
            (world_of (SqliteSession.load JSON_parse JSON_stringify (c, w))).
Proof.
  intros Hc. destruct (isLoaded c) eqn:Hl.
  - unfold SqliteSession.load, instance, world_of. run. by rewrite Hl.
  - destruct (load_run c w Hl Hc) as (w1 & Hrun & Hd & _).
    unfold instance, world_of. rewrite Hrun. simpl.
    unfold connected, has_table.
    destruct (row_at w (databasePath c) (sessionName c)); simpl;
      (split; [done|]); rewrite Hd; by eexists.
Qed.

(** A second [load] does nothing. *)
Lemma load_loaded (c : t) (w : world) :
  isLoaded c = true →
  SqliteSession.load JSON_parse JSON_stringify (c, w) = (Return tt, (c, w)).
Proof. intros Hl. unfold SqliteSession.load. run. by rewrite Hl. Qed.

(** The static [SqliteSession.listSessions] is the function of
    [DatabaseManager] taken off its class: called on [SqliteSession] it finds
    no [createDatabase] there and throws before it opens anything. *)
Lemma static_listSessions_throws (path : string) (w : world) :
  SqliteSession.static_listSessions path w = (Throw TypeError, w).
Proof. done. Qed.

Lemma or_string_default (x : option string) :
  or_string x EmptyString = default EmptyString x.
Proof. by destruct x as [[|]|]. Qed.

(** What the first [load] does with the data-center columns of the row. *)
Lemma load_data_center (c : t) (w : world) (row : Row) :
  isLoaded c = false →
  connected c w →
  row_at w (databasePath c) (sessionName c) = Some row →
  let c' := instance (SqliteSession.load JSON_parse JSON_stringify (c, w)) in
  (∀ dc, dc_id row = Some dc → dc ≠ 0 →
     dcId (sessionData c') = Some dc ∧
     serverAddress (sessionData c') = Some (default EmptyString (server_address row)) ∧
     port (sessionData c') =
       Some (match World.port row with
             | Some p => if p =? 0 then 443 else p
             | None => 443
             end)) ∧
  (dc_id row = None ∨ dc_id row = Some 0 →
     dcId (sessionData c') = dcId (sessionData c) ∧
     serverAddress (sessionData c') = serverAddress (sessionData c) ∧
     port (sessionData c') = port (sessionData c)).
Proof.
  intros Hl Hc Hrow c'. subst c'.
  destruct (load_run c w Hl Hc) as (w1 & Hrun & _).
  unfold instance. rewrite Hrun, Hrow. simpl. unfold absorb_dc. split.
  - intros dc Hdc Hne. rewrite Hdc. unfold truthy_Z.
    rewrite (proj2 (Z.eqb_neq dc 0)) by done. simpl.
    rewrite or_string_default. repeat split.
    unfold or_Z, or_null_Z, truthy_Z.
    destruct (World.port row) as [p|]; [|done]. by destruct (p =? 0).
  - intros [Hdc|Hdc]; rewrite Hdc; simpl;
      unfold absorb_auth_key;
      by destruct (auth_key row) as [key|]; [destruct (0 <? Z.of_nat (length key))|].
Qed.

(** C3, amended.  On the first [load] of an instance, a row whose [dc_id]
    is neither null nor 0 gives the instance its [dcId], the server address
    of the row or the empty string when that column is null, and the port of
    the row or 443 when that column is null or 0.  A row whose [dc_id] is
    null or 0 leaves the three fields as they were: unset on a new
    instance. *)
Theorem C3_load_takes_nonzero_dc_id (c : t) (w : world) (row : Row) :
  isLoaded c = false →
  connected c w →
  row_at w (databasePath c) (sessionName c) = Some row →
  let c' := instance (SqliteSession.load JSON_parse JSON_stringify (c, w)) in
  (∀ dc, dc_id row = Some dc → dc ≠ 0 →
     dcId (sessionData c') = Some dc ∧
     serverAddress (sessionData c') = Some (default EmptyString (server_address row)) ∧
     port (sessionData c') =
       Some (match World.port row with
             | Some p => if p =? 0 then 443 else p
             | None => 443
             end)) ∧
  (dc_id row = None ∨ dc_id row = Some 0 →
     dcId (sessionData c') = dcId (sessionData c) ∧
     serverAddress (sessionData c') = serverAddress (sessionData c) ∧
     port (sessionData c') = port (sessionData c)).
Proof. apply load_data_center. Qed.

(** C6.  When the [entities] column of the row holds a text that is not
    JSON, the first [load] returns without throwing and the instance is
    loaded; the entity map is the one it had, empty on a new instance; the
    key and the data center are taken from the row as from any other. *)
Theorem C6_load_with_malformed_entities
  (c : t) (w : world) (row : Row) (text : string) :
  isLoaded c = false →
  connected c w →
  row_at w (databasePath c) (sessionName c) = Some row →
  World.entities row = Some text →
  JSON_parse text = None →
  let r := SqliteSession.load JSON_parse JSON_stringify (c, w) in
  result r = Return tt ∧
  isLoaded (instance r) = true ∧
  entitiesMap (instance r) = entitiesMap c ∧
  (∀ key, auth_key row = Some key → key ≠ [] →
     key_bytes (instance r) = Some key) ∧
  (∀ dc, dc_id row = Some dc → dc ≠ 0 →
     dcId (sessionData (instance r)) = Some dc ∧
     serverAddress (sessionData (instance r))
       = Some (default EmptyString (server_address row)) ∧
     port (sessionData (instance r)) =
       Some (match World.port row with
             | Some p => if p =? 0 then 443 else p
             | None => 443
             end)).
Proof.
  intros Hl Hc Hrow Htext Hparse r.
  pose proof (load_data_center c w row Hl Hc Hrow) as [Hdc _].
  subst r. destruct (load_run c w Hl Hc) as (w1 & Hrun & _).
  unfold result, instance in *. rewrite Hrun in *. rewrite Hrow in *. simpl in *.
  split_and!; [done|done|..].
  - unfold entitiesMap, absorb_entities. simpl. rewrite Htext, Hparse.
    by destruct (truthy_string text).
  - intros key Hkey Hne. unfold key_bytes, absorb_dc, absorb_auth_key. simpl.
    rewrite Hkey. destruct key as [|b key]; [done|]. simpl.
    by destruct (dc_id row) as [dc|]; [destruct (truthy_Z dc)|].
  - exact Hdc.
Qed.

(** ** [save] and then a fresh [load] *)

(** The new instance takes the row that [save] has just written. *)
Lemma save_then_fresh_load_run (c : t) (w : world) (later : timestamp) :
  connected c w →
  ∃ rowid,
    row_at (world_of (SqliteSession.save JSON_stringify (c, w)))
      (databasePath c) (sessionName c)
      = Some (saved_row rowid (sessionName c) (persisted JSON_stringify c) (clock w)) ∧
    save_then_fresh_load JSON_parse JSON_stringify c w later
      = set_isLoaded true
          (absorb JSON_parse
             (Some (saved_row rowid (sessionName c) (persisted JSON_stringify c)
                      (clock w)))
             (set_db (Some (databasePath c))
                (SqliteSession.constructor (databasePath c) (Some (sessionName c))))).
Proof.
  intros Hc. destruct (row_at_save c w Hc) as (rowid & Hrow).
  exists rowid. split; [done|].
  unfold save_then_fresh_load.
  set (w1 := world_of (SqliteSession.save JSON_stringify (c, w))) in *.
  set (fresh := SqliteSession.constructor (databasePath c) (Some (sessionName c))).
  destruct (load_run fresh (set_clock later w1) eq_refl I) as (w2 & Hrun & _).
  unfold instance. rewrite Hrun. simpl.
  change (row_at (set_clock later w1) (databasePath c) (sessionName c))
    with (row_at w1 (databasePath c) (sessionName c)).
  by rewrite Hrow.
Qed.

(** C2, amended.  After [save()], a new instance for the same file and
    session name that runs [load()] holds the same [dcId], server address
    and port, the same key bytes, and the same entities under the same ids,
    if and only if the record is one of these: its key, when it has one, holds
    at least one byte; and either its [dcId] is unset together with its
    server address and its port, or its [dcId] is set and not 0, its server
    address is set, and its port is set and not 0.  Within these the entity
    map may be empty or not and the key may be there or not.  The ids are
    integers a double holds exactly (or [NaN]), the map holds one entry per
    id, and the runtime's JSON functions are assumed to take the object of
    the entity map to a text and back. *)
Theorem C2_save_then_fresh_load_round_trip
  (c : t) (w : world) (later : timestamp) :
  json_round_trip JSON_parse JSON_stringify (entitiesMap c) →
  connected c w →
  JSMap.wf (entitiesMap c) →
  Forall safe_key (JSMap.keys (entitiesMap c)) →
  let c' := save_then_fresh_load JSON_parse JSON_stringify c w later in
  (dcId (sessionData c') = dcId (sessionData c) ∧
   serverAddress (sessionData c') = serverAddress (sessionData c) ∧
   port (sessionData c') = port (sessionData c) ∧
   entitiesMap c' ≡ₚ entitiesMap c ∧
   (∀ id, JSMap.get (entitiesMap c') id = JSMap.get (entitiesMap c) id) ∧
   key_bytes c' = key_bytes c)
  ↔
  (key_bytes c ≠ Some [] ∧
   match dcId (sessionData c) with
   | Some dc =>
       dc ≠ 0 ∧
       is_Some (serverAddress (sessionData c)) ∧
       ∃ p, port (sessionData c) = Some p ∧ p ≠ 0
   | None =>
       serverAddress (sessionData c) = None ∧ port (sessionData c) = None
   end).
Proof.
  intros [Hempty Hjson] Hc Hwf _ c'.
  destruct (save_then_fresh_load_run c w later Hc) as (rowid & _ & Hrun).
  subst c'. rewrite Hrun. clear Hrun.
  assert (Hents : entitiesMap
            (set_isLoaded true
               (absorb JSON_parse
                  (Some (saved_row rowid (sessionName c)
                           (persisted JSON_stringify c) (clock w)))
                  (set_db (Some (databasePath c))
                     (SqliteSession.constructor (databasePath c)
                        (Some (sessionName c))))))
          ≡ₚ entitiesMap c).
  { unfold entitiesMap at 1. simpl. unfold absorb_entities. simpl.
    fold (entitiesMap c).
    destruct (entitiesMap c) as [|e m] eqn:Hm; [done|].
    assert (Hsize : (0 <? JSMap.size (e :: m)) = true).
    { apply Z.ltb_lt. unfold JSMap.size. simpl. lia. }
    rewrite Hsize.
    destruct (JSON_stringify (JObj (JSMap.Object_fromEntries (e :: m))))
      as [|ch text] eqn:Htext; [congruence|].
    simpl. rewrite Hjson. simpl.
    by apply entities_round_trip. }
  assert (Hget : ∀ id,
            JSMap.get
              (entitiesMap
                 (set_isLoaded true
                    (absorb JSON_parse
                       (Some (saved_row rowid (sessionName c)
                                (persisted JSON_stringify c) (clock w)))
                       (set_db (Some (databasePath c))
                          (SqliteSession.constructor (databasePath c)
                             (Some (sessionName c))))))) id
            = JSMap.get (entitiesMap c) id).
  { intros id. apply JSMap_get_Permutation; [|done].
    unfold JSMap.wf, JSMap.keys in *. by rewrite Hents. }
  revert Hents Hget.
  generalize (entitiesMap
                (set_isLoaded true
                   (absorb JSON_parse
                      (Some (saved_row rowid (sessionName c)
                               (persisted JSON_stringify c) (clock w)))
                      (set_db (Some (databasePath c))
                         (SqliteSession.constructor (databasePath c)
                            (Some (sessionName c))))))).
  intros m' Hents Hget.
  unfold key_bytes. simpl. unfold absorb_dc, absorb_auth_key. simpl.
  unfold or_string, or_Z, or_null_string, or_null_Z, truthy_Z.
  destruct (authKey (sessionData c) ≫= AuthKey.getKey) as [[|b key]|];
    destruct (dcId (sessionData c)) as [dc|];
    try (destruct (Z.eqb_spec dc 0) as [->|Hdc]);
    destruct (serverAddress (sessionData c)) as [[|a address]|];
    destruct (port (sessionData c)) as [p|];
    try (destruct (Z.eqb_spec p 0) as [->|Hp]);
    cbn;
    try (destruct (Z.eqb_spec dc 0) as [?|_]; [done|]; cbn);
    try (destruct (Z.eqb_spec p 0) as [?|_]; [done|]; cbn);
    (split;
     [ intros (H1 & H2 & H3 & _ & _ & H6)
     | intros (Hk & Hrest); split_and?; try done ]);
    try discriminate; try done.
  all: repeat match goal with
              | H : _ ∧ _ |- _ => destruct H
              | H : ∃ _, _ |- _ => destruct H
              | H : is_Some None |- _ => by destruct H
              | H : Some _ = Some _ |- _ => injection H as ?; subst
              | H : Some _ = None |- _ => discriminate H
              | H : None = Some _ |- _ => discriminate H
              end; try done.
  all: split_and?; try done; try (by eexists); eauto.
Qed.

(** C7, amended.  [save()] stores an empty entity map, a [dcId] of 0, a
    [port] of 0 and an empty server address as NULL.  After a fresh [load()],
    a [dcId] of 0 has left all three data-center fields unset; a [port] of 0
    has not come back: the port is 443 when the [dcId] was set and not 0,
    and unset otherwise; an empty server address has come back as the empty
    string when the [dcId] was set and not 0, and is unset otherwise. *)
Theorem C7_falsy_values_stored_as_null (c : t) (w : world) (later : timestamp) :
  connected c w →
  let w1 := world_of (SqliteSession.save JSON_stringify (c, w)) in
  let c' := save_then_fresh_load JSON_parse JSON_stringify c w later in
  ∃ row,
    row_at w1 (databasePath c) (sessionName c) = Some row ∧
    (entitiesMap c = [] → World.entities row = None) ∧
    (dcId (sessionData c) = Some 0 →
       dc_id row = None ∧
       dcId (sessionData c') = None ∧
       serverAddress (sessionData c') = None ∧
       port (sessionData c') = None) ∧
    (port (sessionData c) = Some 0 →
       World.port row = None ∧
       port (sessionData c') =
         match dcId (sessionData c) with
         | Some dc => if dc =? 0 then None else Some 443
         | None => None
         end) ∧
    (serverAddress (sessionData c) = Some EmptyString →
       server_address row = None ∧
       serverAddress (sessionData c') =
         match dcId (sessionData c) with
         | Some dc => if dc =? 0 then None else Some EmptyString
         | None => None
         end).
Proof.
  intros Hc w1 c'.
  destruct (save_then_fresh_load_run c w later Hc) as (rowid & Hrow & Hrun).
  eexists. split; [exact Hrow|]. subst c'. rewrite Hrun. clear Hrun Hrow.
  simpl. unfold absorb_dc, absorb_auth_key. simpl.
  split_and!.
  - by intros ->.
  - intros ->. simpl.
    by destruct (key_bytes c) as [key|] eqn:Hk; unfold key_bytes in Hk; rewrite Hk;
      [destruct (0 <? Z.of_nat (length key))|].
  - intros ->. simpl. split; [done|].
    unfold or_null_Z, truthy_Z.
    destruct (dcId (sessionData c)) as [dc|]; simpl.
    + destruct (dc =? 0) eqn:Hdc; simpl; [|by rewrite Hdc].
      by destruct (authKey (sessionData c) ≫= AuthKey.getKey) as [key|];
        [destruct (0 <? Z.of_nat (length key))|].
    + by destruct (authKey (sessionData c) ≫= AuthKey.getKey) as [key|];
        [destruct (0 <? Z.of_nat (length key))|].
  - intros ->. simpl. split; [done|].
    unfold or_null_Z, truthy_Z.
    destruct (dcId (sessionData c)) as [dc|]; simpl.
    + destruct (dc =? 0) eqn:Hdc; simpl; [|by rewrite Hdc].
      by destruct (authKey (sessionData c) ≫= AuthKey.getKey) as [key|];
        [destruct (0 <? Z.of_nat (length key))|].
    + by destruct (authKey (sessionData c) ≫= AuthKey.getKey) as [key|];
        [destruct (0 <? Z.of_nat (length key))|].
Qed.

(** ** [importFromFile] *)

Lemma FileExportManager_importFromFile_run (w : world) (filePath text : string)
  (data : json) :
  files w !! filePath = Some text →
  JSON_parse text = Some data →
  FileExportManager.importFromFile JSON_parse filePath w =
    match data with
    | JNull => (Throw TypeError, w)
    | _ =>
        if typeof_number (prop (Some data) "dc_id") then (Return data, w)
        else (Throw (Error "Invalid session file: missing dc_id"), w)
    end.
Proof.
  intros Hfile Hparse.
  unfold FileExportManager.importFromFile, existsSync, readFileSync, bind, gets.
  rewrite Hfile, bool_decide_eq_true_2 by done. cbn [orb negb].
  rewrite Hfile, Hparse. unfold member, throw, ret.
  destruct data; try done; by destruct (typeof_number _).
Qed.

(** A document that is not [null] and has no numeric [dc_id] is rejected
    with the error of the validation, before the instance or the store is
    touched. *)
Lemma importFromFile_rejects_missing_dc_id
  (c : t) (w : world) (filePath text : string) (data : json) :
  files w !! filePath = Some text →
  JSON_parse text = Some data →
  data ≠ JNull →
  typeof_number (prop (Some data) "dc_id") = false →
  SqliteSession.importFromFile JSON_parse JSON_stringify filePath (c, w)
    = (Throw (Error "Invalid session file: missing dc_id"), (c, w)).
Proof.
  intros Hfile Hparse Hnull Hdc.
  unfold SqliteSession.importFromFile, io, zoom, bind. simpl.
  rewrite (FileExportManager_importFromFile_run _ _ _ _ Hfile Hparse), Hdc.
  by destruct data.
Qed.

(** C5, what the code does on the document [null].  The file parses, the
    document has no [dc_id] at all, and [importFromFile] throws the TypeError
    of reading [dc_id] from [null], not the error of the validation.  The
    instance and the world are as before the call. *)
Theorem C5_import_null_document_throws_TypeError
  (c : t) (w : world) (filePath text : string) :
  files w !! filePath = Some text →
  JSON_parse text = Some JNull →
  SqliteSession.importFromFile JSON_parse JSON_stringify filePath (c, w)
    = (Throw TypeError, (c, w)).
Proof.
  intros Hfile Hparse.
  unfold SqliteSession.importFromFile, io, zoom, bind. simpl.
  by rewrite (FileExportManager_importFromFile_run _ _ _ _ Hfile Hparse).
Qed.

(** ** The two copies of the class *)

(** C10.  The two copies of [SqliteSession] agree: the constructor, every
    method and every static member of one returns what the other returns and
    leaves the instance and the world as the other leaves them, from every
    state and for every argument. *)
Theorem C10_the_two_copies_agree :
  (∀ path name, SqliteSession.constructor path name = SqliteSession2.constructor path name) ∧
  (∀ s, SqliteSession.init s = SqliteSession2.init s) ∧
  (∀ s, SqliteSession._saveToDB JSON_stringify s
        = SqliteSession2._saveToDB JSON_stringify s) ∧
  (∀ s, SqliteSession.load JSON_parse JSON_stringify s
        = SqliteSession2.load JSON_parse JSON_stringify s) ∧
  (∀ s, SqliteSession.save JSON_stringify s = SqliteSession2.save JSON_stringify s) ∧
  (∀ dc address port s,
     SqliteSession.setDC JSON_stringify dc address port s
     = SqliteSession2.setDC JSON_stringify dc address port s) ∧
  (∀ c, SqliteSession.get_authKey c = SqliteSession2.get_authKey c) ∧
  (∀ key s, SqliteSession.set_authKey JSON_stringify key s
            = SqliteSession2.set_authKey JSON_stringify key s) ∧
  (∀ id entity s, SqliteSession.setEntity JSON_stringify id entity s
                  = SqliteSession2.setEntity JSON_stringify id entity s) ∧
  (∀ filePath s,
     SqliteSession.exportToFile JSON_stringify_pretty dirname toISOString filePath s
     = SqliteSession2.exportToFile JSON_stringify_pretty dirname toISOString filePath s) ∧
  (∀ filePath s,
     SqliteSession.importFromFile JSON_parse JSON_stringify filePath s
     = SqliteSession2.importFromFile JSON_parse JSON_stringify filePath s) ∧
  (∀ s, SqliteSession.delete s = SqliteSession2.delete s) ∧
  (∀ s, SqliteSession.close s = SqliteSession2.close s) ∧
  (∀ c, SqliteSession.getSessionInfo c = SqliteSession2.getSessionInfo c) ∧
  (∀ path w, SqliteSession.static_listSessions path w
             = SqliteSession2.static_listSessions path w) ∧
  (∀ path name w, SqliteSession.static_deleteSession path name w
                  = SqliteSession2.static_deleteSession path name w) ∧
  (∀ path name w, SqliteSession.static_sessionExists path name w
                  = SqliteSession2.static_sessionExists path name w) ∧
  (∀ path name w, SqliteSession.static_getSessionInfo path name w
                  = SqliteSession2.static_getSessionInfo path name w).
Proof. split_and!; reflexivity. Qed.
End session_props.

(* ================================================================== *)
(** * The claims at sample inputs *)
(* ================================================================== *)

Section samples.
Import JS World SessionState Props Samples.

(** C2 on a session with data center 2, a key of two bytes and one entity,
    saved to an empty disk, and on a new session that holds nothing: both
    come back as they were. *)
Lemma C2_save_then_fresh_load_round_trip_witness :
  let c := session_with 2 "149.154.167.40" 443 (Some two_bytes) one_entity in
  let c' := save_then_fresh_load JSONRef.JSON_parse JSONRef.JSON_stringify
              c empty_world 200%N in
  let c0' := save_then_fresh_load JSONRef.JSON_parse JSONRef.JSON_stringify
               new_session empty_world 200%N in
  (dcId (sessionData c') = Some 2 ∧
   serverAddress (sessionData c') = Some "149.154.167.40" ∧
   port (sessionData c') = Some 443 ∧
   entitiesMap c' ≡ₚ one_entity ∧
   (∀ id, JSMap.get (entitiesMap c') id = JSMap.get one_entity id) ∧
   key_bytes c' = Some two_bytes) ∧
  (dcId (sessionData c0') = None ∧
   serverAddress (sessionData c0') = None ∧
   port (sessionData c0') = None ∧
   entitiesMap c0' ≡ₚ [] ∧
   (∀ id, JSMap.get (entitiesMap c0') id = None) ∧
   key_bytes c0' = None).
Proof.
  intros c c' c0'. split.
  - apply (C2_save_then_fresh_load_round_trip
             JSONRef.JSON_parse JSONRef.JSON_stringify c empty_world 200%N).
    + split; vm_compute; reflexivity.
    + exact I.
    + apply NoDup_singleton.
    + repeat constructor; simpl; lia.
    + split; [discriminate|]. simpl. split; [lia|]. split; [eexists; reflexivity|].
      exists 443. split; [reflexivity | lia].
  - apply (C2_save_then_fresh_load_round_trip
             JSONRef.JSON_parse JSONRef.JSON_stringify new_session empty_world
             200%N).
    + split; vm_compute; reflexivity.
    + exact I.
    + apply NoDup_nil_2.
    + apply Forall_nil_2.
    + split; [discriminate|]. simpl. split; reflexivity.
Defined.

(** C2 as stated fails for a session whose [dcId] is 0: the fresh load
    leaves the data center unset. *)
Lemma C2_counterexample : ¬ C2_as_stated.
Proof.
  intros H.
  destruct (H JSONRef.JSON_parse JSONRef.JSON_stringify
              (session_with 0 "149.154.167.40" 443 (Some two_bytes) one_entity)
              empty_world 200%N) as [Hdc _].
  - split; vm_compute; reflexivity.
  - exact I.
  - apply NoDup_singleton.
  - repeat constructor; simpl; lia.
  - discriminate.
  - by eexists.
  - vm_compute in Hdc. discriminate.
Qed.

(** The other conditions of the amended C2 are needed as well: a port of 0
    comes back as 443, a key without bytes does not come back, an address
    that was never set comes back as the empty string. *)
Lemma round_trip_needs_port :
  port (sessionData
          (save_then_fresh_load JSONRef.JSON_parse JSONRef.JSON_stringify
             (session_with 2 "149.154.167.40" 0 (Some two_bytes) one_entity)
             empty_world 200%N))
  = Some 443.
Proof. vm_compute. reflexivity. Qed.

Lemma round_trip_needs_key_bytes :
  key_bytes (session_with 2 "149.154.167.40" 443 (Some []) one_entity) = Some [] ∧
  key_bytes (save_then_fresh_load JSONRef.JSON_parse JSONRef.JSON_stringify
               (session_with 2 "149.154.167.40" 443 (Some []) one_entity)
               empty_world 200%N)
  = None.
Proof. split; vm_compute; reflexivity. Qed.

Lemma round_trip_needs_address :
  let c := set_sessionData (set_serverAddress None)
             (session_with 2 "149.154.167.40" 443 (Some two_bytes) one_entity) in
  serverAddress (sessionData c) = None ∧
  serverAddress (sessionData
                   (save_then_fresh_load JSONRef.JSON_parse JSONRef.JSON_stringify
                      c empty_world 200%N))
  = Some EmptyString.
Proof. split; vm_compute; reflexivity. Qed.


(** C3 on a stored row with data center 2 and no address or port. *)
Lemma C3_load_takes_nonzero_dc_id_witness :
  let row := row_of None (Some 2) None None None in
  let c' := instance (SqliteSession.load JSONRef.JSON_parse JSONRef.JSON_stringify
                        (new_session, world_with row)) in
  dcId (sessionData c') = Some 2 ∧
  serverAddress (sessionData c') = Some EmptyString ∧
  port (sessionData c') = Some 443.
Proof.
  intros row c'.
  apply (C3_load_takes_nonzero_dc_id JSONRef.JSON_parse JSONRef.JSON_stringify
           new_session (world_with row) row eq_refl I eq_refl).
  - reflexivity.
  - lia.
Defined.

(** C3 as stated fails for a stored row whose [dc_id] is 0: the column is
    not null, and [load] does not take it. *)
Lemma C3_counterexample : ¬ C3_as_stated.
Proof.
  intros H.
  destruct (H JSONRef.JSON_parse JSONRef.JSON_stringify "sessions.db" "main"
              (world_with (row_of None (Some 0) (Some "149.154.167.40") (Some 80) None))
              (row_of None (Some 0) (Some "149.154.167.40") (Some 80) None)
              eq_refl) as [Hset _].
  destruct Hset as [Hdc _]; [discriminate|].
  vm_compute in Hdc. discriminate.
Qed.

(** C5 on a file that holds the text [null]. *)
Lemma C5_import_null_document_throws_TypeError_witness :
  SqliteSession.importFromFile JSONRef.JSON_parse JSONRef.JSON_stringify
    "backup.session" (new_session, world_with_file "null")
  = (Throw TypeError, (new_session, world_with_file "null")).
Proof.
  apply (C5_import_null_document_throws_TypeError
           JSONRef.JSON_parse JSONRef.JSON_stringify
           new_session (world_with_file "null") "backup.session" "null").
  - reflexivity.
  - vm_compute. reflexivity.
Defined.

(** C6 on the row of the specification: [entities] holds the text
    [{not json]. *)
Lemma C6_load_with_malformed_entities_witness :
  let row := row_of (Some two_bytes) (Some 2) (Some "149.154.167.40") (Some 443)
               (Some "{not json") in
  let r := SqliteSession.load JSONRef.JSON_parse JSONRef.JSON_stringify
             (new_session, world_with row) in
  result r = Return tt ∧
  isLoaded (instance r) = true ∧
  entitiesMap (instance r) = JSMap.empty ∧
  key_bytes (instance r) = Some two_bytes ∧
  dcId (sessionData (instance r)) = Some 2.
Proof.
  intros row r.
  destruct (C6_load_with_malformed_entities JSONRef.JSON_parse JSONRef.JSON_stringify
              new_session (world_with row) row "{not json" eq_refl I eq_refl eq_refl)
    as (Hres & Hloaded & Hents & Hkey & Hdc).
  { vm_compute. reflexivity. }
  split_and!; [exact Hres | exact Hloaded | exact Hents | |].
  - apply Hkey; [reflexivity | discriminate].
  - apply (Hdc 2); [reflexivity | lia].
Defined.

(** C7 on a session with data center 0, port 0, an empty address and no
    entities. *)
Lemma C7_falsy_values_stored_as_null_witness :
  let c := session_with 0 EmptyString 0 None [] in
  let w1 := world_of (SqliteSession.save JSONRef.JSON_stringify (c, empty_world)) in
  let c' := save_then_fresh_load JSONRef.JSON_parse JSONRef.JSON_stringify
              c empty_world 200%N in
  ∃ row,
    row_at w1 "sessions.db" "main" = Some row ∧
    World.entities row = None ∧ dc_id row = None ∧
    World.port row = None ∧ server_address row = None ∧
    dcId (sessionData c') = None.
Proof.
  intros c w1 c'.
  destruct (C7_falsy_values_stored_as_null JSONRef.JSON_parse JSONRef.JSON_stringify
              c empty_world 200%N I)
    as (row & Hrow & Hents & Hdc & Hport & Haddr).
  exists row. split; [exact Hrow|].
  destruct (Hdc eq_refl) as (? & ? & _).
  destruct (Hport eq_refl) as (? & _).
  destruct (Haddr eq_refl) as (? & _).
  split_and!; auto.
Defined.

(** C7 as stated fails for a session with data center 2 and an empty server
    address: the address is stored as NULL and the fresh load gives the
    empty string back. *)
Lemma C7_counterexample : ¬ C7_as_stated.
Proof.
  intros H.
  destruct (H JSONRef.JSON_parse JSONRef.JSON_stringify
              (session_with 2 EmptyString 443 None []) empty_world 200%N I)
    as (row & _ & _ & _ & _ & Haddr).
  destruct (Haddr eq_refl) as [_ Hne].
  apply Hne. vm_compute. reflexivity.
Qed.
End samples.

(* ================================================================== *)
(** * Further properties of the entity cache *)
(* ================================================================== *)

Section more_entity_cache.
Import JS.
Context {V : Type} (strict_eq : V → V → bool).

Lemma JSMap_get_set (m : JSMap.t V) (k k' : number) (v : V) :
  JSMap.get (JSMap.set m k v) k' = if decide (k = k') then Some v else JSMap.get m k'.
Proof.
  induction m as [|[k0 v0] m IH]; simpl.
  - destruct (decide (k = k')) as [->|Hne].
    + by rewrite bool_decide_eq_true_2.
    + by rewrite bool_decide_eq_false_2.
  - destruct (decide (k0 = k)) as [->|Hne0].
    + rewrite (bool_decide_eq_true_2 (k = k)) by done. simpl.
      destruct (decide (k = k')) as [->|Hne].
      * by rewrite bool_decide_eq_true_2.
      * by rewrite bool_decide_eq_false_2.
    + rewrite (bool_decide_eq_false_2 (k0 = k)) by done. simpl.
      rewrite IH. destruct (decide (k = k')) as [->|Hne]; [|done].
      by rewrite bool_decide_eq_false_2.
Qed.

Lemma JSMap_get_None (m : JSMap.t V) (k : number) :
  JSMap.get m k = None ↔ k ∉ JSMap.keys m.
Proof.
  unfold JSMap.keys. induction m as [|[k0 v0] m IH]; simpl.
  - split; [intros _; apply not_elem_of_nil | done].
  - rewrite not_elem_of_cons. case_bool_decide as Heq.
    + subst. split; [done | by intros [? _]].
    + rewrite IH. split; [by split | by intros [_ ?]].
Qed.

Lemma JSMap_get_delete (m : JSMap.t V) (k k' : number) :
  JSMap.wf m →
  JSMap.get (JSMap.delete m k) k' = if decide (k = k') then None else JSMap.get m k'.
Proof.
  unfold JSMap.wf, JSMap.keys. induction m as [|[k0 v0] m IH]; simpl; intros Hnd.
  - by destruct (decide (k = k')).
  - apply NoDup_cons in Hnd as [Hk0 Hnd].
    destruct (decide (k0 = k)) as [->|Hne0].
    + rewrite (bool_decide_eq_true_2 (k = k)) by done.
      destruct (decide (k = k')) as [<-|Hne].
      * by apply JSMap_get_None.
      * by rewrite bool_decide_eq_false_2.
    + rewrite (bool_decide_eq_false_2 (k0 = k)) by done. simpl.
      rewrite IH by done.
      destruct (decide (k = k')) as [<-|Hne]; [|done].
      by rewrite bool_decide_eq_false_2.
Qed.

(** X1.  [getEntityById] after [setEntity]: the id just set answers with the
    entity just given, and every other id answers as before; [hasEntity]
    says yes for the id just set. *)
Theorem X1_getEntityById_after_setEntity
  (this : ExtendedMemorySession.t V) (id id' : number) (entity : V) :
  let this' := ExtendedMemorySession.setEntity this id entity in
  ExtendedMemorySession.getEntityById this' id' =
    (if decide (id = id') then Some entity
     else ExtendedMemorySession.getEntityById this id') ∧
  ExtendedMemorySession.hasEntity this' id = true.
Proof.
  intros this'. unfold ExtendedMemorySession.getEntityById,
    ExtendedMemorySession.hasEntity, JSMap.has. simpl.
  rewrite !JSMap_get_set. split; [done|].
  rewrite decide_True by done. by apply bool_decide_eq_true_2.
Qed.

(** X2.  [deleteEntity] answers whether the id was there; afterwards the id
    is gone, every other id answers as before, and the map still holds one
    entry per id. *)
Theorem X2_deleteEntity_removes_the_id
  (this : ExtendedMemorySession.t V) (id id' : number) :
  JSMap.wf (ExtendedMemorySession.entitiesMap this) →
  let r := ExtendedMemorySession.deleteEntity this id in
  r.1 = ExtendedMemorySession.hasEntity this id ∧
  ExtendedMemorySession.getEntityById r.2 id = None ∧
  ExtendedMemorySession.hasEntity r.2 id = false ∧
  (id' ≠ id →
     ExtendedMemorySession.getEntityById r.2 id'
     = ExtendedMemorySession.getEntityById this id') ∧
  JSMap.wf (ExtendedMemorySession.entitiesMap r.2).
Proof.
  intros Hwf r. unfold ExtendedMemorySession.getEntityById,
    ExtendedMemorySession.hasEntity, JSMap.has,
    ExtendedMemorySession.entitiesMap in *. simpl.
  rewrite !JSMap_get_delete by done. rewrite decide_True by done.
  split; [done|]. split; [done|]. split.
  { apply bool_decide_eq_false_2. by intros [? ?]. }
  split.
  - intros Hne. by rewrite decide_False.
  - by apply JSMap_wf_delete.
Qed.

Lemma getEntityId_loop_Some (m : JSMap.t V) (x : V) (id : number) :
  ExtendedMemorySession.getEntityId_loop strict_eq m x = Some id →
  ∃ ent, (id, ent) ∈ m ∧ strict_eq ent x = true.
Proof.
  induction m as [|[k v] m IH]; simpl; [done|].
  destruct (strict_eq v x) eqn:Hv.
  - intros [= ->]. exists v. split; [left | done].
  - intros (ent & Hin & Heq)%IH. exists ent. split; [by right | done].
Qed.

Lemma getEntityId_loop_None (m : JSMap.t V) (x : V) :
  ExtendedMemorySession.getEntityId_loop strict_eq m x = None ↔
  ∀ id ent, (id, ent) ∈ m → strict_eq ent x = false.
Proof.
  split; [|apply getEntityId_loop_absent].
  induction m as [|[k v] m IH]; simpl.
  - intros _ id ent Hin. by apply not_elem_of_nil in Hin.
  - destruct (strict_eq v x) eqn:Hv; [done|].
    intros Hnone id ent [[= -> ->]|Hin]%elem_of_cons; [done|]. by eapply IH.
Qed.

(** X3.  [getEntityId] is a reverse lookup of [getEntityById]: the id it
    returns is one under which the session holds an entity [===] to the
    argument, and it returns [undefined] exactly when the session holds no
    such entity under any id. *)
Theorem X3_getEntityId_reverses_getEntityById
  (this : ExtendedMemorySession.t V) (entity : V) :
  JSMap.wf (ExtendedMemorySession.entitiesMap this) →
  (∀ id, ExtendedMemorySession.getEntityId strict_eq this entity = Some id →
     ∃ ent, ExtendedMemorySession.getEntityById this id = Some ent ∧
            strict_eq ent entity = true) ∧
  (ExtendedMemorySession.getEntityId strict_eq this entity = None ↔
   ∀ id ent, ExtendedMemorySession.getEntityById this id = Some ent →
             strict_eq ent entity = false).
Proof.
  intros Hwf. unfold ExtendedMemorySession.getEntityId,
    ExtendedMemorySession.getEntityById, JSMap.entries,
    ExtendedMemorySession.entitiesMap in *.
  split.
  - intros id (ent & Hin & Heq)%getEntityId_loop_Some.
    exists ent. split; [by apply JSMap_get_Some | done].
  - rewrite getEntityId_loop_None. split.
    + intros H id ent Hget%JSMap_get_Some; [by eapply H | done].
    + intros H id ent Hin. apply (H id). by apply JSMap_get_Some.
Qed.
End more_entity_cache.

(** X2 on a session that holds the ids 7 and 8. *)
Lemma X2_deleteEntity_removes_the_id_witness :
  let this := ExtendedMemorySession.setEntity
                (ExtendedMemorySession.setEntity ExtendedMemorySession.new
                   (JS.Int 7) (JS.JStr "a"))
                (JS.Int 8) (JS.JStr "b") in
  let r := ExtendedMemorySession.deleteEntity this (JS.Int 7) in
  r.1 = true ∧
  ExtendedMemorySession.getEntityById r.2 (JS.Int 7) = None ∧
  ExtendedMemorySession.getEntityById r.2 (JS.Int 8) = Some (JS.JStr "b").
Proof.
  intros this r.
  destruct (X2_deleteEntity_removes_the_id this (JS.Int 7) (JS.Int 8))
    as (Hhad & Hgone & _ & Hother & _).
  { apply (bool_decide_unpack _). vm_compute. exact I. }
  split_and!; [exact Hhad | exact Hgone |].
  apply Hother. discriminate.
Defined.

(** X3 on a session that holds two heap objects. *)
Lemma X3_getEntityId_reverses_getEntityById_witness :
  let this := ExtendedMemorySession.setEntity
                (ExtendedMemorySession.setEntity ExtendedMemorySession.new
                   (JS.Int 7) (Heap.Obj 1%positive))
                (JS.Int 8) (Heap.Obj 2%positive) in
  ∃ ent, ExtendedMemorySession.getEntityById this (JS.Int 8) = Some ent ∧
         Heap.strict_eq ent (Heap.Obj 2%positive) = true.
Proof.
  intros this.
  destruct (X3_getEntityId_reverses_getEntityById Heap.strict_eq this
              (Heap.Obj 2%positive)) as [Hsome _].
  { apply (bool_decide_unpack _). vm_compute. exact I. }
  apply Hsome. reflexivity.
Defined.

(* ================================================================== *)
(** * Further properties of the store *)
(* ================================================================== *)

Section more_store.
Import JS World DatabaseManager Props MoreProps.

Lemma rows_at_insert (w : world) (path : string) (d : database) :
  rows_at (set_dbs <[path := d]> w) path = default [] (telegram_sessions d) ∧
  seq_at (set_dbs <[path := d]> w) path = sqlite_sequence d.
Proof. unfold rows_at, seq_at. simpl. by rewrite lookup_insert_eq. Qed.

Lemma rows_at_insert_ne (w : world) (path p : string) (d : database) :
  p ≠ path →
  rows_at (set_dbs <[path := d]> w) p = rows_at w p.
Proof. intros Hp. unfold rows_at. simpl. by rewrite lookup_insert_ne. Qed.

Lemma same_but_insert (w : world) (path : string) (d : database) :
  same_but path w (set_dbs <[path := d]> w).
Proof.
  split_and!; try done. intros p Hp. simpl. by rewrite lookup_insert_ne.
Qed.

Lemma same_but_trans (path : string) (w1 w2 w3 : world) :
  same_but path w1 w2 → same_but path w2 w3 → same_but path w1 w3.
Proof.
  intros (H1 & H2 & H3 & H4) (H1' & H2' & H3' & H4'). split_and!; try congruence.
  intros p Hp. by rewrite H1', H1.
Qed.

Lemma rows_at_lookup (w : world) (path : string) rows seq :
  dbs w !! path = Some {| telegram_sessions := Some rows; sqlite_sequence := seq |} →
  rows_at w path = rows ∧ seq_at w path = seq.
Proof. intros Hd. unfold rows_at, seq_at. by rewrite Hd. Qed.

Lemma ensureTable_run (w : world) (db : string) (d : database) :
  dbs w !! db = Some d →
  ensureTable db w =
    (Return tt,
     match telegram_sessions d with
     | Some _ => w
     | None => set_dbs <[db := {| telegram_sessions := Some [];
                                  sqlite_sequence := sqlite_sequence d |}]> w
     end).
Proof.
  intros Hd. unfold ensureTable. rewrite (on_database_run _ _ _ _ Hd). simpl.
  destruct (telegram_sessions d); [|done].
  f_equal. destruct w; unfold set_dbs; simpl in *. f_equal. by apply insert_id.
Qed.

(** X5.  [ensureTable] on an open connection returns, leaves the table in
    place with the rows and the AUTOINCREMENT counter it found, touches no
    other file, and run again changes nothing. *)
Theorem X5_ensureTable_idempotent (w : world) (db : string) :
  is_Some (dbs w !! db) →
  ∃ w',
    ensureTable db w = (Return tt, w') ∧
    has_table w' db ∧
    rows_at w' db = rows_at w db ∧
    seq_at w' db = seq_at w db ∧
    same_but db w w' ∧
    ensureTable db w' = (Return tt, w').
Proof.
  intros [[tbl seq] Hd]. rewrite (ensureTable_run _ _ _ Hd). simpl.
  destruct tbl as [rows|].
  - exists w. split; [done|]. unfold has_table. rewrite Hd. simpl.
    split_and!;
      first [done | by eexists | by rewrite (ensureTable_run _ _ _ Hd)].
  - eexists. split; [done|].
    unfold has_table, rows_at, seq_at. simpl. rewrite lookup_insert_eq, Hd. simpl.
    split_and!; try done; try (by eexists); try apply same_but_insert.
    by rewrite (ensureTable_run _ db {| telegram_sessions := Some [];
                                        sqlite_sequence := seq |})
      by (simpl; apply lookup_insert_eq).
Qed.

(** X5 on a file that was just created and holds no table yet. *)
Lemma X5_ensureTable_idempotent_witness :
  let w : world :=
    {| dbs := {[ "sessions.db" := new_database ]};
       files := ∅; dirs := ∅; handles := 1; clock := 100%N |} in
  ∃ w',
    ensureTable "sessions.db" w = (Return tt, w') ∧
    has_table w' "sessions.db" ∧
    rows_at w' "sessions.db" = [] ∧
    ensureTable "sessions.db" w' = (Return tt, w').
Proof.
  intros w.
  destruct (X5_ensureTable_idempotent w "sessions.db")
    as (w' & Hrun & Ht & Hrows & _ & _ & Hagain).
  { by eexists. }
  exists w'. split_and!; [exact Hrun | exact Ht | exact Hrows | exact Hagain].
Defined.

(** ** The rows under the other names *)

Lemma find_filter_other (n n' : string) (rows : list Row) :
  n' ≠ n →
  List.find (λ r, bool_decide (name r = n'))
    (List.filter (λ r, negb (bool_decide (name r = n))) rows)
  = List.find (λ r, bool_decide (name r = n')) rows.
Proof.
  intros Hne. induction rows as [|r rows IH]; simpl; [done|].
  destruct (decide (name r = n)) as [Hn|Hn].
  - rewrite (bool_decide_eq_true_2 _ Hn). simpl.
    rewrite (bool_decide_eq_false_2 (name r = n')) by congruence. done.
  - rewrite (bool_decide_eq_false_2 _ Hn). simpl. by rewrite IH.
Qed.

Lemma find_app_singleton_other {A} (p : A → bool) (l : list A) (x : A) :
  p x = false → List.find p (l ++ [x]) = List.find p l.
Proof.
  intros Hx. induction l as [|y l IH]; simpl; [by rewrite Hx|].
  by destruct (p y).
Qed.

Lemma filter_out_absent (n : string) (rows : list Row) :
  List.find (λ r, bool_decide (name r = n)) rows = None →
  List.filter (λ r, negb (bool_decide (name r = n))) rows = rows.
Proof.
  induction rows as [|r rows IH]; simpl; [done|].
  case_bool_decide; [done|]. simpl. intros Hnone. by rewrite IH.
Qed.

Lemma names_filter_out (n : string) (rows : list Row) :
  NoDup (name <$> rows) →
  NoDup (name <$> List.filter (λ r, negb (bool_decide (name r = n))) rows) ∧
  n ∉ name <$> List.filter (λ r, negb (bool_decide (name r = n))) rows.
Proof.
  induction rows as [|r rows IH]; simpl.
  - intros _. split; [constructor | apply not_elem_of_nil].
  - intros [Hr Hnd]%NoDup_cons. destruct (IH Hnd) as [IH1 IH2].
    case_bool_decide as Hn; simpl; [done|].
    split.
    + apply NoDup_cons. split; [|done].
      intros (r' & Heq & Hin)%list_elem_of_fmap. apply Hr.
      apply list_elem_of_fmap. exists r'. split; [done|].
      apply list_elem_of_In. apply list_elem_of_In in Hin.
      by apply filter_In in Hin as [? _].
    + rewrite not_elem_of_cons. split; [congruence | done].
Qed.

Lemma length_filter_out (n : string) (rows : list Row) :
  NoDup (name <$> rows) →
  length rows =
    match List.find (λ r, bool_decide (name r = n)) rows with
    | Some _ => S (length (List.filter (λ r, negb (bool_decide (name r = n))) rows))
    | None => length (List.filter (λ r, negb (bool_decide (name r = n))) rows)
    end.
Proof.
  induction rows as [|r rows IH]; simpl; [done|].
  intros [Hr Hnd]%NoDup_cons. case_bool_decide as Hn; simpl.
  - f_equal. rewrite filter_out_absent; [done|].
    destruct (List.find _ rows) as [r'|] eqn:Hfind; [|done].
    apply find_some in Hfind as [Hin Hname]. apply bool_decide_eq_true_1 in Hname.
    destruct Hr. rewrite Hn, <-Hname. apply list_elem_of_fmap_2.
    by apply list_elem_of_In.
  - rewrite (IH Hnd). by destruct (List.find _ rows).
Qed.

Lemma foldr_max_above (seq : Z) (l : list Z) :
  seq ≤ foldr Z.max seq l ∧ ∀ x, x ∈ l → x ≤ foldr Z.max seq l.
Proof.
  induction l as [|y l [IH1 IH2]]; simpl.
  - split; [lia|]. intros x Hx. by apply not_elem_of_nil in Hx.
  - split; [lia|]. intros x [->|Hin]%elem_of_cons; [lia|].
    specialize (IH2 x Hin). lia.
Qed.

Lemma next_rowid_above (seq : Z) (rows : list Row) :
  seq < next_rowid seq rows ∧ ∀ r, r ∈ rows → id r < next_rowid seq rows.
Proof.
  unfold next_rowid. destruct (foldr_max_above seq (id <$> rows)) as [H1 H2].
  split; [lia|]. intros r Hr.
  specialize (H2 (id r) (list_elem_of_fmap_2 id _ _ Hr)). lia.
Qed.

(** X6.  [saveSessionData] is an upsert that keeps one row per name.  On a
    table with unique names that has a rowid left, after the call the names
    are still unique, the name answers with the row just written, which
    carries an id larger than every id of the table before and no larger
    than the largest rowid, every other name answers with the row it had, and
    the table has one row more exactly when the name was new.  No other file
    changes. *)
Theorem X6_saveSessionData_upsert
  (w : world) (db sessionName : string) (d : data) :
  has_table w db →
  unique_names w db →
  rowid_left w db →
  let w' := after (saveSessionData db sessionName d w) in
  unique_names w' db ∧
  (∃ rowid,
     row_at w' db sessionName = Some (saved_row rowid sessionName d (clock w)) ∧
     (∀ r, r ∈ rows_at w db → id r < rowid) ∧
     rowid ≤ max_rowid) ∧
  (∀ other, other ≠ sessionName → row_at w' db other = row_at w db other) ∧
  length (rows_at w' db) =
    match row_at w db sessionName with
    | Some _ => length (rows_at w db)
    | None => S (length (rows_at w db))
    end ∧
  same_but db w w'.
Proof.
  intros Ht Hu Hleft w'. destruct (has_table_lookup _ _ Ht) as (rows & seq & Hd).
  subst w'. unfold after. rewrite (saveSessionData_run _ _ _ _ _ _ Hd). simpl.
  unfold unique_names, row_at, rowid_left in *.
  destruct (rows_at_lookup _ _ _ _ Hd) as [Hrows Hseq]. rewrite Hrows, Hseq in *.
  destruct (rows_at_insert w db
              {| telegram_sessions :=
                   Some (List.filter (λ r, negb (bool_decide (name r = sessionName))) rows
                         ++ [saved_row (next_rowid seq rows) sessionName d (clock w)]);
                 sqlite_sequence := next_rowid seq rows |}) as [-> _].
  simpl. destruct (names_filter_out sessionName rows Hu) as [Hnd Hnin].
  split_and!.
  - rewrite fmap_app. apply NoDup_app. split_and!; [done| |apply NoDup_singleton].
    intros n Hin ->%list_elem_of_singleton. done.
  - exists (next_rowid seq rows).
    split; [|split; [apply next_rowid_above | exact Hleft]].
    rewrite find_app_None by apply find_filter_out. simpl.
    by rewrite bool_decide_eq_true_2.
  - intros other Hother.
    rewrite find_app_singleton_other; [by apply find_filter_other|].
    simpl. by apply bool_decide_eq_false_2.
  - rewrite length_app. simpl. rewrite (length_filter_out sessionName rows Hu).
    destruct (List.find _ rows); lia.
  - apply same_but_insert.
Qed.

(** X6 on a table that holds the session [main]: saving [main] again keeps
    one row, saving [second] adds one. *)
Lemma X6_saveSessionData_upsert_witness :
  let w := Samples.world_with (Samples.row_of None (Some 2) None None None) in
  let d := {| authKey := None; dcId := Some 4; serverAddress := None;
              port := None; entities := None |} in
  length (rows_at (after (saveSessionData "sessions.db" "main" d w)) "sessions.db")
    = 1%nat ∧
  length (rows_at (after (saveSessionData "sessions.db" "second" d w)) "sessions.db")
    = 2%nat.
Proof.
  intros w d.
  assert (Ht : has_table w "sessions.db") by (by eexists).
  assert (Hu : unique_names w "sessions.db").
  { apply (bool_decide_unpack _). vm_compute. exact I. }
  assert (Hleft : rowid_left w "sessions.db").
  { unfold rowid_left. apply Z.leb_le. vm_compute. reflexivity. }
  destruct (X6_saveSessionData_upsert w "sessions.db" "main" d Ht Hu Hleft)
    as (_ & _ & _ & Hlen1 & _).
  destruct (X6_saveSessionData_upsert w "sessions.db" "second" d Ht Hu Hleft)
    as (_ & _ & _ & Hlen2 & _).
  split; [exact Hlen1 | exact Hlen2].
Defined.
End more_store.

(* ================================================================== *)
(** * Further properties of the registry *)
(* ================================================================== *)

Section more_registry.
Import JS World DatabaseManager Props MoreProps.

Lemma deleteSessionData_run (db sessionName : string) (w : world) rows seq :
  dbs w !! db = Some {| telegram_sessions := Some rows; sqlite_sequence := seq |} →
  deleteSessionData db sessionName w =
    (Return tt,
     set_dbs <[db := {| telegram_sessions :=
                          Some (List.filter
                                  (λ r, negb (bool_decide (name r = sessionName))) rows);
                        sqlite_sequence := seq |}]> w).
Proof. intros Hd. unfold deleteSessionData. by rewrite (on_table_run _ _ _ _ _ Hd). Qed.

(** X7.  [deleteSessionData] on a store that holds the table returns; the
    name has no row afterwards, every other name answers with the row it
    had, and when the name had no row the world is left exactly as it
    was. *)
Theorem X7_deleteSessionData_removes_the_row
  (w : world) (db sessionName : string) :
  has_table w db →
  ∃ w',
    deleteSessionData db sessionName w = (Return tt, w') ∧
    row_at w' db sessionName = None ∧
    (∀ other, other ≠ sessionName → row_at w' db other = row_at w db other) ∧
    (row_at w db sessionName = None → w' = w) ∧
    same_but db w w'.
Proof.
  intros Ht. destruct (has_table_lookup _ _ Ht) as (rows & seq & Hd).
  rewrite (deleteSessionData_run _ _ _ _ _ Hd). eexists. split; [done|].
  unfold row_at. destruct (rows_at_lookup _ _ _ _ Hd) as [-> _].
  destruct (rows_at_insert w db
              {| telegram_sessions :=
                   Some (List.filter (λ r, negb (bool_decide (name r = sessionName))) rows);
                 sqlite_sequence := seq |}) as [-> _].
  simpl. split_and!.
  - apply find_filter_out.
  - intros other Hother. by apply find_filter_other.
  - intros Hnone. rewrite filter_out_absent by done. by apply set_dbs_same.
  - apply same_but_insert.
Qed.

(** X7 on the table that holds the session [main]. *)
Lemma X7_deleteSessionData_removes_the_row_witness :
  let w := Samples.world_with (Samples.row_of None (Some 2) None None None) in
  ∃ w',
    deleteSessionData "sessions.db" "main" w = (Return tt, w') ∧
    row_at w' "sessions.db" "main" = None.
Proof.
  intros w.
  destruct (X7_deleteSessionData_removes_the_row w "sessions.db" "main")
    as (w' & Hrun & Hgone & _).
  { by eexists. }
  by exists w'.
Defined.

(** Opening a file and making sure of the table: the file is there
    afterwards, with the table and the rows it had, and one more connection
    is open. *)
Lemma open_and_ensure (path : string) (w : world) :
  ∃ w0 w1,
    Database_new path w = (Return path, w0) ∧
    ensureTable path w0 = (Return tt, w1) ∧
    dbs w1 !! path = Some {| telegram_sessions := Some (rows_at w path);
                             sqlite_sequence := seq_at w path |} ∧
    same_but path w w1 ∧
    handles w1 = 1 + handles w.
Proof.
  rewrite Database_new_run. unfold rows_at, seq_at, same_but.
  destruct (dbs w !! path) as [[[rows|] seq]|] eqn:Hd.
  - eexists _, _. split; [done|].
    erewrite ensureTable_run; [|exact Hd]. simpl. split; [done|].
    simpl. rewrite Hd. split_and!; try done.
  - eexists _, _. split; [done|].
    erewrite ensureTable_run; [|exact Hd]. simpl. split; [done|].
    simpl. rewrite lookup_insert_eq. split_and!; try done.
    intros p Hp. by rewrite lookup_insert_ne.
  - eexists _, _. split; [done|].
    erewrite ensureTable_run; [|simpl; apply lookup_insert_eq]. simpl.
    split; [done|]. simpl. rewrite lookup_insert_eq. split_and!; try done.
    intros p Hp. by rewrite !lookup_insert_ne.
Qed.





(** ** [listSessions] and what is built on it *)

Lemma listSessions_full_run (path : string) (w : world) :
  ∃ w',
    listSessions path w =
      (Return (listed_of <$> merge_sort created_at_desc (rows_at w path)), w') ∧
    handles w' = handles w ∧
    dbs w' !! path = Some {| telegram_sessions := Some (rows_at w path);
                             sqlite_sequence := seq_at w path |} ∧
    same_but path w w'.
Proof.
  destruct (open_and_ensure path w) as (w0 & w1 & Hnew & Hens & Hd & Hsame & Hh).
  unfold listSessions, listSessions_on, class. simpl.
  unfold bind, try_finally, createDatabase. rewrite Hnew. unfold bind.
  rewrite Hens. unfold select_ordered. rewrite (on_table_run _ _ _ _ _ Hd). simpl.
  rewrite (set_dbs_same _ _ _ Hd).
  eexists. split; [done|]. simpl. split_and!; [lia | done | done].
Qed.



Lemma existsb_Permutation {A} (p : A → bool) (l l' : list A) :
  l ≡ₚ l' → existsb p l = existsb p l'.
Proof.
  induction 1 as [|x l l' _ IH|x y l|l1 l2 l3 _ IH1 _ IH2]; simpl.
  - done.
  - by rewrite IH.
  - by destruct (p x), (p y).
  - by rewrite IH1.
Qed.

Lemma existsb_find {A} (p : A → bool) (l : list A) :
  existsb p l = bool_decide (is_Some (List.find p l)).
Proof.
  induction l as [|x l IH]; simpl; [done|].
  by destruct (p x).
Qed.

Lemma existsb_fmap {A B} (f : A → B) (p : B → bool) (l : list A) :
  existsb p (f <$> l) = existsb (λ x, p (f x)) l.
Proof. induction l as [|x l IH]; [done|]. simpl. f_equal. exact IH. Qed.

(** What [SessionManager.sessionExists] answers. *)
Lemma sessionExists_run
  (w : world) (path sessionName : string) :
  ∃ w',
    SessionManager.sessionExists path sessionName w
      = (Return (bool_decide (is_Some (row_at w path sessionName))), w') ∧
    handles w' = handles w ∧
    rows_at w' path = rows_at w path ∧
    same_but path w w'.
Proof.
  destruct (listSessions_full_run path w) as (w' & Hrun & Hh & Hd & Hsame).
  exists w'. unfold SessionManager.sessionExists, bind. rewrite Hrun.
  unfold ret. split_and!; try done.
  - do 2 f_equal. rewrite existsb_fmap.
    rewrite (existsb_Permutation _ _ _ (merge_sort_Permutation _ _)).
    apply existsb_find.
  - by destruct (rows_at_lookup _ _ _ _ Hd).
Qed.









End more_registry.

(* ================================================================== *)
(** * Counting the entities *)
(* ================================================================== *)

Section entity_count.
Import JS.
Context {V : Type}.

Lemma JSMap_has_cons (m : JSMap.t V) (k k' : number) (v : V) :
  JSMap.has ((k', v) :: m) k = bool_decide (k' = k) || JSMap.has m k.
Proof.
  unfold JSMap.has. simpl. destruct (decide (k' = k)) as [Heq|Hne].
  - by rewrite !(bool_decide_eq_true_2 (k' = k)) by done.
  - by rewrite !(bool_decide_eq_false_2 (k' = k)) by done.
Qed.

Lemma JSMap_size_cons (m : JSMap.t V) (e : number * V) :
  JSMap.size (e :: m) = 1 + JSMap.size m.
Proof. unfold JSMap.size. simpl. lia. Qed.

Lemma JSMap_size_set (m : JSMap.t V) (k : number) (v : V) :
  JSMap.size (JSMap.set m k v)
    = JSMap.size m + (if JSMap.has m k then 0 else 1).
Proof.
  induction m as [|[k' v'] m IH]; [done|].
  simpl. rewrite JSMap_has_cons.
  case_bool_decide; simpl; rewrite !JSMap_size_cons; [lia|].
  rewrite IH. lia.
Qed.

Lemma JSMap_size_delete (m : JSMap.t V) (k : number) :
  JSMap.size (JSMap.delete m k)
    = JSMap.size m - (if JSMap.has m k then 1 else 0).
Proof.
  induction m as [|[k' v'] m IH]; [done|].
  simpl. rewrite JSMap_has_cons.
  case_bool_decide; simpl; rewrite !JSMap_size_cons; [lia|].
  rewrite IH. lia.
Qed.

(** X4.  The number of cached entities: [setEntity] adds one exactly when
    the id was not cached, and changes no count when it replaces;
    [deleteEntity] answers whether the id was cached and takes one away
    exactly then; after [clearEntities] none is left. *)
Theorem X4_entity_count
  (s : ExtendedMemorySession.t V) (id : number) (entity : V) :
  let count s := Z.of_nat (length (ExtendedMemorySession.getAllEntities s)) in
  let cached := ExtendedMemorySession.hasEntity s id in
  count (ExtendedMemorySession.setEntity s id entity)
    = count s + (if cached then 0 else 1) ∧
  (ExtendedMemorySession.deleteEntity s id).1 = cached ∧
  count (ExtendedMemorySession.deleteEntity s id).2
    = count s - (if cached then 1 else 0) ∧
  count (ExtendedMemorySession.clearEntities s) = 0.
Proof.
  intros count cached. subst count cached.
  unfold ExtendedMemorySession.getAllEntities, ExtendedMemorySession.hasEntity,
    JSMap.values. simpl. rewrite !length_fmap.
  pose proof (JSMap_size_set (ExtendedMemorySession._customEntities s) id entity).
  pose proof (JSMap_size_delete (ExtendedMemorySession._customEntities s) id).
  unfold JSMap.size in *. done.
Qed.
End entity_count.

(* ================================================================== *)
(** * Further properties of the session class *)
(* ================================================================== *)

Section more_session.
Import JS World SessionState Props MoreProps.
Variable JSON_parse : string → option json.
Variable JSON_stringify : json → string.
Variable JSON_stringify_pretty : json → string.
Variable dirname : string → string.
Variable toISOString : timestamp → string.

Ltac run_js :=
  unfold this, update, io, lift, zoom, bind, ret, throw, untyped, gets, modify,
    JS.get in *; simpl in *.

Lemma same_but_refl (path : string) (w : world) : same_but path w w.
Proof. by split_and!. Qed.

(** ** Connections *)

(** [init] with the count of open connections. *)
Lemma init_full_run (c : t) (w : world) :
  connected c w →
  ∃ w1,
    SqliteSession.init (c, w)
      = (Return (databasePath c), (set_db (Some (databasePath c)) c, w1)) ∧
    dbs w1 !! databasePath c
      = Some {| telegram_sessions := Some (rows_at w (databasePath c));
                sqlite_sequence := seq_at w (databasePath c) |} ∧
    same_but (databasePath c) w w1 ∧
    handles w1 = match db c with Some _ => 0 | None => 1 end + handles w.
Proof.
  unfold connected, SqliteSession.init. intros Hc.
  destruct (db c) as [d|] eqn:Hdb.
  - destruct Hc as [-> Ht]. destruct (has_table_lookup _ _ Ht) as (rows & seq & Hd).
    exists w. run_js. rewrite Hdb. rewrite (set_db_same _ _ Hdb).
    unfold rows_at, seq_at. rewrite Hd. by split_and!.
  - destruct (ensureTable_after_new (databasePath c) w)
      as (w1 & Hrun & Hd & Hframe & Hf & Hdr & Hcl & Hh).
    exists w1. run_js. rewrite Hdb. simpl.
    destruct (DatabaseManager.ensureTable _ _) as [[[]| |] w2]; simplify_eq/=.
    done.
Qed.

(** [save] with the count of open connections. *)
Lemma save_full_run (c : t) (w : world) :
  connected c w →
  let path := databasePath c in
  let rowid := DatabaseManager.next_rowid (seq_at w path) (rows_at w path) in
  ∃ w1,
    SqliteSession.save JSON_stringify (c, w)
      = (Return (sessionName c), (set_db (Some path) c, w1)) ∧
    dbs w1 !! path
      = Some {| telegram_sessions :=
                  Some (List.filter (λ r, negb (bool_decide (name r = sessionName c)))
                          (rows_at w path)
                        ++ [saved_row rowid (sessionName c)
                              (persisted JSON_stringify c) (clock w)]);
                sqlite_sequence := rowid |} ∧
    same_but path w w1 ∧
    handles w1 = match db c with Some _ => 0 | None => 1 end + handles w.
Proof.
  intros Hc path rowid.
  destruct (init_full_run c w Hc) as (w0 & Hinit & Hd & Hsame & Hh).
  unfold SqliteSession.save. run_js. rewrite Hinit. simpl.
  rewrite (saveSessionData_run _ _ _ _ _ _ Hd). simpl.
  eexists. split; [reflexivity|]. simpl. rewrite lookup_insert_eq.
  destruct Hsame as (Hframe & Hf & Hdr & Hcl). rewrite Hcl.
  split; [done|]. split; [|done].
  split_and!; try done.
  intros p Hp. simpl. rewrite lookup_insert_ne by done. by apply Hframe.
Qed.

(** [load] on an instance that is not loaded, with the count of open
    connections. *)
Lemma load_full_run (c : t) (w : world) :
  isLoaded c = false →
  connected c w →
  let path := databasePath c in
  ∃ w1,
    SqliteSession.load JSON_parse JSON_stringify (c, w)
      = (Return tt,
         (set_isLoaded true
            (absorb JSON_parse (row_at w path (sessionName c)) (set_db (Some path) c)),
          w1)) ∧
    dbs w1 !! path
      = Some {| telegram_sessions := Some (rows_at w path);
                sqlite_sequence := seq_at w path |} ∧
    same_but path w w1 ∧
    handles w1 = match db c with Some _ => 0 | None => 1 end + handles w.
Proof.
  intros Hl Hc path.
  destruct (init_full_run c w Hc) as (w0 & Hinit & Hd & Hsame & Hh).
  exists w0. split; [|done].
  unfold SqliteSession.load. run_js. rewrite Hl, Hinit. simpl.
  rewrite (loadSessionData_run _ _ _ _ _ Hd). simpl.
  unfold row_at, absorb. fold path.
  destruct (List.find _ (rows_at w path)) as [row|]; [|done].
  unfold absorb_auth_key, absorb_dc, absorb_entities, try_catch.
  destruct (auth_key row) as [key|]; [destruct (0 <? Z.of_nat (length key))|];
    (destruct (dc_id row) as [dc|]; [destruct (truthy_Z dc)|]);
    (destruct (World.entities row) as [text|]; [destruct (truthy_string text)|]);
    simpl; try done;
    (destruct (JSON_parse text) as [entities|]; [|done]);
    destruct entities; simpl;
    rewrite ?(for_of_setEntity_unloaded JSON_stringify); done.
Qed.

Lemma close_run (c : t) (w : world) :
  SqliteSession.close (c, w) =
    (Return tt,
     (set_db None c,
      match db c with
      | Some _ => set_handles (λ n, n - 1) w
      | None => w
      end)).
Proof.
  unfold SqliteSession.close, Database_close. run_js.
  destruct (db c) eqn:Hdb; [done|].
  destruct c; simpl in *; by subst.
Qed.

(** X13.  A session holds at most one connection.  The first [save] opens
    one when none is open; the [load] that follows runs on the same
    connection; [close] releases it and leaves the instance without one; a
    second [close] does nothing. *)
Theorem X13_one_connection_per_session (c : t) (w : world) :
  connected c w →
  let r1 := SqliteSession.save JSON_stringify (c, w) in
  let r2 := SqliteSession.load JSON_parse JSON_stringify r1.2 in
  let r3 := SqliteSession.close r2.2 in
  handles (world_of r1) = match db c with Some _ => 0 | None => 1 end + handles w ∧
  handles (world_of r2) = handles (world_of r1) ∧
  handles (world_of r3) = handles (world_of r1) - 1 ∧
  db (instance r3) = None ∧
  SqliteSession.close r3.2 = (Return tt, r3.2).
Proof.
  intros Hc r1 r2 r3.
  destruct (save_full_run c w Hc) as (w1 & Hsave & Hd1 & _ & Hh1).
  assert (Hc1 : connected (set_db (Some (databasePath c)) c) w1).
  { unfold connected, has_table. simpl. split; [done|]. rewrite Hd1. by eexists. }
  subst r1 r2 r3. unfold world_of, instance. rewrite Hsave. simpl.
  split; [done|].
  destruct (isLoaded c) eqn:Hl.
  - rewrite (load_loaded JSON_parse JSON_stringify) by done. simpl.
    rewrite ?close_run. simpl. by split_and!.
  - destruct (load_full_run (set_db (Some (databasePath c)) c) w1 Hl Hc1)
      as (w2 & Hload & _ & _ & Hh2).
    rewrite Hload. simpl in *.
    destruct (row_at w1 (databasePath c) (sessionName c)) as [row|]; simpl;
      rewrite ?close_run; simpl; split_and!; try done; lia.
Qed.

(** ** [load] *)


(** X15.  The first [load] of a session that has no row keeps every value
    the instance was given before, and stores nothing.  The first mutator
    after it stores the instance as it then is, the values given before the
    [load] included. *)
Theorem X15_load_without_a_row
  (c : t) (w : world) (id : number) (entity : json) :
  isLoaded c = false →
  connected c w →
  row_at w (databasePath c) (sessionName c) = None →
  let r := SqliteSession.load JSON_parse JSON_stringify (c, w) in
  let r' := SqliteSession.setEntity JSON_stringify id entity r.2 in
  sessionData (instance r) = sessionData c ∧
  entitiesMap (instance r) = entitiesMap c ∧
  row_at (world_of r) (databasePath c) (sessionName c) = None ∧
  ∃ rowid,
    row_at (world_of r') (databasePath c) (sessionName c)
      = Some (saved_row rowid (sessionName c)
                (persisted JSON_stringify
                   (set_super (λ s, ExtendedMemorySession.setEntity s id entity) c))
                (clock w)).
Proof.
  intros Hl Hc Hrow r r'. subst r r'.
  destruct (load_full_run c w Hl Hc) as (w1 & Hload & Hd & Hsame & _).
  unfold instance, world_of. rewrite Hload, Hrow. simpl.
  split; [done|]. split; [done|]. split.
  { erewrite row_at_lookup by exact Hd. exact Hrow. }
  set (c1 := set_isLoaded true (set_db (Some (databasePath c)) c)).
  assert (Hc1 : connected c1 w1).
  { unfold connected, has_table. simpl. split; [done|]. rewrite Hd. by eexists. }
  pose proof (mutators_persist JSON_stringify c1 w1 0 EmptyString 0 None id entity
                eq_refl Hc1) as (_ & _ & rowid & Hstored).
  exists rowid. unfold world_of, instance in Hstored. simpl in Hstored.
  rewrite Hstored. destruct Hsame as (_ & _ & _ & ->).
  pose proof (mutators_run JSON_stringify c1 w1 0 EmptyString 0 None id entity)
    as Hrun.
  simpl in Hrun. destruct Hrun as (_ & _ & ->).
  unfold bind.
  destruct (save_full_run
              (set_super (λ s, ExtendedMemorySession.setEntity s id entity) c1)
              w1 Hc1) as (w2 & -> & _).
  done.
Qed.

(** ** A loaded session writes through *)

(** X16.  What a loaded session is given is durable.  After [setDC] with a
    data center and a port that are not 0 and an address that is not empty,
    a new instance for the same file and name that runs [load], at any later
    time, holds the three values; after the [authKey] setter with a key of
    at least one byte it holds the bytes of the key. *)
Theorem X16_mutation_of_loaded_session_is_durable
  (c : t) (w : world) (dc p : Z) (address : string) (key : Buffer)
  (later : timestamp) :
  isLoaded c = true →
  connected c w →
  dc ≠ 0 → p ≠ 0 → address ≠ EmptyString → key ≠ [] →
  let fresh_load w1 :=
    instance (SqliteSession.load JSON_parse JSON_stringify
                (SqliteSession.constructor (databasePath c) (Some (sessionName c)),
                 set_clock later w1)) in
  let c1 := fresh_load
              (world_of (SqliteSession.setDC JSON_stringify dc address p (c, w))) in
  let c2 := fresh_load
              (world_of (SqliteSession.set_authKey JSON_stringify
                           (Some (AuthKey.setKey AuthKey.new key)) (c, w))) in
  dcId (sessionData c1) = Some dc ∧
  serverAddress (sessionData c1) = Some address ∧
  port (sessionData c1) = Some p ∧
  key_bytes c2 = Some key.
Proof.
  intros Hl Hc Hdc Hp Haddr Hkey fresh_load c1 c2.
  pose proof (mutators_run JSON_stringify c w dc address p
                (Some (AuthKey.setKey AuthKey.new key)) NaN JNull) as Hrun.
  simpl in Hrun. rewrite Hl in Hrun. destruct Hrun as (Hrun1 & Hrun2 & _).
  set (c_dc := set_sessionData
                 (λ d, set_port (Some p)
                         (set_serverAddress (Some address) (set_dcId (Some dc) d)))
                 c) in *.
  set (c_key := set_sessionData
                  (set_authKey (Some (AuthKey.setKey AuthKey.new key))) c) in *.
  assert (Hw : ∀ c0,
            world_of ((SqliteSession.save JSON_stringify ;; ret tt)%js (c0, w))
            = world_of (SqliteSession.save JSON_stringify (c0, w))).
  { intros c0. unfold bind, ret, world_of.
    by destruct (SqliteSession.save JSON_stringify (c0, w)) as [[?| |] ?]. }
  assert (H1 : c1 = save_then_fresh_load JSON_parse JSON_stringify c_dc w later).
  { subst c1 fresh_load. simpl. by rewrite Hrun1, Hw. }
  assert (H2 : c2 = save_then_fresh_load JSON_parse JSON_stringify c_key w later).
  { subst c2 fresh_load. simpl. by rewrite Hrun2, Hw. }
  destruct (save_then_fresh_load_run JSON_parse JSON_stringify c_dc w later Hc)
    as (rowid1 & _ & E1).
  destruct (save_then_fresh_load_run JSON_parse JSON_stringify c_key w later Hc)
    as (rowid2 & _ & E2).
  rewrite H1, H2, E1, E2. clear H1 H2 E1 E2 Hrun1 Hrun2.
  unfold key_bytes. simpl. unfold absorb_dc, absorb_auth_key. simpl.
  unfold truthy_Z.
  rewrite (proj2 (Z.eqb_neq dc 0)), (proj2 (Z.eqb_neq p 0)) by done. simpl.
  rewrite (proj2 (Z.eqb_neq dc 0)) by done. simpl.
  destruct address as [|a address]; [done|]. simpl.
  destruct key as [|b key]; [done|]. simpl.
  unfold or_Z, or_null_Z, truthy_Z. rewrite (proj2 (Z.eqb_neq p 0)) by done.
  split_and!; try done.
  destruct (dcId (sessionData c)) as [dc0|]; [|done].
  destruct (dc0 =? 0) eqn:Hdc0; simpl; [done|]. by rewrite Hdc0.
Qed.

(** ** Sessions that share a file *)

(** X17.  [save] leaves the other sessions of the file alone: every other
    name answers with the row it had, a new instance for another name loads
    what it would have loaded before, the names stay unique, and no other
    file changes. *)
Theorem X17_save_leaves_other_sessions
  (c : t) (w : world) (other : string) (later : timestamp) :
  connected c w →
  other ≠ sessionName c →
  let path := databasePath c in
  let w1 := world_of (SqliteSession.save JSON_stringify (c, w)) in
  let fresh_load w0 :=
    instance (SqliteSession.load JSON_parse JSON_stringify
                (SqliteSession.constructor path (Some other), set_clock later w0)) in
  row_at w1 path other = row_at w path other ∧
  fresh_load w1 = fresh_load w ∧
  (unique_names w path → unique_names w1 path) ∧
  same_but path w w1.
Proof.
  intros Hc Hother path w1 fresh_load.
  destruct (save_full_run c w Hc) as (w1' & Hsave & Hd & Hsame & _).
  assert (Hw1 : w1 = w1') by (subst w1; unfold world_of; by rewrite Hsave).
  rewrite Hw1. clear Hw1 w1.
  assert (Hrow : row_at w1' path other = row_at w path other).
  { erewrite row_at_lookup by exact Hd.
    rewrite find_app_singleton_other; [by apply find_filter_other|].
    simpl. by apply bool_decide_eq_false_2. }
  split; [done|]. split; [|split; [|done]].
  - subst fresh_load. simpl.
    destruct (load_full_run (SqliteSession.constructor path (Some other))
                (set_clock later w1') eq_refl I) as (wa & -> & _).
    destruct (load_full_run (SqliteSession.constructor path (Some other))
                (set_clock later w) eq_refl I) as (wb & -> & _).
    unfold instance. simpl.
    change (row_at (set_clock later w1') path other) with (row_at w1' path other).
    change (row_at (set_clock later w) path other) with (row_at w path other).
    by rewrite Hrow.
  - unfold unique_names. subst path. intros Hu.
    destruct (rows_at_lookup _ _ _ _ Hd) as [-> _].
    destruct (names_filter_out (sessionName c) _ Hu) as [Hnd Hnin].
    rewrite fmap_app. apply NoDup_app. split_and!; [done| |apply NoDup_singleton].
    intros n Hin ->%list_elem_of_singleton. done.
Qed.

(** ** The session and the registry *)

(** X18.  After [save] the registry knows the session:
    [SessionManager.sessionExists] answers true for its file and name. *)
Theorem X18_saved_session_exists (c : t) (w : world) :
  connected c w →
  let w1 := world_of (SqliteSession.save JSON_stringify (c, w)) in
  (SessionManager.sessionExists (databasePath c) (sessionName c) w1).1
    = Return true.
Proof.
  intros Hc w1.
  destruct (row_at_save JSON_stringify c w Hc) as (rowid & Hrow).
  destruct (sessionExists_run w1 (databasePath c) (sessionName c))
    as (w' & -> & _).
  subst w1. by rewrite Hrow.
Qed.


(** ** [importFromFile] *)

Lemma row_at_save_other (c : t) (w : world) (other : string) :
  connected c w →
  other ≠ sessionName c →
  row_at (world_of (SqliteSession.save JSON_stringify (c, w))) (databasePath c) other
    = row_at w (databasePath c) other.
Proof.
  intros Hc Hother.
  destruct (save_full_run c w Hc) as (w1 & Hsave & Hd & _).
  unfold world_of. rewrite Hsave. simpl.
  erewrite row_at_lookup by exact Hd.
  rewrite find_app_singleton_other; [by apply find_filter_other|].
  simpl. by apply bool_decide_eq_false_2.
Qed.

(** The loop of [setEntity] calls, loaded or not: it returns, with the
    entries put into the cache in their order; what it stores, it stores
    under the name of the session. *)
Lemma for_of_setEntity_run (es : list (string * json)) (c : t) (w : world) :
  connected c w →
  ∃ c' w',
    for_of es (λ '(key, value),
      SqliteSession.setEntity JSON_stringify (parseInt key) value) (c, w)
      = (Return tt, (c', w')) ∧
    connected c' w' ∧
    super c' = set_entities es (super c) ∧
    sessionData c' = sessionData c ∧
    isLoaded c' = isLoaded c ∧
    databasePath c' = databasePath c ∧
    sessionName c' = sessionName c ∧
    (∀ other, other ≠ sessionName c →
       row_at w' (databasePath c) other = row_at w (databasePath c) other) ∧
    same_but (databasePath c) w w'.
Proof.
  revert c w. induction es as [|[key value] es IH]; intros c w Hc; simpl.
  - exists c, w. split_and!; try done.
  - unfold bind.
    pose proof (mutators_run JSON_stringify c w 0 EmptyString 0 None
                  (parseInt key) value) as Hrun.
    simpl in Hrun.
    set (c1 := set_super
                 (λ s, ExtendedMemorySession.setEntity s (parseInt key) value) c)
      in *.
    assert (Hc1 : connected c1 w) by exact Hc.
    destruct (isLoaded c) eqn:Hl; destruct Hrun as (_ & _ & ->).
    + pose proof (row_at_save_other c1 w) as Hothers.
      destruct (save_full_run c1 w Hc1) as (w1 & Hsave & Hd & Hsame & _).
      unfold bind. rewrite Hsave. simpl.
      unfold world_of in Hothers. rewrite Hsave in Hothers. simpl in Hothers.
      assert (Hc2 : connected (set_db (Some (databasePath c)) c1) w1).
      { unfold connected, has_table. simpl. split; [done|].
        change (databasePath c1) with (databasePath c) in Hd.
        rewrite Hd. by eexists. }
      destruct (IH _ _ Hc2)
        as (c' & w' & -> & Hc' & Hs & Hd' & Hl' & Hp' & Hn' & Ho' & Hsame').
      exists c', w'. simpl in *. split_and!; try done; try congruence.
      * intros other Hother. rewrite Ho' by done. by apply Hothers.
      * by eapply same_but_trans.
    + destruct (IH _ _ Hc1)
        as (c' & w' & -> & Hc' & Hs & Hd' & Hl' & Hp' & Hn' & Ho' & Hsame').
      exists c', w'. simpl in *. split_and!; try done; congruence.
Qed.

(** [importFromFile] up to the loop over the entities: a document with a
    numeric [dc_id] and the declared types is taken field by field, and the
    entities are cleared, before [entities] is looked at. *)
Lemma importFromFile_fields
  (c : t) (w : world) (filePath text : string) (data : json)
  (dc : Z) (address : option string) (p : option Z) :
  files w !! filePath = Some text →
  JSON_parse text = Some data →
  prop (Some data) "dc_id" = Some (JNum dc) →
  auth_key_typed data →
  read_string (prop (Some data) "server_address") = Return address →
  read_number (prop (Some data) "port") = Return p →
  SqliteSession.importFromFile JSON_parse JSON_stringify filePath (c, w)
  = (let* es := lift (Object_entries (prop (Some data) "entities")) in
     for_of es (λ '(key, value),
       SqliteSession.setEntity JSON_stringify (parseInt key) value) ;;
     SqliteSession.save JSON_stringify ;;
     ret tt)%js (import_fields data dc address p c, w).
Proof.
  intros Hfile Hparse Hdc Hkey Haddr Hp.
  destruct data as [| | | | |props]; try done.
  unfold SqliteSession.importFromFile, io, zoom, bind. simpl.
  rewrite (FileExportManager_importFromFile_run JSON_parse _ _ _ _ Hfile Hparse).
  unfold lift, import_fields, imported_key, auth_key_typed in *. simpl in *.
  rewrite Hdc. simpl.
  destruct (get_prop props "auth_key") as [[| | |hex| |]|]; try done; simpl;
    try (destruct (truthy_string hex); simpl);
    rewrite Hdc, Haddr, Hp; simpl; done.
Qed.

(** [importFromFile] on a document it accepts: the instance and the store
    after it. *)
Lemma importFromFile_run
  (c : t) (w : world) (filePath text : string) (data : json)
  (dc : Z) (address : option string) (p : option Z) (es : list (string * json)) :
  files w !! filePath = Some text →
  JSON_parse text = Some data →
  prop (Some data) "dc_id" = Some (JNum dc) →
  auth_key_typed data →
  read_string (prop (Some data) "server_address") = Return address →
  read_number (prop (Some data) "port") = Return p →
  Object_entries (prop (Some data) "entities") = Return es →
  connected c w →
  ∃ c' w' rowid,
    SqliteSession.importFromFile JSON_parse JSON_stringify filePath (c, w)
      = (Return tt, (c', w')) ∧
    sessionData c' = sessionData (import_fields data dc address p c) ∧
    super c' = set_entities es ExtendedMemorySession.new ∧
    isLoaded c' = isLoaded c ∧
    databasePath c' = databasePath c ∧
    sessionName c' = sessionName c ∧
    row_at w' (databasePath c) (sessionName c)
      = Some (saved_row rowid (sessionName c) (persisted JSON_stringify c')
                (clock w)) ∧
    (∀ other, other ≠ sessionName c →
       row_at w' (databasePath c) other = row_at w (databasePath c) other) ∧
    same_but (databasePath c) w w'.
Proof.
  intros Hfile Hparse Hdc Hkey Haddr Hp Hes Hc.
  rewrite (importFromFile_fields _ _ _ _ _ _ _ _ Hfile Hparse Hdc Hkey Haddr Hp).
  unfold bind at 1. unfold lift. rewrite Hes.
  assert (Hc0 : connected (import_fields data dc address p c) w) by exact Hc.
  destruct (for_of_setEntity_run es _ w Hc0)
    as (c1 & w1 & Hloop & Hc1 & Hs & Hd & Hl & Hpath & Hname & Hothers & Hsame).
  unfold bind. rewrite Hloop.
  pose proof (row_at_save_other c1 w1) as Hothers1.
  destruct (row_at_save JSON_stringify c1 w1 Hc1) as (rowid & Hrow).
  destruct (save_full_run c1 w1 Hc1) as (w2 & Hsave & _ & Hsame2 & _).
  unfold world_of in Hrow, Hothers1. rewrite Hsave in *. simpl in *.
  rewrite Hpath, Hname in *.
  exists (set_db (Some (databasePath c)) c1), w2, rowid. unfold ret.
  split; [done|]. simpl.
  assert (Hclock : clock w1 = clock w) by (by destruct Hsame as (_ & _ & _ & ?)).
  rewrite Hclock in Hrow.
  split_and!; try done.
  - intros other Hother. rewrite Hothers1 by done. by apply Hothers.
  - by eapply same_but_trans.
Qed.

(** X20.  [importFromFile] on a path that names nothing, neither a plain
    file nor a directory nor a SQLite file, throws the error that names the
    path, and leaves the instance and the world as they were. *)
Theorem X20_import_of_a_missing_file
  (c : t) (w : world) (filePath : string) :
  files w !! filePath = None →
  filePath ∉ dirs w →
  dbs w !! filePath = None →
  SqliteSession.importFromFile JSON_parse JSON_stringify filePath (c, w)
    = (Throw (Error ("Session file not found: " +:+ filePath)), (c, w)).
Proof.
  intros Hfile Hdir Hstore.
  unfold SqliteSession.importFromFile, io, zoom, bind. simpl.
  unfold FileExportManager.importFromFile, existsSync, bind, gets.
  rewrite Hfile, Hstore.
  rewrite (bool_decide_eq_false_2 (filePath ∈ dirs w)) by done.
  rewrite !bool_decide_eq_false_2 by (by intros [? ?]).
  done.
Qed.

(** X21.  [importFromFile] on a file whose text is not JSON throws the
    SyntaxError of [JSON.parse], and leaves the instance and the world as
    they were. *)
Theorem X21_import_of_a_malformed_file
  (c : t) (w : world) (filePath text : string) :
  files w !! filePath = Some text →
  JSON_parse text = None →
  SqliteSession.importFromFile JSON_parse JSON_stringify filePath (c, w)
    = (Throw SyntaxError, (c, w)).
Proof.
  intros Hfile Hparse.
  unfold SqliteSession.importFromFile, io, zoom, bind. simpl.
  unfold FileExportManager.importFromFile, existsSync, readFileSync, bind, gets.
  rewrite Hfile, bool_decide_eq_true_2 by done. cbn [orb negb].
  rewrite Hfile, Hparse. done.
Qed.

(** X22.  [importFromFile] is not atomic.  A document with a numeric
    [dc_id] passes the check of the file; when it has no [entities], or
    null, the call throws a TypeError at the loop over the entities.  By
    then the instance has taken the data center and the key of the document
    and has lost its entities, while the store has not been written: the
    world is the one before the call. *)
Theorem X22_failed_import_leaves_instance_half_updated
  (c : t) (w : world) (filePath text : string) (data : json)
  (dc : Z) (address : option string) (p : option Z) :
  files w !! filePath = Some text →
  JSON_parse text = Some data →
  prop (Some data) "dc_id" = Some (JNum dc) →
  auth_key_typed data →
  read_string (prop (Some data) "server_address") = Return address →
  read_number (prop (Some data) "port") = Return p →
  prop (Some data) "entities" = None ∨ prop (Some data) "entities" = Some JNull →
  let r := SqliteSession.importFromFile JSON_parse JSON_stringify filePath (c, w) in
  result r = Throw TypeError ∧
  world_of r = w ∧
  dcId (sessionData (instance r)) = Some dc ∧
  serverAddress (sessionData (instance r)) = address ∧
  port (sessionData (instance r)) = p ∧
  authKey (sessionData (instance r)) = imported_key data (authKey (sessionData c)) ∧
  entitiesMap (instance r) = [] ∧
  isLoaded (instance r) = isLoaded c.
Proof.
  intros Hfile Hparse Hdc Hkey Haddr Hp Hes r. subst r.
  rewrite (importFromFile_fields _ _ _ _ _ _ _ _ Hfile Hparse Hdc Hkey Haddr Hp).
  unfold bind at 1. unfold lift.
  by destruct Hes as [-> | ->].
Qed.

(** X23.  [importFromFile] on a document with a numeric [dc_id], the fields
    of their declared types and an [entities] that has entries: it returns,
    loaded or not.  The instance holds the data center of the document, the
    key of the document when it has one, and the entities of the document
    in place of the ones it had.  The row of the session is the instance as
    it then is; the other sessions keep their rows and no other file
    changes. *)
Theorem X23_import_replaces_and_stores
  (c : t) (w : world) (filePath text : string) (data : json)
  (dc : Z) (address : option string) (p : option Z) (es : list (string * json)) :
  files w !! filePath = Some text →
  JSON_parse text = Some data →
  prop (Some data) "dc_id" = Some (JNum dc) →
  auth_key_typed data →
  read_string (prop (Some data) "server_address") = Return address →
  read_number (prop (Some data) "port") = Return p →
  Object_entries (prop (Some data) "entities") = Return es →
  connected c w →
  ∃ c' w' rowid,
    SqliteSession.importFromFile JSON_parse JSON_stringify filePath (c, w)
      = (Return tt, (c', w')) ∧
    dcId (sessionData c') = Some dc ∧
    serverAddress (sessionData c') = address ∧
    port (sessionData c') = p ∧
    authKey (sessionData c') = imported_key data (authKey (sessionData c)) ∧
    super c' = set_entities es ExtendedMemorySession.new ∧
    isLoaded c' = isLoaded c ∧
    row_at w' (databasePath c) (sessionName c)
      = Some (saved_row rowid (sessionName c) (persisted JSON_stringify c')
                (clock w)) ∧
    (∀ other, other ≠ sessionName c →
       row_at w' (databasePath c) other = row_at w (databasePath c) other) ∧
    same_but (databasePath c) w w'.
Proof.
  intros Hfile Hparse Hdc Hkey Haddr Hp Hes Hc.
  destruct (importFromFile_run c w filePath text data dc address p es)
    as (c' & w' & rowid & Hrun & Hd & Hs & Hl & _ & _ & Hrow & Hothers & Hsame);
    try done.
  exists c', w', rowid. rewrite Hd. by split_and!.
Qed.

(** X24.  What [validateSessionData] accepts and [importFromFile] does.  A
    document that [validateSessionData] accepts is imported without an
    error, unless its [entities] is null: null is an object to [typeof], so
    the document is accepted, and the import throws a TypeError. *)
Theorem X24_validated_document_imports_unless_entities_null
  (c : t) (w : world) (filePath text : string) (data : json) :
  files w !! filePath = Some text →
  JSON_parse text = Some data →
  FileExportManager.validateSessionData (Some data) = Return true →
  connected c w →
  result (SqliteSession.importFromFile JSON_parse JSON_stringify filePath (c, w))
    = if FileExportManager.is_null (prop (Some data) "entities")
      then Throw TypeError
      else Return tt.
Proof.
  intros Hfile Hparse Hvalid Hc.
  destruct data as [| | | | |props]; simpl in Hvalid; try done.
  injection Hvalid as Hvalid.
  repeat (apply andb_prop in Hvalid as [Hvalid ?]).
  simpl.
  destruct (get_prop props "dc_id") as [[| |dc| | |]|] eqn:Hdc; try done.
  destruct (get_prop props "server_address") as [[| | |address| |]|] eqn:Haddr;
    try done.
  destruct (get_prop props "port") as [[| |p| | |]|] eqn:Hp; try done.
  assert (Hkey : auth_key_typed (JObj props)).
  { unfold auth_key_typed. simpl.
    by destruct (get_prop props "auth_key") as [[| | | | |]|]. }
  assert (Haddr' : read_string (prop (Some (JObj props)) "server_address")
                   = Return (Some address)) by (simpl; by rewrite Haddr).
  assert (Hp' : read_number (prop (Some (JObj props)) "port") = Return (Some p))
    by (simpl; by rewrite Hp).
  destruct (get_prop props "entities") as [[| | | |items|members]|] eqn:Hes;
    try done; simpl.
  - rewrite (importFromFile_fields c w filePath text (JObj props) dc
               (Some address) (Some p) Hfile Hparse Hdc Hkey Haddr' Hp').
    unfold bind at 1. unfold lift. simpl. by rewrite Hes.
  - destruct (importFromFile_run c w filePath text (JObj props) dc
                (Some address) (Some p) (indexed items))
      as (c' & w' & rowid & -> & _); try done.
    simpl. by rewrite Hes.
  - destruct (importFromFile_run c w filePath text (JObj props) dc
                (Some address) (Some p) members)
      as (c' & w' & rowid & -> & _); try done.
    simpl. by rewrite Hes.
Qed.

(** ** [exportToFile], and the way back *)

(** The hex text of a buffer reads back as the buffer. *)
Lemma Buffer_from_hex_toString_hex (b : Buffer) :
  Buffer_from_hex (Buffer_toString_hex b) = b.
Proof.
  induction b as [|x b IH]; [done|].
  cbn [Buffer_toString_hex].
  transitivity (x :: Buffer_from_hex (Buffer_toString_hex b)); [|by rewrite IH].
  generalize (Buffer_toString_hex b). intros s. by destruct x.
Qed.

Lemma exportToFile_run (c : t) (w : world) (filePath : string) :
  filePath ∉ dirs w →
  dirname filePath ≠ filePath →
  SqliteSession.exportToFile JSON_stringify_pretty dirname toISOString filePath (c, w)
  = (Return filePath,
     (c,
      set_files
        <[filePath := JSON_stringify_pretty
                        (exported_document toISOString c (clock w))]>
        (if bool_decide (is_Some (files w !! dirname filePath))
            || bool_decide (dirname filePath ∈ dirs w)
            || bool_decide (is_Some (dbs w !! dirname filePath))
         then w
         else set_dirs (λ ds, {[dirname filePath]} ∪ ds) w))).
Proof.
  intros Hdir Hne.
  assert (Hdoc :
    JObj [ ("dc_id", JNum (or_Z (dcId (sessionData c)) 0));
           ("server_address",
            JStr (or_string (serverAddress (sessionData c)) EmptyString));
           ("port", JNum (or_Z (port (sessionData c)) 443));
           ("auth_key",
            match authKey (sessionData c) with
            | Some key =>
                match AuthKey.getKey key with
                | Some keyBuffer => JStr (Buffer_toString_hex keyBuffer)
                | None => JNull
                end
            | None => JNull
            end);
           ("entities", JObj (JSMap.Object_fromEntries (entitiesMap c)));
           ("exported_at", JStr (toISOString (clock w))) ]
    = exported_document toISOString c (clock w)).
  { unfold exported_document, key_bytes.
    by destruct (authKey (sessionData c)) as [key|]. }
  unfold SqliteSession.exportToFile, io, zoom, bind, this, gets. simpl.
  rewrite Hdoc. clear Hdoc.
  unfold FileExportManager.exportToFile, existsSync, mkdirSync_recursive,
    writeFileSync, bind, gets, ret.
  destruct (bool_decide (is_Some (files w !! dirname filePath))) eqn:Hf; simpl.
  - rewrite (bool_decide_eq_false_2 (filePath ∈ dirs w)) by done. by destruct c.
  - destruct (bool_decide (dirname filePath ∈ dirs w)) eqn:Hd; simpl.
    + rewrite (bool_decide_eq_false_2 (filePath ∈ dirs w)) by done.
      by destruct c.
    + destruct (bool_decide (is_Some (dbs w !! dirname filePath))) eqn:Hs; simpl.
      * rewrite (bool_decide_eq_false_2 (filePath ∈ dirs w)) by done.
        by destruct c.
      * rewrite Hf.
        rewrite (bool_decide_eq_false_2
                   (filePath ∈ dirs (set_dirs (λ ds, {[dirname filePath]} ∪ ds) w)));
          [by destruct c|].
        simpl. intros [Hin%elem_of_singleton|Hin]%elem_of_union; done.
Qed.

(** X25.  The method [exportToFile], for a path that names neither a
    directory nor a SQLite file and that lies in a directory: it returns the
    path, with the document of the instance in the file.  It works on any
    instance, loaded or not, with or without a connection, and changes
    neither the instance nor a store nor a directory nor another file. *)
Theorem X25_export_writes_one_file (c : t) (w : world) (filePath : string) :
  is_directory w (dirname filePath) →
  filePath ∉ dirs w →
  dbs w !! filePath = None →
  ∃ w',
    SqliteSession.exportToFile JSON_stringify_pretty dirname toISOString
      filePath (c, w) = (Return filePath, (c, w')) ∧
    files w' !! filePath
      = Some (JSON_stringify_pretty (exported_document toISOString c (clock w))) ∧
    (∀ other, other ≠ filePath → files w' !! other = files w !! other) ∧
    dirs w' = dirs w ∧
    dbs w' = dbs w ∧ handles w' = handles w ∧ clock w' = clock w.
Proof.
  intros (Hparent & _ & _) Hdir _.
  assert (Hne : dirname filePath ≠ filePath) by (by intros Heq; rewrite Heq in *).
  rewrite (exportToFile_run c w filePath Hdir Hne).
  rewrite (bool_decide_eq_true_2 (dirname filePath ∈ dirs w)) by done.
  rewrite orb_true_r. simpl.
  eexists. split; [done|]. simpl. rewrite lookup_insert_eq.
  split; [done|]. split; [|done].
  intros other Hother. by rewrite lookup_insert_ne.
Qed.

(** X26.  Export, then import.  An instance is exported to a file; then any
    instance, of any session, imports the file.  The importing instance
    holds the data center of the exporting one as [exportToFile] writes it
    (0, the empty address and 443 in place of what is unset), the same
    entities under the same ids, and the bytes of the key when the exporting
    instance had a key of at least one byte; without one it keeps its own
    key.  The ids are integers a double holds exactly (or [NaN]) and the
    runtime's JSON functions are assumed to take the document to a text and
    back. *)
Theorem X26_export_then_import
  (c c2 : t) (w : world) (filePath : string) :
  filePath ∉ dirs w →
  dirname filePath ≠ filePath →
  JSON_parse (JSON_stringify_pretty (exported_document toISOString c (clock w)))
    = Some (exported_document toISOString c (clock w)) →
  JSMap.wf (entitiesMap c) →
  Forall safe_key (JSMap.keys (entitiesMap c)) →
  connected c2 w →
  let w1 := world_of (SqliteSession.exportToFile JSON_stringify_pretty dirname
                        toISOString filePath (c, w)) in
  let r := SqliteSession.importFromFile JSON_parse JSON_stringify filePath (c2, w1) in
  result r = Return tt ∧
  dcId (sessionData (instance r)) = Some (or_Z (dcId (sessionData c)) 0) ∧
  serverAddress (sessionData (instance r))
    = Some (or_string (serverAddress (sessionData c)) EmptyString) ∧
  port (sessionData (instance r)) = Some (or_Z (port (sessionData c)) 443) ∧
  entitiesMap (instance r) ≡ₚ entitiesMap c ∧
  (∀ id, JSMap.get (entitiesMap (instance r)) id = JSMap.get (entitiesMap c) id) ∧
  si_entitiesCount (SqliteSession.getSessionInfo (instance r))
    = si_entitiesCount (SqliteSession.getSessionInfo c) ∧
  (∀ key, key_bytes c = Some key → key ≠ [] →
     key_bytes (instance r) = Some key) ∧
  (key_bytes c = None ∨ key_bytes c = Some [] →
     authKey (sessionData (instance r)) = authKey (sessionData c2)).
Proof.
  intros Hdir Hne Hjson Hwf _ Hc2 w1 r.
  assert (Hw1 : files w1 !! filePath
                = Some (JSON_stringify_pretty
                          (exported_document toISOString c (clock w)))
                ∧ dbs w1 = dbs w).
  { subst w1. unfold world_of. rewrite (exportToFile_run c w filePath Hdir Hne).
    simpl. rewrite lookup_insert_eq. split; [done|]. by destruct (_ || _). }
  destruct Hw1 as [Hfile Hdbs].
  assert (Hc2' : connected c2 w1).
  { unfold connected, has_table in *. by rewrite Hdbs. }
  clearbody w1.
  set (doc := exported_document toISOString c (clock w)) in *.
  destruct (importFromFile_run c2 w1 filePath _ doc
              (or_Z (dcId (sessionData c)) 0)
              (Some (or_string (serverAddress (sessionData c)) EmptyString))
              (Some (or_Z (port (sessionData c)) 443))
              (JSMap.Object_fromEntries (entitiesMap c)) Hfile Hjson)
    as (c' & w' & rowid & Hrun & Hd & Hs & _); try done.
  { unfold auth_key_typed, doc. simpl. by destruct (key_bytes c). }
  assert (Hents : entitiesMap c' ≡ₚ entitiesMap c).
  { unfold entitiesMap at 1. rewrite Hs. by apply entities_round_trip. }
  subst r. unfold result, instance, key_bytes at 2. rewrite Hrun. simpl.
  rewrite Hd.
  split_and!; try done.
  - intros id. apply JSMap_get_Permutation; [|done].
    unfold JSMap.wf, JSMap.keys in *. by rewrite Hents.
  - unfold JSMap.size. by rewrite Hents.
  - intros key Hkey Hnil.
    unfold import_fields, imported_key, doc. simpl. rewrite Hkey.
    destruct key as [|b key]; [done|]. simpl.
    f_equal. apply (Buffer_from_hex_toString_hex (b :: key)).
  - unfold import_fields, imported_key, doc. simpl.
    by intros [-> | ->].
Qed.
End more_session.

(* ================================================================== *)
(** * The further properties at sample inputs *)
(* ================================================================== *)

Section more_samples.
Import JS World SessionState Props MoreProps Samples.

(** X13 on a new session and an empty disk: one connection after [save],
    none after [close]. *)
Lemma X13_one_connection_per_session_witness :
  let r1 := SqliteSession.save JSONRef.JSON_stringify (new_session, empty_world) in
  let r2 := SqliteSession.load JSONRef.JSON_parse JSONRef.JSON_stringify r1.2 in
  let r3 := SqliteSession.close r2.2 in
  handles (world_of r1) = 1 + 0 ∧
  handles (world_of r2) = handles (world_of r1) ∧
  handles (world_of r3) = handles (world_of r1) - 1 ∧
  db (instance r3) = None ∧
  SqliteSession.close r3.2 = (Return tt, r3.2).
Proof.
  apply (X13_one_connection_per_session JSONRef.JSON_parse JSONRef.JSON_stringify
           new_session empty_world).
  exact I.
Defined.


(** X15 on a session that was given a data center and a key before its
    first [load], on an empty disk. *)
Lemma X15_load_without_a_row_witness :
  let c := session_with 2 "149.154.167.40" 443 (Some two_bytes) [] in
  let r := SqliteSession.load JSONRef.JSON_parse JSONRef.JSON_stringify
             (c, empty_world) in
  sessionData (instance r) = sessionData c ∧
  row_at (world_of r) "sessions.db" "main" = None.
Proof.
  intros c r.
  destruct (X15_load_without_a_row JSONRef.JSON_parse JSONRef.JSON_stringify
              c empty_world (Int 7) JNull) as (Hdata & _ & Hrow & _).
  - reflexivity.
  - exact I.
  - reflexivity.
  - split; [exact Hdata | exact Hrow].
Defined.

(** X16 on a loaded session and an empty disk. *)
Lemma X16_mutation_of_loaded_session_is_durable_witness :
  let c := set_isLoaded true new_session in
  let fresh_load w1 :=
    instance (SqliteSession.load JSONRef.JSON_parse JSONRef.JSON_stringify
                (SqliteSession.constructor "sessions.db" (Some "main"),
                 set_clock 200%N w1)) in
  let c1 := fresh_load
              (world_of (SqliteSession.setDC JSONRef.JSON_stringify 2
                           "149.154.167.40" 443 (c, empty_world))) in
  dcId (sessionData c1) = Some 2 ∧
  serverAddress (sessionData c1) = Some "149.154.167.40" ∧
  port (sessionData c1) = Some 443.
Proof.
  intros c fresh_load c1.
  destruct (X16_mutation_of_loaded_session_is_durable
              JSONRef.JSON_parse JSONRef.JSON_stringify
              c empty_world 2 443 "149.154.167.40" two_bytes 200%N)
    as (H1 & H2 & H3 & _).
  - reflexivity.
  - exact I.
  - lia.
  - lia.
  - discriminate.
  - discriminate.
  - split; [exact H1 | split; [exact H2 | exact H3]].
Defined.

(** X17 on a file that holds the session [second]: saving [main] leaves
    it. *)
Lemma X17_save_leaves_other_sessions_witness :
  let row := {| id := 1; name := "second"; auth_key := None; dc_id := Some 4;
                server_address := None; World.port := None;
                World.entities := None;
                created_at := 50%N; updated_at := 50%N |} in
  let w1 := world_of (SqliteSession.save JSONRef.JSON_stringify
                        (new_session, world_with row)) in
  row_at w1 "sessions.db" "second" = Some row.
Proof.
  intros row w1.
  destruct (X17_save_leaves_other_sessions JSONRef.JSON_parse JSONRef.JSON_stringify
              new_session (world_with row) "second" 200%N) as (Hrow & _).
  - exact I.
  - discriminate.
  - exact Hrow.
Defined.

(** X18 on a new session and an empty disk. *)
Lemma X18_saved_session_exists_witness :
  let w1 := world_of (SqliteSession.save JSONRef.JSON_stringify
                        (new_session, empty_world)) in
  (SessionManager.sessionExists "sessions.db" "main" w1).1 = Return true.
Proof.
  apply (X18_saved_session_exists JSONRef.JSON_stringify new_session empty_world).
  exact I.
Defined.


(** X20 on an empty disk. *)
Lemma X20_import_of_a_missing_file_witness :
  SqliteSession.importFromFile JSONRef.JSON_parse JSONRef.JSON_stringify
    "backup.session" (new_session, empty_world)
  = (Throw (Error "Session file not found: backup.session"),
     (new_session, empty_world)).
Proof.
  apply (X20_import_of_a_missing_file JSONRef.JSON_parse JSONRef.JSON_stringify
           new_session empty_world "backup.session").
  - reflexivity.
  - apply not_elem_of_empty.
  - reflexivity.
Defined.

(** X21 on a file that holds an opening brace and nothing else. *)
Lemma X21_import_of_a_malformed_file_witness :
  SqliteSession.importFromFile JSONRef.JSON_parse JSONRef.JSON_stringify
    "backup.session" (new_session, world_with_file "{")
  = (Throw SyntaxError, (new_session, world_with_file "{")).
Proof.
  apply (X21_import_of_a_malformed_file JSONRef.JSON_parse JSONRef.JSON_stringify
           new_session (world_with_file "{") "backup.session" "{").
  - reflexivity.
  - vm_compute. reflexivity.
Defined.

(** X22 on a file with a [dc_id] and nothing else, imported by a session
    that holds one entity: the entity is gone, the data center is the one of
    the file, and the disk is as it was. *)
Lemma X22_failed_import_leaves_instance_half_updated_witness :
  let c := session_with 4 "10.0.0.1" 80 None one_entity in
  let w := world_with_file (JSONRef.JSON_stringify bare_document) in
  let r := SqliteSession.importFromFile JSONRef.JSON_parse JSONRef.JSON_stringify
             "backup.session" (c, w) in
  result r = Throw TypeError ∧
  world_of r = w ∧
  dcId (sessionData (instance r)) = Some 2 ∧
  entitiesMap (instance r) = [].
Proof.
  intros c w r.
  destruct (X22_failed_import_leaves_instance_half_updated
              JSONRef.JSON_parse JSONRef.JSON_stringify
              c w "backup.session" (JSONRef.JSON_stringify bare_document)
              bare_document 2 None None)
    as (H1 & H2 & H3 & _ & _ & _ & H4 & _).
  - reflexivity.
  - vm_compute. reflexivity.
  - reflexivity.
  - exact I.
  - reflexivity.
  - reflexivity.
  - left. reflexivity.
  - split; [exact H1 | split; [exact H2 | split; [exact H3 | exact H4]]].
Defined.

(** X23 on the file of the sample document, imported by a new session on a
    disk without a store. *)
Lemma X23_import_replaces_and_stores_witness :
  let w := world_with_file (JSONRef.JSON_stringify sample_document) in
  ∃ c' w',
    SqliteSession.importFromFile JSONRef.JSON_parse JSONRef.JSON_stringify
      "backup.session" (new_session, w) = (Return tt, (c', w')) ∧
    dcId (sessionData c') = Some 2 ∧
    key_bytes c' = Some two_bytes ∧
    entitiesMap c' = one_entity ∧
    is_Some (row_at w' "sessions.db" "main").
Proof.
  intros w.
  destruct (X23_import_replaces_and_stores
              JSONRef.JSON_parse JSONRef.JSON_stringify
              new_session w "backup.session" (JSONRef.JSON_stringify sample_document)
              sample_document 2 (Some "149.154.167.40") (Some 443)
              [("7", JObj [("name", JStr "x")])])
    as (c' & w' & rowid & Hrun & Hdc & _ & _ & Hkey & Hsuper & _ & Hrow & _).
  - reflexivity.
  - vm_compute. reflexivity.
  - reflexivity.
  - exact I.
  - reflexivity.
  - reflexivity.
  - reflexivity.
  - exact I.
  - exists c', w'. split; [exact Hrun|]. split; [exact Hdc|].
    split; [unfold key_bytes; rewrite Hkey; reflexivity|].
    split; [unfold entitiesMap; rewrite Hsuper; reflexivity|].
    eexists. exact Hrow.
Defined.

(** X24 on the sample document, which [validateSessionData] accepts and
    whose [entities] is an object. *)
Lemma X24_validated_document_imports_unless_entities_null_witness :
  result (SqliteSession.importFromFile JSONRef.JSON_parse JSONRef.JSON_stringify
            "backup.session"
            (new_session, world_with_file (JSONRef.JSON_stringify sample_document)))
  = Return tt.
Proof.
  apply (X24_validated_document_imports_unless_entities_null
           JSONRef.JSON_parse JSONRef.JSON_stringify
           new_session (world_with_file (JSONRef.JSON_stringify sample_document))
           "backup.session" (JSONRef.JSON_stringify sample_document)
           sample_document).
  - reflexivity.
  - vm_compute. reflexivity.
  - reflexivity.
  - exact I.
Defined.

(** X25 on a session with a data center, a key and one entity, exported to
    [backup.session] in the current directory of a disk that holds no other
    file. *)
Lemma X25_export_writes_one_file_witness :
  let c := session_with 2 "149.154.167.40" 443 (Some two_bytes) one_entity in
  let w := set_dirs (λ _, {[ "." ]}) empty_world in
  ∃ w',
    SqliteSession.exportToFile JSONRef.JSON_stringify_pretty RuntimeRef.dirname
      RuntimeRef.toISOString "backup.session" (c, w)
      = (Return "backup.session", (c, w')) ∧
    files w' !! "backup.session"
      = Some (JSONRef.JSON_stringify_pretty
                (exported_document RuntimeRef.toISOString c 100%N)) ∧
    dbs w' = dbs w.
Proof.
  intros c w.
  destruct (X25_export_writes_one_file JSONRef.JSON_stringify_pretty
              RuntimeRef.dirname RuntimeRef.toISOString c w
              "backup.session") as (w' & Hrun & Hfile & _ & _ & Hdbs & _).
  - split; [|split; reflexivity].
    apply (bool_decide_unpack _). vm_compute. exact I.
  - apply (bool_decide_unpack _). vm_compute. exact I.
  - reflexivity.
  - exists w'. split; [exact Hrun | split; [exact Hfile | exact Hdbs]].
Defined.

(** X26 on the same session: a new session that imports the exported file
    holds its data center, its key and its entity. *)
Lemma X26_export_then_import_witness :
  let c := session_with 2 "149.154.167.40" 443 (Some two_bytes) one_entity in
  let w1 := world_of (SqliteSession.exportToFile JSONRef.JSON_stringify_pretty
                        RuntimeRef.dirname RuntimeRef.toISOString
                        "backup.session" (c, empty_world)) in
  let r := SqliteSession.importFromFile JSONRef.JSON_parse JSONRef.JSON_stringify
             "backup.session" (new_session, w1) in
  result r = Return tt ∧
  dcId (sessionData (instance r)) = Some 2 ∧
  serverAddress (sessionData (instance r)) = Some "149.154.167.40" ∧
  port (sessionData (instance r)) = Some 443 ∧
  JSMap.get (entitiesMap (instance r)) (Int 7) = Some (JObj [("name", JStr "x")]) ∧
  si_entitiesCount (SqliteSession.getSessionInfo (instance r)) = 1 ∧
  key_bytes (instance r) = Some two_bytes.
Proof.
  intros c w1 r.
  destruct (X26_export_then_import JSONRef.JSON_parse JSONRef.JSON_stringify
              JSONRef.JSON_stringify_pretty RuntimeRef.dirname
              RuntimeRef.toISOString c new_session empty_world "backup.session")
    as (H1 & H2 & H3 & H4 & _ & H5 & H6 & H7 & _).
  - apply not_elem_of_empty.
  - vm_compute. discriminate.
  - vm_compute. reflexivity.
  - apply NoDup_singleton.
  - apply Forall_cons. split; [simpl; lia | apply Forall_nil_2].
  - exact I.
  - split; [exact H1|]. split; [exact H2|]. split; [exact H3|].
    split; [exact H4|]. split; [exact (H5 (Int 7))|]. split; [exact H6|].
    apply (H7 two_bytes); [reflexivity | discriminate].
Defined.
End more_samples.

(* ================================================================== *)
(** * The statements and the table *)
(* ================================================================== *)

Section more_statements.
Import JS World DatabaseManager Props MoreProps.

(** X27.  The statements of [DatabaseManager] need the table.  On a
    connection to a file in which [ensureTable] has not yet created
    [telegram_sessions], [loadSessionData], [saveSessionData] and
    [deleteSessionData] throw the error of the SQLite engine and change
    nothing; after [ensureTable] each of them returns. *)
Theorem X27_statements_need_the_table
  (w : world) (db sessionName : string) (d : data) (file : database) :
  dbs w !! db = Some file →
  telegram_sessions file = None →
  loadSessionData db sessionName w = (Throw SqliteError, w) ∧
  saveSessionData db sessionName d w = (Throw SqliteError, w) ∧
  deleteSessionData db sessionName w = (Throw SqliteError, w) ∧
  let w1 := after (ensureTable db w) in
  loadSessionData db sessionName w1 = (Return None, w1) ∧
  (∃ w2, saveSessionData db sessionName d w1 = (Return tt, w2)) ∧
  (∃ w2, deleteSessionData db sessionName w1 = (Return tt, w2)).
Proof.
  intros Hfile Htable.
  assert (Hsame : set_dbs <[db := file]> w = w).
  { destruct w. unfold set_dbs. simpl in *. f_equal. by apply insert_id. }
  unfold loadSessionData, saveSessionData, deleteSessionData, on_table.
  rewrite !(on_database_run _ _ _ _ Hfile), Htable. simpl. rewrite Hsame.
  split; [done|]. split; [done|]. split; [done|].
  unfold after. rewrite (ensureTable_run _ _ _ Hfile), Htable. simpl.
  match goal with |- context [set_dbs <[db := ?f]> w] => set (file' := f) end.
  assert (Hfile' : dbs (set_dbs <[db := file']> w) !! db
                   = Some {| telegram_sessions := Some [];
                             sqlite_sequence := sqlite_sequence file |}).
  { simpl. apply lookup_insert_eq. }
  rewrite !(on_database_run _ _ _ _ Hfile'). simpl.
  split; [|split; by eexists].
  f_equal. unfold set_dbs. simpl. f_equal. by rewrite insert_insert_eq.
Qed.

(** X27 on a file that was opened and never given the table. *)
Lemma X27_statements_need_the_table_witness :
  let w := {| dbs := {[ "sessions.db" := new_database ]}; files := ∅; dirs := ∅;
              handles := 1; clock := 100%N |} in
  loadSessionData "sessions.db" "main" w = (Throw SqliteError, w) ∧
  deleteSessionData "sessions.db" "main" w = (Throw SqliteError, w).
Proof.
  intros w.
  destruct (X27_statements_need_the_table w "sessions.db" "main"
              {| authKey := None; dcId := None; serverAddress := None;
                 port := None; entities := None |} new_database)
    as (Hload & _ & Hdelete & _).
  - reflexivity.
  - reflexivity.
  - split; [exact Hload | exact Hdelete].
Defined.
End more_statements.
